(** * paodate: a shallow embedding of [paodate.py] and its value-type contract.

    The module [paodate.py] defines one class, [Date], wrapping a single
    [datetime] (attribute [dt]) behind read/write properties.  All calendar
    arithmetic is delegated to the Python 2 standard library ([datetime],
    [calendar], [time]) and to [dateutil.relativedelta].  The embedding
    therefore has two layers:

    - the host primitives the class calls, written after the algorithms of
      CPython's [datetime] module (proleptic Gregorian ordinals), of
      [calendar.monthrange], of [dateutil.relativedelta.__radd__] and of
      [time.mktime]/[time.strftime];
    - the class [Date] itself, translated method by method.

    Conventions and limits of the model:

    - Python integers are unbounded and are modelled by [Z]; a call that
      can raise returns in the error monad [result];
    - a [Date] is mutable; a setter is a function from the instance to
      the instance after the assignment;
    - the host's time zone is a parameter [zone] of everything that
      converts between timestamps and local time: the offset [localtime]
      applies at each instant and the instant [mktime] returns for each
      civil time.  A zone with one offset all year is [fixed_offset];
      what holds there only is stated for [fixed_offset utcoffset], and
      a zone with daylight saving, [central_europe], shows why.  The
      reading of the clock is a parameter [now];
    - timestamps are integers (floating-point seconds are not modelled);
    - [time.strftime] formats in the C locale, and the [time] module
      reads years below 1900 as Python 2 does;
    - the doctests of the source are replayed in section [Doctests]. *)

From Stdlib Require Import ZArith Lia List Bool String Ascii.
From Stdlib Require Import DecimalString.
Import ListNotations.

Local Open Scope Z_scope.
Local Open Scope bool_scope.

(** ** Exceptions and the error monad *)

Inductive PyErr : Type :=
| ValueError
| TypeError
| OverflowError
| RuntimeError.

Inductive result (A : Type) : Type :=
| Ok (a : A)
| Raise (e : PyErr).

Arguments Ok {A} a.
Arguments Raise {A} e.

Definition bind {A B : Type} (r : result A) (k : A -> result B) : result B :=
  match r with
  | Ok a => k a
  | Raise e => Raise e
  end.

Declare Scope py_scope.
Delimit Scope py_scope with py.
Notation "x <- c1 ;; c2" := (bind c1 (fun x => c2))
  (at level 61, c1 at next level, right associativity) : py_scope.
Local Open Scope py_scope.

(** ** The proleptic Gregorian calendar of the [datetime] module *)

Module Calendar.

Definition MINYEAR : Z := 1.
Definition MAXYEAR : Z := 9999.
Definition MAXORDINAL : Z := 3652059.

Definition DI400Y : Z := 146097.
Definition DI100Y : Z := 36524.
Definition DI4Y : Z := 1461.

(** [calendar.isleap] *)
Definition isleap (year : Z) : bool :=
  (year mod 4 =? 0) && (negb (year mod 100 =? 0) || (year mod 400 =? 0)).

(** The tables [_DAYS_IN_MONTH] and [_DAYS_BEFORE_MONTH]; index 0 is a
    placeholder, as in the library. *)
Definition DAYS_IN_MONTH : list Z :=
  [0; 31; 28; 31; 30; 31; 30; 31; 31; 30; 31; 30; 31].

Definition DAYS_BEFORE_MONTH : list Z :=
  [0; 0; 31; 59; 90; 120; 151; 181; 212; 243; 273; 304; 334].

Definition tbl (t : list Z) (i : Z) : Z := nth (Z.to_nat i) t 0.

Definition b2z (b : bool) : Z := if b then 1 else 0.

Definition days_before_year (year : Z) : Z :=
  let y := year - 1 in
  y * 365 + y / 4 - y / 100 + y / 400.

Definition days_in_month (year month : Z) : Z :=
  if (month =? 2) && isleap year then 29 else tbl DAYS_IN_MONTH month.

Definition days_before_month (year month : Z) : Z :=
  tbl DAYS_BEFORE_MONTH month + b2z ((month >? 2) && isleap year).

(** [date.toordinal]: 0001-01-01 is day 1. *)
Definition ymd2ord (year month day : Z) : Z :=
  days_before_year year + days_before_month year month + day.

(** [date.fromordinal] *)
Definition ord2ymd (n0 : Z) : Z * Z * Z :=
  let n := n0 - 1 in
  let n400 := n / DI400Y in
  let n := n mod DI400Y in
  let year := n400 * 400 + 1 in
  let n100 := n / DI100Y in
  let n := n mod DI100Y in
  let n4 := n / DI4Y in
  let n := n mod DI4Y in
  let n1 := n / 365 in
  let n := n mod 365 in
  let year := year + n100 * 100 + n4 * 4 + n1 in
  if (n1 =? 4) || (n100 =? 4) then (year - 1, 12, 31)
  else
    let leapyear := (n1 =? 3) && (negb (n4 =? 24) || (n100 =? 3)) in
    let month := Z.shiftr (n + 50) 5 in
    let preceding := tbl DAYS_BEFORE_MONTH month
                     + b2z ((month >? 2) && leapyear) in
    if preceding >? n then
      let month := month - 1 in
      let preceding := preceding
                       - (tbl DAYS_IN_MONTH month
                          + b2z ((month =? 2) && leapyear)) in
      (year, month, n - preceding + 1)
    else (year, month, n - preceding + 1).

(** The range check every [date] constructor performs. *)
Definition valid_ymd (year month day : Z) : bool :=
  (MINYEAR <=? year) && (year <=? MAXYEAR)
  && (1 <=? month) && (month <=? 12)
  && (1 <=? day) && (day <=? days_in_month year month).

(** [date.weekday]: Monday is 0. *)
Definition weekday (year month day : Z) : Z :=
  (ymd2ord year month day + 6) mod 7.

(** [calendar.monthrange]: weekday of the first day and number of days.
    The weekday is obtained through [datetime.date], which rejects a year
    outside [MINYEAR..MAXYEAR]. *)
Definition monthrange (year month : Z) : result (Z * Z) :=
  if negb ((1 <=? month) && (month <=? 12)) then Raise ValueError
  else if negb ((MINYEAR <=? year) && (year <=? MAXYEAR)) then Raise ValueError
  else Ok (weekday year month 1,
           tbl DAYS_IN_MONTH month + b2z ((month =? 2) && isleap year)).

End Calendar.

(** ** The types of the [datetime] module *)

Module Datetime.

Import Calendar.

Record date : Type := mkdate
  { d_year : Z; d_month : Z; d_day : Z }.

Record time : Type := mktime_of_day
  { t_hour : Z; t_minute : Z; t_second : Z; t_microsecond : Z }.

(** A naive [datetime]; [tzinfo] is [None] throughout [paodate.py]. *)
Record datetime : Type := mkdatetime
  { year : Z; month : Z; day : Z;
    hour : Z; minute : Z; second : Z; microsecond : Z }.

Definition valid_hms (h mi s us : Z) : bool :=
  (0 <=? h) && (h <=? 23) && (0 <=? mi) && (mi <=? 59)
  && (0 <=? s) && (s <=? 59) && (0 <=? us) && (us <=? 999999).

Definition valid_datetime (x : datetime) : bool :=
  valid_ymd (year x) (month x) (day x)
  && valid_hms (hour x) (minute x) (second x) (microsecond x).

(** [datetime(year, month, day, hour, minute, second, microsecond)]:
    the range checks of the constructor raise [ValueError]. *)
Definition datetime_new (y m d h mi s us : Z) : result datetime :=
  if valid_ymd y m d && valid_hms h mi s us
  then Ok (mkdatetime y m d h mi s us)
  else Raise ValueError.

(** [datetime( *args )] for a sequence of integers.  The constructor takes
    three required and at most five optional positional arguments, the
    eighth being [tzinfo], which must be [None] or a [tzinfo] instance: an
    integer there is a [TypeError], raised after the range checks; a ninth
    argument, or fewer than three, is a [TypeError] of the argument parser. *)
Definition datetime_of_args (args : list Z) : result datetime :=
  match args with
  | [y; m; d] => datetime_new y m d 0 0 0 0
  | [y; m; d; h] => datetime_new y m d h 0 0 0
  | [y; m; d; h; mi] => datetime_new y m d h mi 0 0
  | [y; m; d; h; mi; s] => datetime_new y m d h mi s 0
  | [y; m; d; h; mi; s; us] => datetime_new y m d h mi s us
  | [y; m; d; h; mi; s; us; _] =>
      _ <- datetime_new y m d h mi s us ;; Raise TypeError
  | _ => Raise TypeError
  end.

(** [datetime.date()], [datetime.time()] and [datetime.combine]. *)
Definition date_of (x : datetime) : date :=
  mkdate (year x) (month x) (day x).

Definition time_of (x : datetime) : time :=
  mktime_of_day (hour x) (minute x) (second x) (microsecond x).

Definition combine (d : date) (t : time) : datetime :=
  mkdatetime (d_year d) (d_month d) (d_day d)
             (t_hour t) (t_minute t) (t_second t) (t_microsecond t).

(** [datetime.min.time()] is midnight. *)
Definition midnight : time := mktime_of_day 0 0 0 0.

(** [datetime.replace(year=..., month=..., day=...)] builds a new value
    through the constructor, so it re-validates. *)
Definition replace_ymd (x : datetime) (y m d : Z) : result datetime :=
  datetime_new y m d (hour x) (minute x) (second x) (microsecond x).

Definition replace_year (x : datetime) (y : Z) : result datetime :=
  replace_ymd x y (month x) (day x).

Definition toordinal (x : datetime) : Z :=
  ymd2ord (year x) (month x) (day x).

(** Comparison of naive datetimes is lexicographic on the seven fields;
    [cmp] yields -1, 0 or 1. *)
Fixpoint cmp_list (a b : list Z) : Z :=
  match a, b with
  | x :: a', y :: b' =>
      if x <? y then -1 else if y <? x then 1 else cmp_list a' b'
  | _, _ => 0
  end.

Definition fields (x : datetime) : list Z :=
  [year x; month x; day x; hour x; minute x; second x; microsecond x].

Definition cmp (a b : datetime) : Z := cmp_list (fields a) (fields b).

(** [timedelta], normalised to days, seconds in [0, 86400) and
    microseconds in [0, 10^6). *)
Record timedelta : Type := mktimedelta
  { td_days : Z; td_seconds : Z; td_microseconds : Z }.

Definition US_PER_SECOND : Z := 1000000.
Definition SECONDS_PER_DAY : Z := 86400.
Definition MAX_DELTA_DAYS : Z := 999999999.

(** [timedelta(days, seconds, microseconds, minutes=, hours=, weeks=)] on
    integer arguments. *)
Definition timedelta_new (days seconds microseconds minutes hours weeks : Z)
  : result timedelta :=
  let s := seconds + minutes * 60 + hours * 3600 in
  let us := microseconds mod US_PER_SECOND in
  let s := s + microseconds / US_PER_SECOND in
  let d := days + weeks * 7 + s / SECONDS_PER_DAY in
  let s := s mod SECONDS_PER_DAY in
  if (- MAX_DELTA_DAYS <=? d) && (d <=? MAX_DELTA_DAYS)
  then Ok (mktimedelta d s us)
  else Raise OverflowError.

(** [datetime + timedelta]: carry microseconds into seconds and seconds
    into days, then rebuild the date from the ordinal; a result outside
    [1..MAXORDINAL] is an [OverflowError]. *)
Definition datetime_add (x : datetime) (td : timedelta) : result datetime :=
  let us := microsecond x + td_microseconds td in
  let s := hour x * 3600 + minute x * 60 + second x
           + td_seconds td + us / US_PER_SECOND in
  let us := us mod US_PER_SECOND in
  let days := toordinal x + td_days td + s / SECONDS_PER_DAY in
  let s := s mod SECONDS_PER_DAY in
  if (0 <? days) && (days <=? MAXORDINAL) then
    let '(y, m, d) := ord2ymd days in
    Ok (mkdatetime y m d (s / 3600) (s mod 3600 / 60) (s mod 60) us)
  else Raise OverflowError.

(** [datetime - datetime], of which [paodate.py] reads only [.days]. *)
Definition datetime_sub_days (a b : datetime) : Z :=
  let us := microsecond a - microsecond b in
  let s := (hour a * 3600 + minute a * 60 + second a)
           - (hour b * 3600 + minute b * 60 + second b)
           + us / US_PER_SECOND in
  toordinal a - toordinal b + s / SECONDS_PER_DAY.

End Datetime.

(** ** [dateutil.relativedelta] *)

Module Relativedelta.

Import Calendar Datetime.

(** The relative fields of a [relativedelta].  [paodate.py] only passes
    [years], [months] and [days]; the absolute fields ([year], [month],
    [day], [weekday], ...) stay [None] and [leapdays] stays 0, so the
    branches of [__radd__] they guard are never taken. *)
Record relativedelta : Type := mkrelativedelta
  { rd_years : Z; rd_months : Z; rd_days : Z }.

(** [relativedelta(years=, months=, days=)], with the month part of
    [_fix]: more than eleven months carry into the years, keeping the
    sign. *)
Definition relativedelta_new (years months days : Z) : relativedelta :=
  if Z.abs months >? 11 then
    let s := months / Z.abs months in
    let q := (months * s) / 12 in
    let r := (months * s) mod 12 in
    mkrelativedelta (years + q * s) (r * s) days
  else mkrelativedelta years months days.

(** [relativedelta.__radd__], reached from [datetime + relativedelta]. *)
Definition radd (rd : relativedelta) (other : datetime) : result datetime :=
  let y := year other + rd_years rd in
  let m := month other in
  let '(y, m) :=
    if rd_months rd =? 0 then (y, m)
    else
      let m := m + rd_months rd in
      if m >? 12 then (y + 1, m - 12)
      else if m <? 1 then (y - 1, m + 12)
      else (y, m) in
  mr <- monthrange y m ;;
  let d := Z.min (snd mr) (day other) in
  r <- replace_ymd other y m d ;;
  td <- timedelta_new (rd_days rd) 0 0 0 0 0 ;;
  datetime_add r td.

End Relativedelta.

(** ** The [time] module: [struct_time], [mktime], [strftime] *)

Module PyTime.

Import Calendar Datetime.

Record struct_time : Type := mkstruct_time
  { tm_year : Z; tm_mon : Z; tm_mday : Z;
    tm_hour : Z; tm_min : Z; tm_sec : Z;
    tm_wday : Z; tm_yday : Z; tm_isdst : Z }.

(** [datetime.timetuple()] of a naive datetime: [tm_isdst] is -1. *)
Definition timetuple (x : datetime) : struct_time :=
  mkstruct_time (year x) (month x) (day x) (hour x) (minute x) (second x)
    (weekday (year x) (month x) (day x))
    (ymd2ord (year x) (month x) (day x) - ymd2ord (year x) 1 1 + 1)
    (-1).

(** Ordinal of 1970-01-01. *)
Definition EPOCH_ORDINAL : Z := 719163.

(** Python 2 reads the year of a time tuple with two-digit years
    accepted ([time.accept2dyear] is on by default): 69..99 mean
    1969..1999, 0..68 mean 2000..2068, any other year below 1900 is a
    [ValueError]. *)
Definition gettmarg_year (y : Z) : result Z :=
  if y <? 1900 then
    if (69 <=? y) && (y <=? 99) then Ok (y + 1900)
    else if (0 <=? y) && (y <=? 68) then Ok (y + 2000)
    else Raise ValueError
  else Ok y.

(** The host's time zone, as the C library presents it.  [offset_at t]
    is the number of seconds east of UTC in force at the instant [t]:
    [localtime] reads [t] as the civil time [t + offset_at t].
    [resolve isdst l] is the instant [mktime] returns for the civil time
    [l] (in seconds from 1970-01-01 00:00:00) and the flag
    [tm_isdst = isdst].  At a daylight-saving transition a civil time is
    read twice or not at all; which instant [mktime] returns there is the
    library's choice, hence a component of the zone. *)
Record Zone : Type := mkZone
  { offset_at : Z -> Z;
    resolve : Z -> Z -> Z }.

(** A zone with one offset all year: each civil time has one instant,
    whatever the flag. *)
Definition fixed_offset (utcoffset : Z) : Zone :=
  mkZone (fun _ => utcoffset) (fun _ l => l - utcoffset).

Section LocalZone.

Variable zone : Zone.

(** [datetime.fromtimestamp(t)] for an integer [t]: the local civil
    date-time of [t] seconds after the epoch; a year outside
    [MINYEAR..MAXYEAR] is a [ValueError]. *)
Definition fromtimestamp (t : Z) : result datetime :=
  let local := t + offset_at zone t in
  let days := EPOCH_ORDINAL + local / SECONDS_PER_DAY in
  let s := local mod SECONDS_PER_DAY in
  if (1 <=? days) && (days <=? MAXORDINAL) then
    let '(y, m, d) := ord2ymd days in
    Ok (mkdatetime y m d (s / 3600) (s mod 3600 / 60) (s mod 60) 0)
  else Raise ValueError.

(** [int(time.mktime(t))] on a tuple whose fields are in range, which is
    what [timetuple] produces. *)
Definition mktime (t : struct_time) : result Z :=
  y <- gettmarg_year (tm_year t) ;;
  Ok (resolve zone (tm_isdst t)
        ((ymd2ord y (tm_mon t) (tm_mday t) - EPOCH_ORDINAL) * SECONDS_PER_DAY
         + tm_hour t * 3600 + tm_min t * 60 + tm_sec t)).

End LocalZone.

(** *** Formatting, in the C locale *)

Definition month_name (m : Z) : string :=
  nth (Z.to_nat m)
    [""; "January"; "February"; "March"; "April"; "May"; "June"; "July";
     "August"; "September"; "October"; "November"; "December"]%string
    ""%string.

Definition month_abbr (m : Z) : string :=
  nth (Z.to_nat m)
    [""; "Jan"; "Feb"; "Mar"; "Apr"; "May"; "Jun"; "Jul";
     "Aug"; "Sep"; "Oct"; "Nov"; "Dec"]%string
    ""%string.

Definition digit (d : Z) : ascii := ascii_of_nat (48 + Z.to_nat d).

(** A number below 100 on two digits, zero-padded. *)
Definition pad2 (n : Z) : string :=
  String (digit (n / 10)) (String (digit (n mod 10)) EmptyString).

(** A non-negative number in decimal. *)
Definition decimal (n : Z) : string :=
  NilZero.string_of_uint (N.to_uint (Z.to_N n)).

(** The conversions [paodate.py] uses, and [%%]. *)
Definition directive (c : ascii) (t : struct_time) : option string :=
  match c with
  | "Y"%char => Some (decimal (tm_year t))
  | "m"%char => Some (pad2 (tm_mon t))
  | "d"%char => Some (pad2 (tm_mday t))
  | "H"%char => Some (pad2 (tm_hour t))
  | "M"%char => Some (pad2 (tm_min t))
  | "S"%char => Some (pad2 (tm_sec t))
  | "B"%char => Some (month_name (tm_mon t))
  | "b"%char => Some (month_abbr (tm_mon t))
  | "%"%char => Some "%"%string
  | _ => None
  end.

(** Expansion of a format: a conversion outside the table above is
    copied unchanged. *)
Fixpoint expand (format : string) (t : struct_time) : string :=
  match format with
  | EmptyString => EmptyString
  | String "%"%char (String c rest) =>
      match directive c t with
      | Some s => (s ++ expand rest t)%string
      | None => String "%"%char (String c (expand rest t))
      end
  | String c rest => String c (expand rest t)
  end.

(** The field checks of [time.strftime]: a zero month, day of month or
    day of year is read as one, [tm_isdst] is clamped to [-1..1], and a
    field out of range is a [ValueError]. *)
Definition checktm (t : struct_time) : result struct_time :=
  y <- gettmarg_year (tm_year t) ;;
  let mon := if tm_mon t =? 0 then 1 else tm_mon t in
  let mday := if tm_mday t =? 0 then 1 else tm_mday t in
  let yday := if tm_yday t =? 0 then 1 else tm_yday t in
  if (1 <=? mon) && (mon <=? 12) && (1 <=? mday) && (mday <=? 31)
     && (0 <=? tm_hour t) && (tm_hour t <=? 23)
     && (0 <=? tm_min t) && (tm_min t <=? 59)
     && (0 <=? tm_sec t) && (tm_sec t <=? 61)
     && (-1 <=? tm_wday t)
     && (1 <=? yday) && (yday <=? 366)
  then Ok (mkstruct_time y mon mday (tm_hour t) (tm_min t) (tm_sec t)
             (tm_wday t) yday (Z.max (-1) (Z.min 1 (tm_isdst t))))
  else Raise ValueError.

(** [time.strftime(format, t)] *)
Definition strftime (format : string) (t : struct_time) : result string :=
  t' <- checktm t ;;
  Ok (expand format t').

End PyTime.

(** ** The class [Date] *)

Module Paodate.

Import Calendar Datetime Relativedelta PyTime.

(** An instance holds one attribute, [dt]. *)
Record Date : Type := mkDate { dt : datetime }.

(** The Python values the code dispatches on by runtime type: the
    constructor's first argument and the operand of a comparison.
    [PyInt] stands for [int] and [long].  A [float], which the
    constructor accepts as seconds too, is not represented: what is
    proved of timestamps is proved of integer seconds. *)
Inductive PyValue : Type :=
| PyNone
| PyInt (n : Z)
| PySeq (l : list Z)
| PyDate (d : date)
| PyDatetime (x : datetime)
| PyStr (s : string)
| PyPaoDate (d : Date).

(** [cmp(self.dt, value.dt)] when [type(value) == Date], else
    [TypeError]. *)
Definition __cmp__ (self : Date) (value : PyValue) : result Z :=
  match value with
  | PyPaoDate other => Ok (cmp (dt self) (dt other))
  | _ => Raise TypeError
  end.

(** The operators [<], [>] and [==], which Python 2 derives from
    [__cmp__]. *)
Definition op_lt (self : Date) (value : PyValue) : result bool :=
  c <- __cmp__ self value ;; Ok (c <? 0).

Definition op_gt (self : Date) (value : PyValue) : result bool :=
  c <- __cmp__ self value ;; Ok (c >? 0).

Definition op_eq (self : Date) (value : PyValue) : result bool :=
  c <- __cmp__ self value ;; Ok (c =? 0).

(** *** The properties: getters and setters *)

Definition _get_datetime (self : Date) : datetime := dt self.
Definition _set_datetime (self : Date) (value : datetime) : Date :=
  mkDate value.

Definition _get_date (self : Date) : date := date_of (dt self).
Definition _set_date (self : Date) (value : date) : Date :=
  mkDate (combine value (time_of (dt self))).

Definition _get_time (self : Date) : time := time_of (dt self).
Definition _set_time (self : Date) (value : time) : Date :=
  mkDate (combine (date_of (dt self)) value).

Definition _get_tuple (self : Date) : struct_time := timetuple (dt self).

Definition _get_year (self : Date) : Z := year (dt self).
Definition _set_year (self : Date) (value : Z) : result Date :=
  x <- replace_year (dt self) value ;; Ok (mkDate x).

Definition _get_month (self : Date) : Z := month (dt self).
Definition _set_month (self : Date) (value : Z) : result Date :=
  x <- radd (relativedelta_new 0 (value - month (dt self)) 0) (dt self) ;;
  Ok (mkDate x).

Definition _get_week (self : Date) : Z :=
  datetime_sub_days (dt self) (mkdatetime (year (dt self)) 1 1 0 0 0 0) / 7.
Definition _set_week (self : Date) (value : Z) : result Date :=
  let week := _get_week self in
  td <- timedelta_new 0 0 0 0 0 (value - week) ;;
  x <- datetime_add (dt self) td ;; Ok (mkDate x).

Definition _get_day (self : Date) : Z := day (dt self).
Definition _set_day (self : Date) (value : Z) : result Date :=
  td <- timedelta_new (value - day (dt self)) 0 0 0 0 0 ;;
  x <- datetime_add (dt self) td ;; Ok (mkDate x).

Definition _get_hour (self : Date) : Z := hour (dt self).
Definition _set_hour (self : Date) (value : Z) : result Date :=
  td <- timedelta_new 0 0 0 0 (value - hour (dt self)) 0 ;;
  x <- datetime_add (dt self) td ;; Ok (mkDate x).

Definition _get_minute (self : Date) : Z := minute (dt self).
Definition _set_minute (self : Date) (value : Z) : result Date :=
  td <- timedelta_new 0 0 0 (value - minute (dt self)) 0 0 ;;
  x <- datetime_add (dt self) td ;; Ok (mkDate x).

Definition _get_second (self : Date) : Z := second (dt self).
Definition _set_second (self : Date) (value : Z) : result Date :=
  td <- timedelta_new 0 (value - second (dt self)) 0 0 0 0 ;;
  x <- datetime_add (dt self) td ;; Ok (mkDate x).

Definition _get_microsecond (self : Date) : Z := microsecond (dt self).
Definition _set_microsecond (self : Date) (value : Z) : result Date :=
  td <- timedelta_new 0 0 (value - microsecond (dt self)) 0 0 0 ;;
  x <- datetime_add (dt self) td ;; Ok (mkDate x).

Section Host.

(** The host: the local zone and the reading of the clock
    ([datetime.now()]). *)
Variable zone : Zone.
Variable now : datetime.

(** [Date.__init__]: dispatch on the type of [dt], then the six
    statements [self.year -= years_ago], ..., [self.second -= seconds_ago]
    that the loop over the [*_ago] names executes. *)
Definition __init__ (dt0 : PyValue)
    (years_ago months_ago days_ago hours_ago minutes_ago seconds_ago : Z)
  : result Date :=
  x <- match dt0 with
       | PyNone => Ok now
       | PyInt t => fromtimestamp zone t
       | PySeq l => datetime_of_args l
       | PyDate d => Ok (combine d midnight)
       | PyDatetime x => Ok x
       | _ => Raise ValueError
       end ;;
  let self := mkDate x in
  self <- _set_year self (_get_year self - years_ago) ;;
  self <- _set_month self (_get_month self - months_ago) ;;
  self <- _set_day self (_get_day self - days_ago) ;;
  self <- _set_hour self (_get_hour self - hours_ago) ;;
  self <- _set_minute self (_get_minute self - minutes_ago) ;;
  _set_second self (_get_second self - seconds_ago).

(** [Date(dt)] with no offsets. *)
Definition Date_ (dt0 : PyValue) : result Date := __init__ dt0 0 0 0 0 0 0.

(** The module-level sentinels. *)
Definition MIN : result Date := Date_ (PyInt 0).
Definition MAX : result Date :=
  Date_ (PyDatetime (mkdatetime 2038 1 1 0 0 0 0)).

(** [_get_timestamp] reads [MAX.timestamp], that is, calls itself on
    [MAX]; the recursion is bounded by the interpreter's recursion
    limit. *)
Fixpoint _get_timestamp_rec (depth : nat) (self : Date) : result Z :=
  match depth with
  | O => Raise RuntimeError
  | S depth' =>
      max <- MAX ;;
      beyond <- op_gt self (PyPaoDate max) ;;
      if beyond then _get_timestamp_rec depth' max
      else mktime zone (timetuple (dt self))
  end.

Definition recursion_limit : nat := 1000.

Definition _get_timestamp (self : Date) : result Z :=
  _get_timestamp_rec recursion_limit self.

Definition _set_timestamp (self : Date) (value : Z) : result Date :=
  x <- fromtimestamp zone value ;; Ok (mkDate x).

(** [_set_tuple]: [self.dt.fromtimestamp(int(time.mktime(value)))], for
    a tuple whose fields are in range (see [mktime]). *)
Definition _set_tuple (self : Date) (value : struct_time) : result Date :=
  t <- mktime zone value ;;
  x <- fromtimestamp zone t ;;
  Ok (mkDate x).

(** *** Derived accessors *)

Definition days_in_month (self : Date) : result Z :=
  mr <- monthrange (_get_year self) (_get_month self) ;; Ok (snd mr).

Definition strftime (self : Date) (format : string) : result string :=
  PyTime.strftime format (_get_tuple self).

Definition __repr__ (self : Date) : result string :=
  strftime self "Date(%Y-%m-%d, %H:%M:%S)".

Definition start_of_day (self : Date) : result Date :=
  let t := timetuple (dt self) in
  x <- datetime_new (tm_year t) (tm_mon t) (tm_mday t) 0 0 0 0 ;;
  Date_ (PyDatetime x).

Definition end_of_day (self : Date) : result Date :=
  let t := timetuple (dt self) in
  x <- datetime_new (tm_year t) (tm_mon t) (tm_mday t) 23 59 59 999999 ;;
  Date_ (PyDatetime x).

Definition start_of_month (self : Date) : result Date :=
  x <- datetime_new (year (dt self)) (month (dt self)) 1 0 0 0 0 ;;
  Date_ (PyDatetime x).

Definition end_of_month (self : Date) : result Date :=
  x <- datetime_new (year (dt self)) (month (dt self)) 1 23 59 59 999999 ;;
  e <- radd (relativedelta_new 0 1 (-1)) x ;;
  Date_ (PyDatetime e).

Definition start_of_year (self : Date) : result Date :=
  x <- datetime_new (year (dt self)) 1 1 0 0 0 0 ;;
  Date_ (PyDatetime x).

Definition end_of_year (self : Date) : result Date :=
  x <- datetime_new (year (dt self)) 1 1 23 59 59 999999 ;;
  e <- radd (relativedelta_new 1 0 (-1)) x ;;
  Date_ (PyDatetime e).

Definition friendly (self : Date) : result string :=
  strftime self "%d %b %Y".

(** The ordinal suffix chosen by [_get_fancy]. *)
Definition fancy_suffix (d : Z) : string :=
  if (d =? 1) || (d =? 21) || (d =? 31) then "st"
  else if d =? 2 then "nd"
  else if d =? 3 then "rd"
  else "th".

Definition _get_fancy (self : Date) (display_year : bool) : result string :=
  let extra := fancy_suffix (day (dt self)) in
  let extra := if display_year then (extra ++ ", %Y")%string else extra in
  strftime self ("%B %d" ++ extra).

Definition fancy (self : Date) : result string := _get_fancy self true.

Definition fancy_no_year (self : Date) : result string :=
  _get_fancy self false.

Definition sql_date (self : Date) : result string :=
  strftime self "'%Y-%m-%d'".

Definition sql_time (self : Date) : result string :=
  strftime self "'%H:%M:%S'".

(** The slices [s[:-1]] and [s[1:]]. *)
Fixpoint drop_last (s : string) : string :=
  match s with
  | EmptyString => EmptyString
  | String _ EmptyString => EmptyString
  | String c rest => String c (drop_last rest)
  end.

Definition drop_first (s : string) : string :=
  match s with
  | EmptyString => EmptyString
  | String _ rest => rest
  end.

Definition sql (self : Date) : result string :=
  d <- sql_date self ;;
  t <- sql_time self ;;
  Ok (drop_last d ++ " " ++ drop_first t)%string.

(** [__add__]: the sum goes through the constructor. *)
Definition __add__ (self : Date) (value : timedelta) : result Date :=
  x <- datetime_add (dt self) value ;; Date_ (PyDatetime x).

Definition day_tuple (self : Date) : result (Date * Date) :=
  s <- start_of_day self ;; e <- end_of_day self ;; Ok (s, e).

Definition month_tuple (self : Date) : result (Date * Date) :=
  s <- start_of_month self ;; e <- end_of_month self ;; Ok (s, e).

Definition year_tuple (self : Date) : result (Date * Date) :=
  s <- start_of_year self ;; e <- end_of_year self ;; Ok (s, e).

(** The queries against today's date, [datetime.today().date()]. *)
Definition is_today (self : Date) : bool :=
  cmp_list [year (dt self); month (dt self); day (dt self)]
           [year now; month now; day now] =? 0.

Definition is_future_date (self : Date) : bool :=
  cmp_list [year (dt self); month (dt self); day (dt self)]
           [year now; month now; day now] >? 0.

Definition is_past_date (self : Date) : bool :=
  cmp_list [year (dt self); month (dt self); day (dt self)]
           [year now; month now; day now] <? 0.

End Host.

End Paodate.

(** ** Notions used to state the properties *)

Module Notions.

Import Calendar Datetime Relativedelta PyTime.

(** *** The time line *)

(** Seconds since midnight and their decomposition. *)
Definition seconds_of_day (x : datetime) : Z :=
  hour x * 3600 + minute x * 60 + second x.

(** Microseconds since the start of day 0 of the calendar: the position
    of a datetime on the time line. *)
Definition micros (x : datetime) : Z :=
  (toordinal x * 86400 + seconds_of_day x) * 1000000 + microsecond x.

Definition sign_of (a b : Z) : Z :=
  if a <? b then -1 else if b <? a then 1 else 0.

(** The timestamps whose local date falls in years 1..9999. *)
Definition representable (utcoffset t : Z) : Prop :=
  -62135596800 <= t + utcoffset < 253402300800.

(** The local zones considered: less than a day away from UTC. *)
Definition zone_ok (utcoffset : Z) : Prop := -86400 < utcoffset < 86400.

(** *** Calendar months *)

(** The year and month [__radd__] lands on: the months since year 0,
    shifted, split again into a year and a month of 1..12. *)
Definition months_total (x : datetime) (years months : Z) : Z :=
  12 * year x + (month x - 1) + 12 * years + months.

Definition target_year (x : datetime) (years months : Z) : Z :=
  months_total x years months / 12.

Definition target_month (x : datetime) (years months : Z) : Z :=
  months_total x years months mod 12 + 1.

(** The date [__radd__] hands to the [timedelta] addition: the day is
    clamped to the length of the target month. *)
Definition clamped (x : datetime) (years months : Z) : datetime :=
  let y := target_year x years months in
  let m := target_month x years months in
  mkdatetime y m (Z.min (days_in_month y m) (day x))
             (hour x) (minute x) (second x) (microsecond x).

(** *** Days of a year *)

(** Month and day of the [n]-th day (from 0) of a year, as the tail of
    [ord2ymd] computes them. *)
Definition month_day (leapyear : bool) (n : Z) : Z * Z :=
  let month := Z.shiftr (n + 50) 5 in
  let preceding := tbl DAYS_BEFORE_MONTH month
                   + b2z ((month >? 2) && leapyear) in
  if preceding >? n then
    let month := month - 1 in
    let preceding := preceding
                     - (tbl DAYS_IN_MONTH month
                        + b2z ((month =? 2) && leapyear)) in
    (month, n - preceding + 1)
  else (month, n - preceding + 1).

(** [f] holds on the [k] integers from [n] on. *)
Fixpoint all_from (k : nat) (n : Z) (f : Z -> bool) : bool :=
  match k with
  | O => true
  | S k' => f n && all_from k' (n + 1) f
  end.

(** What [month_day] must return for day [n] of a year: a month, a day of
    that month, and as many days before them as [n]. *)
Definition month_day_check (leapyear : bool) (n : Z) : bool :=
  let '(m, d) := month_day leapyear n in
  (1 <=? m) && (m <=? 12) && (1 <=? d)
  && (d <=? tbl DAYS_IN_MONTH m + b2z ((m =? 2) && leapyear))
  && (tbl DAYS_BEFORE_MONTH m + b2z ((m >? 2) && leapyear) + d =? n + 1).

(** *** Sentinels and sample values *)

Definition dt2038 : datetime := mkdatetime 2038 1 1 0 0 0 0.

Definition MAX_TIMESTAMP (utcoffset : Z) : Z := 2145916800 - utcoffset.

(** The concrete host used in examples: one hour east of UTC, as in the
    doctests of the source. *)
Definition example_offset : Z := 3600.

Definition example_zone : Zone := fixed_offset example_offset.

(** A host with daylight saving: Central European Time around 2009, two
    hours east of UTC from 2009-03-29 01:00:00 UTC to 2009-10-25
    01:00:00 UTC and one hour east otherwise. *)
Definition SUMMER_START : Z := 1238288400.
Definition SUMMER_END : Z := 1256432400.

Definition in_summer (t : Z) : bool :=
  (SUMMER_START <=? t) && (t <? SUMMER_END).

Definition cet_offset_at (t : Z) : Z := if in_summer t then 7200 else 3600.

(** [mktime] on that host: a flag that is set is taken at its word; with
    [tm_isdst = -1] the summer reading of a civil time is returned when
    there is one. *)
Definition cet_resolve (isdst l : Z) : Z :=
  if isdst =? 0 then l - 3600
  else if 0 <? isdst then l - 7200
  else if in_summer (l - 7200) then l - 7200
  else l - 3600.

Definition central_europe : Zone := mkZone cet_offset_at cet_resolve.

(** Half an hour before and after the clocks go back, and the instant
    they do. *)
Definition before_fall_back : Z := 1256430600.
Definition fall_back : Z := 1256432400.
Definition after_fall_back : Z := 1256434200.

Definition example_now : datetime := mkdatetime 2009 2 14 0 31 30 0.

Definition jan31 : Paodate.Date :=
  Paodate.mkDate (mkdatetime 2009 1 31 0 0 0 0).

Definition feb29 : Paodate.Date :=
  Paodate.mkDate (mkdatetime 2008 2 29 10 20 30 0).

Definition year2040 : Paodate.Date :=
  Paodate.mkDate (mkdatetime 2040 2 5 12 0 0 0).

Definition year1960 : Paodate.Date :=
  Paodate.mkDate (mkdatetime 1960 2 5 12 0 0 0).

(** *** Moving along the time line *)

(** A day in microseconds. *)
Definition DAY_US : Z := 86400000000.

(** The length of a [timedelta] in microseconds. *)
Definition td_micros (td : timedelta) : Z :=
  (td_days td * 86400 + td_seconds td) * 1000000 + td_microseconds td.

(** A [timedelta] as the constructor leaves it. *)
Definition td_normal (td : timedelta) : Prop :=
  0 <= td_seconds td < 86400 /\ 0 <= td_microseconds td < 1000000.

(** The positions of the datetimes of the calendar. *)
Definition on_calendar (p : Z) : Prop :=
  DAY_US <= p < (MAXORDINAL + 1) * DAY_US.

(** [timedelta(...)] keeps the total length and normalises it. *)
Definition td_total (days seconds microseconds minutes hours weeks : Z) : Z :=
  ((days + weeks * 7) * 86400 + seconds + minutes * 60 + hours * 3600)
  * 1000000 + microseconds.

(** [x'] is [x] moved by [us] microseconds. *)
Definition moved (x x' : datetime) (us : Z) : Prop :=
  valid_datetime x' = true /\ micros x' = micros x + us.

(** Seconds from the epoch to the local time [x], on a clock that
    ignores the zone. *)
Definition local_seconds (x : datetime) : Z :=
  (toordinal x - EPOCH_ORDINAL) * 86400 + seconds_of_day x.

(** The first and the last instant of a day. *)
Definition at_midnight (y m d : Z) : datetime := mkdatetime y m d 0 0 0 0.
Definition at_day_end (y m d : Z) : datetime :=
  mkdatetime y m d 23 59 59 999999.

(** The length of the [*_ago] offsets of the constructor that are
    durations, in microseconds. *)
Definition ago_micros (days hours minutes seconds : Z) : Z :=
  ((days * 24 + hours) * 60 + minutes) * 60000000 + seconds * 1000000.

End Notions.

(** * Properties *)

Import Calendar Datetime Relativedelta PyTime Notions.

(** ** The doctests of the source

    The examples in the docstrings of [paodate.py] were run one hour east
    of UTC; the embedding reproduces them on [example_offset]. *)

Section Doctests.

Import Paodate.

Let Date' := Date_ example_zone example_now.
Let timestamp := _get_timestamp example_zone example_now.

Example doctest_init_timestamp :
  Date' (PyInt 1234567890) = Ok (mkDate (mkdatetime 2009 2 14 0 31 30 0)).
Proof. reflexivity. Qed.

Example doctest_init_tuple :
  Date' (PySeq [2009; 2; 14]) = Ok (mkDate (mkdatetime 2009 2 14 0 0 0 0)).
Proof. reflexivity. Qed.

Example doctest_init_date :
  Date' (PyDate (mkdate 2009 10 2))
  = Ok (mkDate (mkdatetime 2009 10 2 0 0 0 0)).
Proof. reflexivity. Qed.

Example doctest_class :
  (d <- Date' (PyInt 123456) ;;
   r0 <- __repr__ d ;;
   d <- _set_year d (_get_year d + 10) ;;
   r1 <- __repr__ d ;;
   d <- _set_month d 6 ;;
   r2 <- __repr__ d ;;
   d <- _set_day d (_get_day d + 256) ;;
   r3 <- __repr__ d ;;
   t <- timestamp d ;;
   Ok (r0, r1, r2, r3, _get_tuple d, t))
  = Ok ("Date(1970-01-02, 11:17:36)", "Date(1980-01-02, 11:17:36)",
        "Date(1980-06-02, 11:17:36)", "Date(1981-02-13, 11:17:36)",
        mkstruct_time 1981 2 13 11 17 36 4 44 (-1), 350907456)%string.
Proof. reflexivity. Qed.

Example doctest_cmp :
  (a <- Date' (PyInt 12345) ;; b <- Date' (PyInt 1234) ;;
   g <- op_gt a (PyPaoDate b) ;; l <- op_lt a (PyPaoDate b) ;;
   e <- op_eq a (PyPaoDate a) ;; Ok (g, l, e))
  = Ok (true, false, true).
Proof. reflexivity. Qed.

Example doctest_month :
  (d <- Date' (PyInt 1234567890) ;; d <- _set_month d 6 ;;
   r1 <- __repr__ d ;; d <- _set_month d (_get_month d - 3) ;;
   r2 <- __repr__ d ;; Ok (r1, r2))
  = Ok ("Date(2009-06-14, 00:31:30)", "Date(2009-03-14, 00:31:30)")%string.
Proof. reflexivity. Qed.

Example doctest_week :
  (d <- Date' (PyInt 1234567890) ;; d' <- _set_week d 12 ;;
   Ok (_get_week d, d'))
  = Ok (6, mkDate (mkdatetime 2009 3 28 0 31 30 0)).
Proof. reflexivity. Qed.

Example doctest_days_in_month :
  (a <- Date' (PyInt 1234567890) ;; b <- Date' (PyInt 472812932) ;;
   m <- Paodate.days_in_month a ;; n <- Paodate.days_in_month b ;; Ok (m, n))
  = Ok (28, 31).
Proof. reflexivity. Qed.

Example doctest_end_of_month :
  (d <- Date' (PyInt 1234567890) ;;
   end_of_month example_zone example_now d)
  = Ok (mkDate (mkdatetime 2009 2 28 23 59 59 999999)).
Proof. reflexivity. Qed.

Example doctest_day_tuple :
  (d <- Date' (PyInt 1234567890) ;;
   s <- start_of_day example_zone example_now d ;;
   e <- end_of_day example_zone example_now d ;;
   ts <- timestamp s ;; te <- timestamp e ;; Ok (ts, te))
  = Ok (1234566000, 1234652399).
Proof. reflexivity. Qed.

Example doctest_strings :
  (d <- Date' (PyDatetime (mkdatetime 2009 2 15 0 0 0 0)) ;;
   a <- friendly d ;; b <- fancy d ;; c <- fancy_no_year d ;;
   q <- sql_date d ;; t <- sql_time d ;; Ok (a, b, c, q, t))
  = Ok ("15 Feb 2009", "February 15th, 2009", "February 15th",
        "'2009-02-15'", "'00:00:00'")%string.
Proof. reflexivity. Qed.

Example doctest_sql :
  (d <- Date' (PyInt 1234567890) ;; sql d)
  = Ok "'2009-02-14 00:31:30'"%string.
Proof. reflexivity. Qed.

Example doctest_add :
  (d <- Date' (PyInt 1234567890) ;;
   td <- timedelta_new 2 0 0 0 0 0 ;;
   __add__ example_zone example_now d td)
  = Ok (mkDate (mkdatetime 2009 2 16 0 31 30 0)).
Proof. reflexivity. Qed.

Example doctest_month_tuple :
  (d <- Date' (PyInt 1234567890) ;;
   month_tuple example_zone example_now d)
  = Ok (mkDate (mkdatetime 2009 2 1 0 0 0 0),
        mkDate (mkdatetime 2009 2 28 23 59 59 999999)).
Proof. reflexivity. Qed.

Example doctest_year_tuple :
  (d <- Date' (PyInt 1234567890) ;;
   year_tuple example_zone example_now d)
  = Ok (mkDate (mkdatetime 2009 1 1 0 0 0 0),
        mkDate (mkdatetime 2009 12 31 23 59 59 999999)).
Proof. reflexivity. Qed.

Example doctest_is_past_date :
  (d <- Date' (PyInt 12345) ;; Ok (is_past_date example_now d))
  = Ok true.
Proof. reflexivity. Qed.

End Doctests.

(** ** The calendar: ordinals and dates *)

Lemma all_from_spec k : forall n f,
  all_from k n f = true ->
  forall i, n <= i < n + Z.of_nat k -> f i = true.
Proof.
  induction k as [|k IH]; intros n f H i Hi.
  - simpl in Hi. lia.
  - simpl in H. apply andb_true_iff in H. destruct H as [H0 H1].
    destruct (Z.eq_dec i n) as [->|Hne]; [exact H0|].
    apply (IH (n + 1) f H1). lia.
Qed.

Lemma month_day_checked :
  all_from 365 0 (month_day_check false) = true
  /\ all_from 366 0 (month_day_check true) = true.
Proof. split; vm_compute; reflexivity. Qed.

Lemma month_day_spec leapyear n :
  0 <= n < 365 + b2z leapyear ->
  month_day_check leapyear n = true.
Proof.
  intros H. destruct month_day_checked as [C0 C1].
  destruct leapyear; cbn in H.
  - apply (all_from_spec _ _ _ C1). lia.
  - apply (all_from_spec _ _ _ C0). lia.
Qed.

(** The digits of [n - 1] in the mixed radix 400 years / 100 years /
    4 years / 1 year. *)
Lemma ord2ymd_unfold n0 :
  ord2ymd n0 =
    let n := n0 - 1 in
    let n400 := n / DI400Y in
    let n := n mod DI400Y in
    let n100 := n / DI100Y in
    let n := n mod DI100Y in
    let n4 := n / DI4Y in
    let n := n mod DI4Y in
    let n1 := n / 365 in
    let n := n mod 365 in
    let year := n400 * 400 + 1 + n100 * 100 + n4 * 4 + n1 in
    if (n1 =? 4) || (n100 =? 4) then (year - 1, 12, 31)
    else
      let leapyear := (n1 =? 3) && (negb (n4 =? 24) || (n100 =? 3)) in
      let '(m, d) := month_day leapyear n in
      (year, m, d).
Proof.
  unfold ord2ymd, month_day. cbv zeta.
  destruct ((_ =? 4) || (_ =? 4)); [reflexivity|].
  match goal with |- (if ?c then _ else _) = _ => destruct c end; reflexivity.
Qed.

Lemma year_digits n0 :
  1 <= n0 ->
  let n := n0 - 1 in
  let n400 := n / DI400Y in
  let r400 := n mod DI400Y in
  let n100 := r400 / DI100Y in
  let r100 := r400 mod DI100Y in
  let n4 := r100 / DI4Y in
  let r4 := r100 mod DI4Y in
  let n1 := r4 / 365 in
  let r1 := r4 mod 365 in
  let Y := n400 * 400 + n100 * 100 + n4 * 4 + n1 in
  0 <= n400 /\ 0 <= n100 <= 4 /\ 0 <= n4 <= 24 /\ 0 <= n1 <= 4
  /\ 0 <= r1 < 365
  /\ n0 - 1 = n400 * 146097 + n100 * 36524 + n4 * 1461 + n1 * 365 + r1
  /\ (n100 = 4 -> n4 = 0 /\ n1 = 0 /\ r1 = 0)
  /\ (n1 = 4 -> r1 = 0 /\ n4 <= 23).
Proof.
  intros H. cbv zeta. unfold DI400Y, DI100Y, DI4Y.
  Z.div_mod_to_equations. lia.
Qed.

(** A year written with its digits: days before it, and whether it is
    leap. *)
Lemma year_of_digits a b c d :
  0 <= b <= 3 -> 0 <= c <= 24 -> 0 <= d <= 3 ->
  let y := a * 400 + b * 100 + c * 4 + d + 1 in
  days_before_year y = a * 146097 + b * 36524 + c * 1461 + d * 365
  /\ isleap y = (d =? 3) && (negb (c =? 24) || (b =? 3)).
Proof.
  intros Hb Hc Hd y. subst y. split.
  - unfold days_before_year. cbv zeta. Z.div_mod_to_equations. lia.
  - unfold isleap.
    destruct (Z.eqb_spec d 3), (Z.eqb_spec c 24), (Z.eqb_spec b 3);
      cbn [negb orb andb];
      repeat match goal with
             | |- context [?u =? 0] => destruct (Z.eqb_spec u 0)
             end; cbn [negb orb andb]; try reflexivity;
      exfalso; Z.div_mod_to_equations; lia.
Qed.

Lemma days_in_month_table y m :
  days_in_month y m = tbl DAYS_IN_MONTH m + b2z ((m =? 2) && isleap y).
Proof.
  unfold days_in_month.
  destruct (Z.eqb_spec m 2) as [-> | _]; destruct (isleap y);
    cbn [andb b2z]; try reflexivity; lia.
Qed.

Lemma december_31 y : days_in_month y 12 = 31.
Proof. reflexivity. Qed.

Lemma days_before_december y :
  days_before_month y 12 = 334 + b2z (isleap y).
Proof. reflexivity. Qed.

(** [ord2ymd] yields a date of the calendar whose ordinal is the
    argument. *)
Lemma ord2ymd_spec n :
  1 <= n ->
  exists y m d,
    ord2ymd n = (y, m, d) /\ 1 <= y /\ 1 <= m <= 12
    /\ 1 <= d <= days_in_month y m /\ ymd2ord y m d = n.
Proof.
  intros Hn. rewrite ord2ymd_unfold.
  pose proof (year_digits n Hn) as D. cbv zeta in D |- *.
  set (n400 := (n - 1) / DI400Y) in *.
  set (r400 := (n - 1) mod DI400Y) in *.
  set (n100 := r400 / DI100Y) in *.
  set (r100 := r400 mod DI100Y) in *.
  set (n4 := r100 / DI4Y) in *.
  set (r4 := r100 mod DI4Y) in *.
  set (n1 := r4 / 365) in *.
  set (r1 := r4 mod 365) in *.
  destruct D as (H400 & H100 & H4 & H1 & Hr & E & Hc & Hy).
  destruct (Z.eqb_spec n1 4) as [E1 | N1]; cbn [orb].
  - (* the last day of a leap year that ends a 4-year cycle *)
    destruct (Hy E1) as (Er & H4').
    assert (B : 0 <= n100 <= 3).
    { destruct (Z.eq_dec n100 4) as [E4 | ?]; [destruct (Hc E4); lia | lia]. }
    destruct (year_of_digits n400 n100 n4 3) as (Eb & El); try lia.
    replace (n4 =? 24) with false in El by (symmetry; apply Z.eqb_neq; lia).
    change ((3 =? 3) && (negb false || (n100 =? 3))) with true in El.
    exists (n400 * 400 + n100 * 100 + n4 * 4 + 3 + 1), 12, 31.
    split; [f_equal; f_equal; lia|].
    unfold ymd2ord. rewrite december_31, days_before_december, Eb, El.
    cbn [b2z]. repeat split; lia.
  - destruct (Z.eqb_spec n100 4) as [E4 | N4].
    + (* the last day of a 400-year cycle *)
      destruct (Hc E4) as (Z4 & Z1 & Zr).
      destruct (year_of_digits n400 3 24 3) as (Eb & El); try lia.
      change ((3 =? 3) && (negb (24 =? 24) || (3 =? 3))) with true in El.
      exists (n400 * 400 + 3 * 100 + 24 * 4 + 3 + 1), 12, 31.
      split; [f_equal; f_equal; lia|].
      unfold ymd2ord. rewrite december_31, days_before_december, Eb, El.
    cbn [b2z]. repeat split; lia.
    + destruct (year_of_digits n400 n100 n4 n1) as (Eb & El); try lia.
      rewrite <- El.
      set (y := n400 * 400 + n100 * 100 + n4 * 4 + n1 + 1) in *.
      replace (n400 * 400 + 1 + n100 * 100 + n4 * 4 + n1) with y
        by (subst y; lia).
      pose proof (month_day_spec (isleap y) r1) as C.
      assert (Hr' : 0 <= r1 < 365 + b2z (isleap y))
        by (destruct (isleap y); cbn; lia).
      specialize (C Hr'). unfold month_day_check in C.
      destruct (month_day (isleap y) r1) as [m d].
      rewrite !andb_true_iff, !Z.leb_le, Z.eqb_eq in C.
      destruct C as ((((C1 & C2) & C3) & C4) & C5).
      exists y, m, d. split; [reflexivity|].
      rewrite days_in_month_table. unfold ymd2ord, days_before_month.
      rewrite Eb. repeat split; lia.
Qed.

Lemma days_before_year_succ y :
  days_before_year (y + 1) = days_before_year y + 365 + b2z (isleap y).
Proof.
  unfold days_before_year, isleap, b2z. cbv zeta.
  replace (y + 1 - 1) with y by lia.
  destruct (Z.eqb_spec (y mod 4) 0); destruct (Z.eqb_spec (y mod 100) 0);
    destruct (Z.eqb_spec (y mod 400) 0); simpl;
    Z.div_mod_to_equations; lia.
Qed.

Lemma days_before_year_mono y1 y2 :
  y1 <= y2 -> days_before_year y1 <= days_before_year y2.
Proof.
  intros H. unfold days_before_year. cbv zeta.
  Z.div_mod_to_equations. lia.
Qed.

Ltac month_cases m :=
  let H := fresh in
  assert (H : m = 1 \/ m = 2 \/ m = 3 \/ m = 4 \/ m = 5 \/ m = 6 \/ m = 7
              \/ m = 8 \/ m = 9 \/ m = 10 \/ m = 11 \/ m = 12) by lia;
  repeat (destruct H as [H | H]); subst m.

Lemma days_in_month_bounds y m :
  1 <= m <= 12 -> 28 <= days_in_month y m <= 31.
Proof.
  intros Hm. unfold days_in_month.
  month_cases m; destruct (isleap y); vm_compute; split; discriminate.
Qed.

Lemma days_before_month_next y m :
  1 <= m < 12 ->
  days_before_month y (m + 1) = days_before_month y m + days_in_month y m.
Proof.
  intros Hm. unfold days_before_month, days_in_month.
  month_cases m; try lia; destruct (isleap y); reflexivity.
Qed.

Lemma days_before_month_december y :
  days_before_month y 12 + days_in_month y 12 = 365 + b2z (isleap y).
Proof.
  unfold days_before_month, days_in_month. destruct (isleap y); reflexivity.
Qed.

Lemma days_before_month_mono y m1 m2 :
  1 <= m1 -> m1 < m2 -> m2 <= 12 ->
  days_before_month y m1 + days_in_month y m1 <= days_before_month y m2.
Proof.
  intros H1 H12 H2. unfold days_before_month, days_in_month.
  month_cases m1; month_cases m2; try lia; destruct (isleap y);
    vm_compute; discriminate.
Qed.

Lemma days_before_month_nonneg y m :
  1 <= m <= 12 -> 0 <= days_before_month y m.
Proof.
  intros Hm. unfold days_before_month.
  month_cases m; destruct (isleap y); vm_compute; discriminate.
Qed.

Lemma valid_ymd_iff y m d :
  valid_ymd y m d = true <->
  1 <= y <= 9999 /\ 1 <= m <= 12 /\ 1 <= d <= days_in_month y m.
Proof.
  unfold valid_ymd, MINYEAR, MAXYEAR.
  rewrite !andb_true_iff, !Z.leb_le. tauto.
Qed.

(** Within a year the ordinal stays inside that year. *)
Lemma ymd2ord_in_year y m d :
  1 <= m <= 12 -> 1 <= d <= days_in_month y m ->
  days_before_year y < ymd2ord y m d <= days_before_year (y + 1).
Proof.
  intros Hm Hd. unfold ymd2ord. rewrite days_before_year_succ.
  pose proof (days_before_month_nonneg y m Hm).
  assert (days_before_month y m + days_in_month y m <= 365 + b2z (isleap y)).
  { destruct (Z.eq_dec m 12) as [->|Hne].
    - rewrite days_before_month_december. lia.
    - pose proof (days_before_month_mono y m 12 ltac:(lia) ltac:(lia)
                    ltac:(lia)).
      pose proof (days_before_month_december y).
      pose proof (days_in_month_bounds y 12 ltac:(lia)). lia. }
  lia.
Qed.

(** The ordinal is strictly increasing in the lexicographic order of
    (year, month, day). *)
Lemma ymd2ord_lt_year y1 m1 d1 y2 m2 d2 :
  1 <= m1 <= 12 -> 1 <= d1 <= days_in_month y1 m1 ->
  1 <= m2 <= 12 -> 1 <= d2 <= days_in_month y2 m2 ->
  y1 < y2 -> ymd2ord y1 m1 d1 < ymd2ord y2 m2 d2.
Proof.
  intros Hm1 Hd1 Hm2 Hd2 Hy.
  pose proof (ymd2ord_in_year y1 m1 d1 Hm1 Hd1).
  pose proof (ymd2ord_in_year y2 m2 d2 Hm2 Hd2).
  pose proof (days_before_year_mono (y1 + 1) y2 ltac:(lia)). lia.
Qed.

Lemma ymd2ord_lt_month y m1 d1 m2 d2 :
  1 <= m1 -> m2 <= 12 -> d1 <= days_in_month y m1 -> 1 <= d2 ->
  m1 < m2 -> ymd2ord y m1 d1 < ymd2ord y m2 d2.
Proof.
  intros Hm1 Hm2 Hd1 Hd2 Hm. unfold ymd2ord.
  pose proof (days_before_month_mono y m1 m2 Hm1 Hm Hm2). lia.
Qed.

Lemma ymd2ord_inj y1 m1 d1 y2 m2 d2 :
  valid_ymd y1 m1 d1 = true -> valid_ymd y2 m2 d2 = true ->
  ymd2ord y1 m1 d1 = ymd2ord y2 m2 d2 ->
  y1 = y2 /\ m1 = m2 /\ d1 = d2.
Proof.
  rewrite !valid_ymd_iff. intros (Hy1 & Hm1 & Hd1) (Hy2 & Hm2 & Hd2) E.
  assert (y1 = y2).
  { destruct (Z.lt_total y1 y2) as [L | [-> | L]]; [|reflexivity|].
    - pose proof (ymd2ord_lt_year y1 m1 d1 y2 m2 d2 Hm1 Hd1 Hm2 Hd2 L). lia.
    - pose proof (ymd2ord_lt_year y2 m2 d2 y1 m1 d1 Hm2 Hd2 Hm1 Hd1 L). lia. }
  subst y2.
  assert (m1 = m2).
  { destruct (Z.lt_total m1 m2) as [L | [-> | L]]; [|reflexivity|].
    - pose proof (ymd2ord_lt_month y1 m1 d1 m2 d2). lia.
    - pose proof (ymd2ord_lt_month y1 m2 d2 m1 d1). lia. }
  subst m2. unfold ymd2ord in E. repeat split; lia.
Qed.

Lemma ymd2ord_range y m d :
  valid_ymd y m d = true -> 1 <= ymd2ord y m d <= MAXORDINAL.
Proof.
  rewrite valid_ymd_iff. intros (Hy & Hm & Hd).
  pose proof (ymd2ord_in_year y m d Hm Hd).
  pose proof (days_before_year_mono 1 y ltac:(lia)).
  pose proof (days_before_year_mono (y + 1) 10000 ltac:(lia)).
  change (days_before_year 1) with 0 in *.
  change (days_before_year 10000) with 3652059 in *.
  unfold MAXORDINAL. lia.
Qed.

Lemma ord2ymd_valid n :
  1 <= n <= MAXORDINAL ->
  exists y m d,
    ord2ymd n = (y, m, d) /\ valid_ymd y m d = true /\ ymd2ord y m d = n.
Proof.
  intros [Hn Hmax].
  destruct (ord2ymd_spec n Hn) as (y & m & d & E & Hy & Hm & Hd & Ho).
  exists y, m, d. repeat split; try assumption.
  apply valid_ymd_iff. repeat split; try lia.
  destruct (Z_le_gt_dec y 9999) as [L | G]; [exact L|].
  pose proof (ymd2ord_in_year y m d Hm Hd).
  pose proof (days_before_year_mono 10000 y ltac:(lia)).
  change (days_before_year 10000) with 3652059 in *.
  unfold MAXORDINAL in *. lia.
Qed.

Lemma ord2ymd_ymd2ord y m d :
  valid_ymd y m d = true -> ord2ymd (ymd2ord y m d) = (y, m, d).
Proof.
  intros V.
  destruct (ord2ymd_valid _ (ymd2ord_range y m d V))
    as (y' & m' & d' & E & V' & Ho).
  destruct (ymd2ord_inj _ _ _ _ _ _ V' V Ho) as (-> & -> & ->).
  exact E.
Qed.

(** ** Datetime arithmetic *)

Lemma valid_hms_iff h mi s us :
  valid_hms h mi s us = true <->
  0 <= h <= 23 /\ 0 <= mi <= 59 /\ 0 <= s <= 59 /\ 0 <= us <= 999999.
Proof.
  unfold valid_hms. rewrite !andb_true_iff, !Z.leb_le. tauto.
Qed.

Lemma valid_datetime_iff x :
  valid_datetime x = true <->
  valid_ymd (year x) (month x) (day x) = true
  /\ 0 <= hour x <= 23 /\ 0 <= minute x <= 59
  /\ 0 <= second x <= 59 /\ 0 <= microsecond x <= 999999.
Proof.
  unfold valid_datetime. rewrite andb_true_iff, valid_hms_iff. tauto.
Qed.

Lemma datetime_new_valid y m d h mi s us :
  valid_datetime (mkdatetime y m d h mi s us) = true ->
  datetime_new y m d h mi s us = Ok (mkdatetime y m d h mi s us).
Proof.
  unfold valid_datetime, datetime_new. simpl. now intros ->.
Qed.

Lemma hms_decompose h mi s :
  0 <= h <= 23 -> 0 <= mi <= 59 -> 0 <= s <= 59 ->
  let t := h * 3600 + mi * 60 + s in
  0 <= t < 86400 /\ t / 3600 = h /\ t mod 3600 / 60 = mi /\ t mod 60 = s.
Proof.
  intros Hh Hm Hs t. subst t. repeat split; try lia.
  - symmetry. apply (Z.div_unique _ _ _ (mi * 60 + s)); lia.
  - assert (E : (h * 3600 + mi * 60 + s) mod 3600 = mi * 60 + s).
    { symmetry. apply (Z.mod_unique _ _ h); lia. }
    rewrite E. symmetry. apply (Z.div_unique _ _ _ s); lia.
  - symmetry. apply (Z.mod_unique _ _ (h * 60 + mi)); lia.
Qed.

Lemma hms_recompose t :
  0 <= t < 86400 ->
  0 <= t / 3600 <= 23 /\ 0 <= t mod 3600 / 60 <= 59 /\ 0 <= t mod 60 <= 59
  /\ t / 3600 * 3600 + t mod 3600 / 60 * 60 + t mod 60 = t.
Proof.
  intros Ht. Z.div_mod_to_equations. lia.
Qed.

(** Adding whole days keeps the time of day and moves the ordinal. *)
Lemma datetime_add_days x k :
  valid_datetime x = true ->
  datetime_add x (mktimedelta k 0 0) =
    if (0 <? toordinal x + k) && (toordinal x + k <=? MAXORDINAL) then
      let '(y, m, d) := ord2ymd (toordinal x + k) in
      Ok (mkdatetime y m d (hour x) (minute x) (second x) (microsecond x))
    else Raise OverflowError.
Proof.
  intros V. apply valid_datetime_iff in V.
  destruct V as (Vd & Hh & Hm & Hs & Hu).
  unfold datetime_add. cbn [td_days td_seconds td_microseconds].
  unfold US_PER_SECOND, SECONDS_PER_DAY.
  rewrite !Z.add_0_r.
  rewrite (Z.div_small (microsecond x)) by lia.
  rewrite (Z.mod_small (microsecond x)) by lia.
  rewrite !Z.add_0_r.
  destruct (hms_decompose _ _ _ Hh Hm Hs) as (Ht & E1 & E2 & E3).
  rewrite (Z.div_small _ 86400) by lia.
  rewrite (Z.mod_small _ 86400) by lia.
  rewrite Z.add_0_r, E1, E2, E3. reflexivity.
Qed.

Lemma datetime_add_zero x :
  valid_datetime x = true -> datetime_add x (mktimedelta 0 0 0) = Ok x.
Proof.
  intros V. rewrite datetime_add_days by exact V.
  pose proof V as V'. apply valid_datetime_iff in V'. destruct V' as (Vd & _).
  unfold toordinal. rewrite Z.add_0_r.
  pose proof (ymd2ord_range _ _ _ Vd) as R.
  replace (0 <? _) with true by (symmetry; apply Z.ltb_lt; lia).
  replace (_ <=? MAXORDINAL) with true by (symmetry; apply Z.leb_le; lia).
  simpl. rewrite ord2ymd_ymd2ord by exact Vd. now destruct x.
Qed.

Lemma timedelta_new_days k :
  - MAX_DELTA_DAYS <= k <= MAX_DELTA_DAYS ->
  timedelta_new k 0 0 0 0 0 = Ok (mktimedelta k 0 0).
Proof.
  intros Hk. unfold timedelta_new. cbn.
  rewrite !Z.add_0_r. unfold MAX_DELTA_DAYS in *.
  replace (-999999999 <=? k) with true by (symmetry; apply Z.leb_le; lia).
  replace (k <=? 999999999) with true by (symmetry; apply Z.leb_le; lia).
  reflexivity.
Qed.

(** [_fix] keeps the total number of months and leaves fewer than twelve
    of them. *)
Lemma relativedelta_new_spec years months days :
  let r := relativedelta_new years months days in
  12 * rd_years r + rd_months r = 12 * years + months
  /\ -11 <= rd_months r <= 11
  /\ rd_days r = days.
Proof.
  unfold relativedelta_new.
  destruct (Z.gtb_spec (Z.abs months) 11) as [G | L];
    cbn [rd_years rd_months rd_days].
  - assert (Hs : (0 < months /\ months / Z.abs months = 1)
                 \/ (months < 0 /\ months / Z.abs months = -1)).
    { destruct (Z.abs_spec months) as [[H0 E] | [H0 E]]; rewrite E.
      - left. split; [lia|]. apply Z.div_same. lia.
      - right. split; [lia|]. symmetry.
        apply (Z.div_unique_exact); lia. }
    destruct Hs as [[Hp ->] | [Hn ->]]; Z.div_mod_to_equations; lia.
  - lia.
Qed.

Lemma monthrange_ok y m :
  1 <= y <= 9999 -> 1 <= m <= 12 ->
  monthrange y m = Ok (weekday y m 1, days_in_month y m).
Proof.
  intros Hy Hm. unfold monthrange, MINYEAR, MAXYEAR.
  replace (1 <=? m) with true by (symmetry; apply Z.leb_le; lia).
  replace (m <=? 12) with true by (symmetry; apply Z.leb_le; lia).
  replace (1 <=? y) with true by (symmetry; apply Z.leb_le; lia).
  replace (y <=? 9999) with true by (symmetry; apply Z.leb_le; lia).
  cbn. f_equal. f_equal. unfold days_in_month.
  destruct ((m =? 2) && isleap y) eqn:E; cbn; [|lia].
  apply andb_true_iff in E. destruct E as [E _].
  apply Z.eqb_eq in E. subst m. reflexivity.
Qed.

Lemma clamped_valid x years months :
  valid_datetime x = true ->
  1 <= target_year x years months <= 9999 ->
  valid_datetime (clamped x years months) = true.
Proof.
  intros V Hy. apply valid_datetime_iff in V.
  destruct V as (Vd & Ht). apply valid_ymd_iff in Vd.
  apply valid_datetime_iff. unfold clamped. cbn. split; [|exact Ht].
  apply valid_ymd_iff.
  assert (Hm : 1 <= target_month x years months <= 12).
  { unfold target_month.
    pose proof (Z.mod_pos_bound (months_total x years months) 12). lia. }
  pose proof (days_in_month_bounds (target_year x years months) _ Hm).
  repeat split; lia.
Qed.

Lemma radd_spec x years months days :
  valid_datetime x = true ->
  1 <= target_year x years months <= 9999 ->
  radd (relativedelta_new years months days) x =
    (td <- timedelta_new days 0 0 0 0 0 ;;
     datetime_add (clamped x years months) td).
Proof.
  intros V Hy.
  pose proof (clamped_valid x years months V Hy) as Vc.
  apply valid_datetime_iff in V. destruct V as (Vd & Ht).
  apply valid_ymd_iff in Vd. destruct Vd as (Hyx & Hmx & Hdx).
  destruct (relativedelta_new_spec years months days) as (Et & Hb & Ed).
  unfold radd.
  set (r := relativedelta_new years months days) in *.
  assert (E : (if rd_months r =? 0 then (year x + rd_years r, month x)
               else if month x + rd_months r >? 12
                    then (year x + rd_years r + 1, month x + rd_months r - 12)
                    else if month x + rd_months r <? 1
                         then (year x + rd_years r - 1,
                               month x + rd_months r + 12)
                         else (year x + rd_years r, month x + rd_months r))
              = (target_year x years months, target_month x years months)).
  { unfold target_year, target_month, months_total in *.
    destruct (Z.eqb_spec (rd_months r) 0);
      [| destruct (Z.gtb_spec (month x + rd_months r) 12);
         [| destruct (Z.ltb_spec (month x + rd_months r) 1)]];
      f_equal; Z.div_mod_to_equations; lia. }
  cbv zeta. rewrite E.
  assert (Hm : 1 <= target_month x years months <= 12).
  { unfold target_month.
    pose proof (Z.mod_pos_bound (months_total x years months) 12). lia. }
  rewrite monthrange_ok by assumption. cbn [bind snd].
  unfold replace_ymd. rewrite datetime_new_valid by exact Vc.
  cbn [bind]. rewrite Ed. reflexivity.
Qed.

(** Field-wise comparison of valid datetimes is comparison of their
    positions on the time line. *)
Lemma cmp_micros a b :
  valid_datetime a = true -> valid_datetime b = true ->
  cmp a b = sign_of (micros a) (micros b).
Proof.
  intros Va Vb. apply valid_datetime_iff in Va, Vb.
  destruct a as [ya ma da ha mia sa ua], b as [yb mb db hb mib sb ub].
  cbn [year month day hour minute second microsecond] in Va, Vb.
  destruct Va as (Va & Hha & Hma & Hsa & Hua).
  destruct Vb as (Vb & Hhb & Hmb & Hsb & Hub).
  apply valid_ymd_iff in Va, Vb.
  destruct Va as (Hya & Hmoa & Hda), Vb as (Hyb & Hmob & Hdb).
  unfold cmp, fields, micros, seconds_of_day, toordinal, sign_of.
  cbn [cmp_list year month day hour minute second microsecond].
  assert (Oy : ya < yb -> ymd2ord ya ma da < ymd2ord yb mb db)
    by (apply ymd2ord_lt_year; assumption).
  assert (Oy' : yb < ya -> ymd2ord yb mb db < ymd2ord ya ma da)
    by (apply ymd2ord_lt_year; assumption).
  assert (Om : ya = yb -> ma < mb -> ymd2ord ya ma da < ymd2ord yb mb db)
    by (intros <- L; apply ymd2ord_lt_month; lia).
  assert (Om' : ya = yb -> mb < ma -> ymd2ord yb mb db < ymd2ord ya ma da)
    by (intros <- L; apply ymd2ord_lt_month; lia).
  assert (Od : ya = yb -> ma = mb ->
               ymd2ord ya ma da - ymd2ord yb mb db = da - db)
    by (intros <- <-; unfold ymd2ord; lia).
  set (oa := ymd2ord ya ma da) in *. set (ob := ymd2ord yb mb db) in *.
  repeat match goal with
         | |- context [?u <? ?v] => destruct (Z.ltb_spec u v)
         end; try reflexivity; exfalso; lia.
Qed.

(** Valid datetimes at the same position are the same datetime. *)
Lemma micros_inj a b :
  valid_datetime a = true -> valid_datetime b = true ->
  micros a = micros b -> a = b.
Proof.
  intros Va Vb E. apply valid_datetime_iff in Va, Vb.
  destruct Va as (Vda & Hha & Hma & Hsa & Hua).
  destruct Vb as (Vdb & Hhb & Hmb & Hsb & Hub).
  unfold micros, seconds_of_day, toordinal in E.
  assert (Eo : ymd2ord (year a) (month a) (day a)
               = ymd2ord (year b) (month b) (day b)) by lia.
  destruct (ymd2ord_inj _ _ _ _ _ _ Vda Vdb Eo) as (Ey & Em & Ed).
  destruct a, b. cbn in *. f_equal; lia.
Qed.

Lemma cmp_refl a : cmp a a = 0.
Proof.
  unfold cmp. induction (fields a) as [|x l IH]; [reflexivity|].
  cbn. now rewrite Z.ltb_irrefl.
Qed.

(** ** Timestamps *)

Lemma fromtimestamp_spec zone t :
  representable (offset_at zone t) t ->
  exists x,
    fromtimestamp zone t = Ok x
    /\ valid_datetime x = true
    /\ toordinal x = EPOCH_ORDINAL + (t + offset_at zone t) / 86400
    /\ seconds_of_day x = (t + offset_at zone t) mod 86400
    /\ microsecond x = 0.
Proof.
  unfold representable. intros R. unfold fromtimestamp, SECONDS_PER_DAY.
  set (local := t + offset_at zone t) in *.
  assert (Hd : 1 <= EPOCH_ORDINAL + local / 86400 <= MAXORDINAL).
  { unfold EPOCH_ORDINAL, MAXORDINAL. Z.div_mod_to_equations. lia. }
  replace (1 <=? _) with true by (symmetry; apply Z.leb_le; lia).
  replace (_ <=? MAXORDINAL) with true by (symmetry; apply Z.leb_le; lia).
  cbn [andb].
  destruct (ord2ymd_valid _ Hd) as (y & m & d & E & V & Ho).
  rewrite E.
  pose proof (Z.mod_pos_bound local 86400 ltac:(lia)) as Hs.
  destruct (hms_recompose _ Hs) as (Hh & Hm & Hsec & Esum).
  eexists. split; [reflexivity|].
  unfold toordinal, seconds_of_day.
  cbn [year month day hour minute second microsecond].
  repeat split; try assumption.
  apply valid_datetime_iff.
  cbn [year month day hour minute second microsecond].
  repeat split; try assumption; lia.
Qed.

Lemma fromtimestamp_fixed utcoffset t :
  representable utcoffset t ->
  exists x,
    fromtimestamp (fixed_offset utcoffset) t = Ok x
    /\ valid_datetime x = true
    /\ toordinal x = EPOCH_ORDINAL + (t + utcoffset) / 86400
    /\ seconds_of_day x = (t + utcoffset) mod 86400
    /\ microsecond x = 0.
Proof. exact (fromtimestamp_spec (fixed_offset utcoffset) t). Qed.

Lemma gettmarg_year_modern y : 1900 <= y -> gettmarg_year y = Ok y.
Proof.
  intros H. unfold gettmarg_year.
  now replace (y <? 1900) with false by (symmetry; apply Z.ltb_ge; lia).
Qed.

Lemma mktime_timetuple zone x :
  1900 <= year x ->
  mktime zone (timetuple x) = Ok (resolve zone (-1) (local_seconds x)).
Proof.
  intros H. unfold mktime, timetuple.
  cbn [tm_year tm_mon tm_mday tm_hour tm_min tm_sec tm_isdst].
  rewrite gettmarg_year_modern by exact H. cbn [bind].
  unfold local_seconds, toordinal, seconds_of_day, SECONDS_PER_DAY.
  do 2 f_equal. lia.
Qed.

Lemma mktime_timetuple_fixed utcoffset x :
  1900 <= year x ->
  mktime (fixed_offset utcoffset) (timetuple x) =
    Ok ((toordinal x - EPOCH_ORDINAL) * 86400 + seconds_of_day x - utcoffset).
Proof. exact (mktime_timetuple (fixed_offset utcoffset) x). Qed.

(** A valid date before year [Y] has an ordinal before that of Jan 1
    of [Y]. *)
Lemma year_of_ordinal_ge x Y :
  valid_datetime x = true -> ymd2ord Y 1 1 <= toordinal x -> Y <= year x.
Proof.
  intros V H. apply valid_datetime_iff in V. destruct V as (Vd & _).
  apply valid_ymd_iff in Vd. destruct Vd as (Hy & Hm & Hd).
  destruct (Z_le_gt_dec Y (year x)) as [L | G]; [exact L|].
  pose proof (ymd2ord_lt_year (year x) (month x) (day x) Y 1 1 Hm Hd
                ltac:(lia) ltac:(pose proof (days_in_month_bounds Y 1); lia)
                ltac:(lia)).
  unfold toordinal in H. lia.
Qed.

(** ** The class [Date] *)

Import Paodate.

(** *** Setting a field to its current value *)

Lemma timedelta_new_zero : timedelta_new 0 0 0 0 0 0 = Ok (mktimedelta 0 0 0).
Proof. reflexivity. Qed.

Lemma _set_year_same self :
  valid_datetime (dt self) = true ->
  _set_year self (_get_year self - 0) = Ok self.
Proof.
  intros V. unfold _set_year, _get_year, replace_year, replace_ymd.
  rewrite Z.sub_0_r. destruct self as [x]. cbn [dt] in *.
  destruct x. cbn [year month day hour minute second microsecond].
  now rewrite datetime_new_valid.
Qed.

Lemma target_same x :
  valid_datetime x = true ->
  target_year x 0 0 = year x /\ target_month x 0 0 = month x.
Proof.
  intros V. apply valid_datetime_iff in V. destruct V as (Vd & _).
  apply valid_ymd_iff in Vd.
  unfold target_year, target_month, months_total.
  split; Z.div_mod_to_equations; lia.
Qed.

Lemma clamped_same x :
  valid_datetime x = true -> clamped x 0 0 = x.
Proof.
  intros V. destruct (target_same x V) as (Ey & Em).
  unfold clamped. rewrite Ey, Em.
  apply valid_datetime_iff in V. destruct V as (Vd & _).
  apply valid_ymd_iff in Vd.
  rewrite Z.min_r by lia. now destruct x.
Qed.

Lemma _set_month_same self :
  valid_datetime (dt self) = true ->
  _set_month self (_get_month self - 0) = Ok self.
Proof.
  intros V. unfold _set_month, _get_month.
  replace (month (dt self) - 0 - month (dt self)) with 0 by lia.
  destruct (target_same _ V) as (Ey & _).
  rewrite radd_spec; [| exact V |].
  - rewrite timedelta_new_zero. cbn [bind].
    rewrite clamped_same by exact V.
    rewrite datetime_add_zero by exact V. now destruct self.
  - rewrite Ey. apply valid_datetime_iff in V. destruct V as (Vd & _).
    apply valid_ymd_iff in Vd. lia.
Qed.

Ltac same_by_zero_delta V :=
  match goal with
  | |- context [timedelta_new ?a ?b ?c ?d ?e ?f] =>
      replace (timedelta_new a b c d e f) with (Ok (mktimedelta 0 0 0))
        by (match goal with
            | |- context [?u - 0 - ?u] =>
                replace (u - 0 - u) with 0 by lia
            end; reflexivity)
  end;
  cbn [bind]; rewrite datetime_add_zero by exact V;
  match goal with self : Date |- _ => now destruct self end.

Lemma _set_day_same self :
  valid_datetime (dt self) = true ->
  _set_day self (_get_day self - 0) = Ok self.
Proof. intros V. unfold _set_day, _get_day. same_by_zero_delta V. Qed.

Lemma _set_hour_same self :
  valid_datetime (dt self) = true ->
  _set_hour self (_get_hour self - 0) = Ok self.
Proof. intros V. unfold _set_hour, _get_hour. same_by_zero_delta V. Qed.

Lemma _set_minute_same self :
  valid_datetime (dt self) = true ->
  _set_minute self (_get_minute self - 0) = Ok self.
Proof. intros V. unfold _set_minute, _get_minute. same_by_zero_delta V. Qed.

Lemma _set_second_same self :
  valid_datetime (dt self) = true ->
  _set_second self (_get_second self - 0) = Ok self.
Proof. intros V. unfold _set_second, _get_second. same_by_zero_delta V. Qed.

Section HostFacts.

Variable zone : Zone.
Variable now : datetime.

(** With no offsets, the six assignments of the constructor leave a valid
    datetime as it is. *)
Lemma Date_of_datetime x :
  valid_datetime x = true ->
  Date_ zone now (PyDatetime x) = Ok (mkDate x).
Proof.
  intros V. unfold Date_, __init__. cbn [bind].
  rewrite _set_year_same by exact V. cbn [bind].
  rewrite _set_month_same by exact V. cbn [bind].
  rewrite _set_day_same by exact V. cbn [bind].
  rewrite _set_hour_same by exact V. cbn [bind].
  rewrite _set_minute_same by exact V. cbn [bind].
  now rewrite _set_second_same by exact V.
Qed.

Lemma Date_of_timestamp t :
  representable (offset_at zone t) t ->
  exists x,
    fromtimestamp zone t = Ok x
    /\ Date_ zone now (PyInt t) = Ok (mkDate x)
    /\ valid_datetime x = true.
Proof.
  intros R.
  destruct (fromtimestamp_spec zone t R) as (x & E & V & _).
  exists x. repeat split; try assumption.
  pose proof (Date_of_datetime x V) as D.
  unfold Date_, __init__ in *. rewrite E. exact D.
Qed.

Lemma MAX_eq : MAX zone now = Ok (mkDate dt2038).
Proof. unfold MAX. now rewrite Date_of_datetime. Qed.

(** Two levels of the recursion are all [_get_timestamp] ever uses. *)
Lemma _get_timestamp_eq self :
  _get_timestamp zone now self =
    if cmp (dt self) dt2038 >? 0
    then mktime zone (timetuple dt2038)
    else mktime zone (timetuple (dt self)).
Proof.
  unfold _get_timestamp.
  change recursion_limit with (S (S 998)).
  cbn [_get_timestamp_rec]. rewrite MAX_eq. cbn [bind].
  unfold op_gt, __cmp__. cbn [bind dt].
  destruct (cmp (dt self) dt2038 >? 0); [|reflexivity].
  now rewrite cmp_refl.
Qed.

End HostFacts.

(** ** The claims *)

Lemma month_setter_target x v :
  target_year x 0 (v - month x) = year x + (v - 1) / 12
  /\ target_month x 0 (v - month x) = (v - 1) mod 12 + 1.
Proof.
  unfold target_year, target_month, months_total.
  split; Z.div_mod_to_equations; lia.
Qed.

(** C1 (as stated): the month setter does not take 2009-01-31 to
    2009-03-03. *)
Lemma set_month_jan31_not_mar3 :
  _set_month jan31 2 <> Ok (mkDate (mkdatetime 2009 3 3 0 0 0 0)).
Proof. vm_compute. discriminate. Qed.

(** C1 (amended): setting the month to [v] moves the instant by
    [v - month] calendar months: the year advances by the whole years in
    [v - 1], the month becomes the remainder, the day is clamped to the
    length of the target month, the time of day is kept. *)
Theorem set_month_shifts_and_clamps self v :
  valid_datetime (dt self) = true ->
  let y := year (dt self) + (v - 1) / 12 in
  let m := (v - 1) mod 12 + 1 in
  1 <= y <= 9999 ->
  _set_month self v =
    Ok (mkDate (mkdatetime y m
                  (Z.min (Calendar.days_in_month y m) (day (dt self)))
                  (hour (dt self)) (minute (dt self)) (second (dt self))
                  (microsecond (dt self)))).
Proof.
  intros V y m Hy.
  destruct (month_setter_target (dt self) v) as (Ey & Em).
  unfold _set_month.
  assert (Hy' : 1 <= target_year (dt self) 0 (v - month (dt self)) <= 9999)
    by (rewrite Ey; exact Hy).
  rewrite radd_spec by assumption.
  rewrite timedelta_new_zero. cbn [bind].
  rewrite datetime_add_zero by (apply clamped_valid; assumption).
  cbn [bind]. unfold clamped. rewrite Ey, Em. reflexivity.
Qed.

Lemma set_month_jan31_feb28 :
  _set_month jan31 2 = Ok (mkDate (mkdatetime 2009 2 28 0 0 0 0)).
Proof.
  apply (set_month_shifts_and_clamps jan31 2).
  - reflexivity.
  - vm_compute. split; discriminate.
Defined.

Lemma micros_dt2038 :
  micros dt2038 = (EPOCH_ORDINAL * 86400 + 2145916800) * 1000000.
Proof. reflexivity. Qed.

Lemma sign_of_cases a b :
  (a < b /\ sign_of a b = -1) \/ (a = b /\ sign_of a b = 0)
  \/ (b < a /\ sign_of a b = 1).
Proof.
  unfold sign_of.
  destruct (Z.ltb_spec a b); [left; lia|].
  destruct (Z.ltb_spec b a); [right; right; lia|].
  right; left; lia.
Qed.

Section Timestamps.

Variable utcoffset : Z.
Variable now : datetime.

Lemma MAX_timestamp :
  _get_timestamp (fixed_offset utcoffset) now (mkDate dt2038)
  = Ok (MAX_TIMESTAMP utcoffset).
Proof.
  rewrite _get_timestamp_eq. cbn [dt]. rewrite cmp_refl. reflexivity.
Qed.

(** The timestamp of a date built from [t], when [t] is not beyond that
    of [MAX] and its local year is at least 1900. *)
Lemma timestamp_of_fromtimestamp t x :
  fromtimestamp (fixed_offset utcoffset) t = Ok x ->
  representable utcoffset t ->
  -2208988800 <= t + utcoffset ->
  t <= MAX_TIMESTAMP utcoffset ->
  _get_timestamp (fixed_offset utcoffset) now (mkDate x) = Ok t.
Proof.
  intros E R Hlo Hhi.
  destruct (fromtimestamp_fixed utcoffset t R) as (x' & E' & V & Ho & Hs & Hu).
  rewrite E in E'. injection E' as <-.
  rewrite _get_timestamp_eq. cbn [dt].
  rewrite cmp_micros by (exact V || reflexivity).
  assert (Hm : micros x = (EPOCH_ORDINAL * 86400 + (t + utcoffset)) * 1000000).
  { unfold micros. rewrite Ho, Hs, Hu.
    pose proof (Z.div_mod (t + utcoffset) 86400). lia. }
  rewrite micros_dt2038, Hm.
  destruct (sign_of_cases ((EPOCH_ORDINAL * 86400 + (t + utcoffset)) * 1000000)
              ((EPOCH_ORDINAL * 86400 + 2145916800) * 1000000))
    as [[L ->] | [[L ->] | [L ->]]];
    try (unfold MAX_TIMESTAMP in Hhi; exfalso; lia).
  - cbn. rewrite mktime_timetuple_fixed.
    + rewrite Ho, Hs. f_equal.
      pose proof (Z.div_mod (t + utcoffset) 86400). lia.
    + apply year_of_ordinal_ge; [exact V|]. rewrite Ho.
      change (ymd2ord 1900 1 1) with 693596. unfold EPOCH_ORDINAL.
      Z.div_mod_to_equations. lia.
  - cbn. rewrite mktime_timetuple_fixed.
    + rewrite Ho, Hs. f_equal.
      pose proof (Z.div_mod (t + utcoffset) 86400). lia.
    + apply year_of_ordinal_ge; [exact V|]. rewrite Ho.
      change (ymd2ord 1900 1 1) with 693596. unfold EPOCH_ORDINAL.
      Z.div_mod_to_equations. lia.
Qed.

Lemma MIN_timestamp :
  zone_ok utcoffset ->
  (m <- MIN (fixed_offset utcoffset) now ;;
   _get_timestamp (fixed_offset utcoffset) now m) = Ok 0.
Proof.
  intros Z0. unfold zone_ok in Z0.
  assert (R : representable utcoffset 0) by (unfold representable; lia).
  destruct (Date_of_timestamp (fixed_offset utcoffset) now 0 R)
    as (x & E & D & V).
  unfold MIN. rewrite D. cbn [bind].
  apply (timestamp_of_fromtimestamp 0 x E R); unfold MAX_TIMESTAMP; lia.
Qed.

End Timestamps.

(** Two instants that the zone reads as the same civil time build the
    same [Date], so whatever [mktime] returns, at most one of them is
    read back. *)
Lemma same_civil_time_same_timestamp zone now t1 t2 :
  t1 + offset_at zone t1 = t2 + offset_at zone t2 ->
  (d <- Date_ zone now (PyInt t1) ;; _get_timestamp zone now d)
  = (d <- Date_ zone now (PyInt t2) ;; _get_timestamp zone now d).
Proof.
  intros E. unfold Date_, __init__, fromtimestamp. now rewrite E.
Qed.



(** The bounds are tight: at the timestamp of [MIN] the value is still
    returned, one second past that of [MAX] it is clamped. *)
Example timestamp_past_MAX :
  (d <- Date_ example_zone example_now (PyInt 2145913201) ;;
   _get_timestamp example_zone example_now d) = Ok 2145913200.
Proof. reflexivity. Qed.


(** The lexicographic order on field lists is transitive. *)
Lemma cmp_list_trans a : forall b c,
  cmp_list a b < 0 -> cmp_list b c < 0 -> cmp_list a c < 0.
Proof.
  induction a as [|x a IH]; intros [|y b] [|z c]; cbn; try lia.
  destruct (Z.ltb_spec x y), (Z.ltb_spec y z), (Z.ltb_spec x z),
    (Z.ltb_spec y x), (Z.ltb_spec z y), (Z.ltb_spec z x);
    try lia; intros; try lia.
  now apply (IH b c).
Qed.

Lemma MAX_timestamp_zone zone now :
  _get_timestamp zone now (mkDate dt2038)
  = Ok (resolve zone (-1) 2145916800).
Proof.
  rewrite _get_timestamp_eq. cbn [dt]. rewrite cmp_refl. reflexivity.
Qed.

Lemma MIN_before_MAX zone now min :
  zone_ok (offset_at zone 0) -> MIN zone now = Ok min ->
  cmp (dt min) dt2038 < 0.
Proof.
  intros Z0 E. unfold zone_ok in Z0.
  assert (R : representable (offset_at zone 0) 0)
    by (unfold representable; lia).
  destruct (Date_of_timestamp zone now 0 R) as (x & Ex & D & V).
  destruct (fromtimestamp_spec zone 0 R) as (x' & E' & _ & Ho & Hs & Hu).
  rewrite Ex in E'. injection E' as <-.
  unfold MIN in E. rewrite D in E. injection E as <-. cbn [dt].
  rewrite cmp_micros by (exact V || reflexivity).
  assert (Hm : micros x
               = (EPOCH_ORDINAL * 86400 + (0 + offset_at zone 0)) * 1000000).
  { unfold micros. rewrite Ho, Hs, Hu.
    pose proof (Z.div_mod (0 + offset_at zone 0) 86400). lia. }
  rewrite Hm, micros_dt2038.
  match goal with
  | |- sign_of ?u ?v < 0 =>
      destruct (sign_of_cases u v) as [[L ->] | [[L ->] | [L ->]]]; lia
  end.
Qed.

(** C3: a [Date] beyond [MAX] reads the timestamp of [MAX], which is
    defined; any other [Date] reads the plain conversion of its own
    instant, and that includes the dates before [MIN].  This holds in
    every zone. *)
Theorem timestamp_clamps_only_above_MAX zone now self :
  exists max tmax,
    MAX zone now = Ok max
    /\ _get_timestamp zone now max = Ok tmax
    /\ (op_gt self (PyPaoDate max) = Ok true ->
        _get_timestamp zone now self = Ok tmax)
    /\ (op_gt self (PyPaoDate max) = Ok false ->
        _get_timestamp zone now self = mktime zone (timetuple (dt self)))
    /\ (zone_ok (offset_at zone 0) ->
        forall min, MIN zone now = Ok min ->
        op_lt self (PyPaoDate min) = Ok true ->
        _get_timestamp zone now self = mktime zone (timetuple (dt self))).
Proof.
  exists (mkDate dt2038), (resolve zone (-1) 2145916800).
  split; [apply MAX_eq|]. split; [apply MAX_timestamp_zone|].
  unfold op_gt, op_lt, __cmp__. cbn [bind dt].
  repeat split.
  - intros [= H]. rewrite _get_timestamp_eq, H. reflexivity.
  - intros [= H]. rewrite _get_timestamp_eq, H. reflexivity.
  - intros Z0 min Emin [= H]. apply Z.ltb_lt in H.
    pose proof (MIN_before_MAX zone now min Z0 Emin) as M.
    pose proof (cmp_list_trans _ _ _ H M) as T.
    rewrite _get_timestamp_eq.
    fold (cmp (dt self) dt2038) in T.
    destruct (Z.gtb_spec (cmp (dt self) dt2038) 0); [lia | reflexivity].
Qed.

Lemma timestamp_clamp_examples :
  _get_timestamp example_zone example_now year2040 = Ok 2145913200
  /\ _get_timestamp example_zone example_now year1960 = Ok (-312555600).
Proof.
  destruct (timestamp_clamps_only_above_MAX example_zone example_now year2040)
    as (max & tmax & Emax & Et & Habove & _).
  destruct (timestamp_clamps_only_above_MAX example_zone example_now year1960)
    as (max' & tmax' & Emax' & _ & _ & _ & Hbelow).
  vm_compute in Emax. injection Emax as <-.
  vm_compute in Et. injection Et as <-.
  split.
  - apply Habove. reflexivity.
  - rewrite (Hbelow ltac:(vm_compute; split; reflexivity)
               (mkDate (mkdatetime 1970 1 1 1 0 0 0))); reflexivity.
Defined.

(** C4 (as stated): a sequence of three numbers need not construct, and
    neither does the nine-item tuple the error message of the constructor
    asks for. *)
Lemma Date_of_sequence_can_fail :
  Date_ example_zone example_now (PySeq [2009; 13; 1]) = Raise ValueError
  /\ Date_ example_zone example_now
       (PySeq [2009; 2; 14; 0; 31; 30; 0; 0; -1]) = Raise TypeError.
Proof. split; reflexivity. Qed.

(** C4 (amended): a sequence of three to seven integers that, padded
    with zeros, is a valid (year, month, day, hour, minute, second,
    microsecond) constructs the [Date] of exactly those fields. *)
Theorem Date_of_components zone now l y m d h mi s us :
  (3 <= List.length l <= 7)%nat ->
  (l ++ repeat 0 (7 - List.length l))%list = [y; m; d; h; mi; s; us] ->
  valid_datetime (mkdatetime y m d h mi s us) = true ->
  Date_ zone now (PySeq l) = Ok (mkDate (mkdatetime y m d h mi s us)).
Proof.
  intros Hl Hpad V.
  assert (E : datetime_of_args l = Ok (mkdatetime y m d h mi s us)).
  { destruct l as [|a0 [|a1 [|a2 [|a3 [|a4 [|a5 [|a6 [|a7 l]]]]]]]];
      cbn in Hl; try lia; cbn in Hpad; injection Hpad as <- <- <- <- <- <- <-;
      cbn [datetime_of_args]; apply datetime_new_valid; exact V. }
  pose proof (Date_of_datetime zone now _ V) as D.
  unfold Date_, __init__ in *. rewrite E. exact D.
Qed.

Lemma Date_of_components_2009_02_14 :
  Date_ example_zone example_now (PySeq [2009; 2; 14]) =
    Ok (mkDate (mkdatetime 2009 2 14 0 0 0 0)).
Proof.
  apply (Date_of_components example_zone example_now [2009; 2; 14]).
  - cbn. lia.
  - reflexivity.
  - reflexivity.
Defined.

(** C5: writing its own [date], or its own [time], back into a [Date]
    leaves [dt] as it was. *)
Theorem date_and_time_assignment_idempotent self :
  dt (_set_date self (_get_date self)) = dt self
  /\ dt (_set_time self (_get_time self)) = dt self.
Proof.
  destruct self as [[y m d h mi s us]]. split; reflexivity.
Qed.




(** The day before the first of the next month is the last day of this
    month. *)
Lemma ordinal_before_next_month y m :
  1 <= m <= 12 ->
  ymd2ord ((12 * y + m) / 12) ((12 * y + m) mod 12 + 1) 1 + -1
  = ymd2ord y m (Calendar.days_in_month y m).
Proof.
  intros Hm. destruct (Z.eq_dec m 12) as [-> | Hne].
  - replace ((12 * y + 12) / 12) with (y + 1)
      by (Z.div_mod_to_equations; lia).
    replace ((12 * y + 12) mod 12 + 1) with 1
      by (Z.div_mod_to_equations; lia).
    unfold ymd2ord. rewrite days_before_year_succ.
    pose proof (days_before_month_december y).
    change (days_before_month (y + 1) 1) with 0. lia.
  - replace ((12 * y + m) / 12) with y by (Z.div_mod_to_equations; lia).
    replace ((12 * y + m) mod 12 + 1) with (m + 1)
      by (Z.div_mod_to_equations; lia).
    unfold ymd2ord. rewrite days_before_month_next by lia. lia.
Qed.

Lemma last_day_valid y m :
  1 <= y <= 9999 -> 1 <= m <= 12 ->
  valid_ymd y m (Calendar.days_in_month y m) = true.
Proof.
  intros Hy Hm. apply valid_ymd_iff.
  pose proof (days_in_month_bounds y m Hm). lia.
Qed.

Lemma end_of_month_spec zone now self :
  valid_datetime (dt self) = true ->
  year (dt self) < 9999 \/ month (dt self) < 12 ->
  end_of_month zone now self =
    Ok (mkDate (mkdatetime (year (dt self)) (month (dt self))
                  (Calendar.days_in_month (year (dt self)) (month (dt self)))
                  23 59 59 999999)).
Proof.
  intros V Hnot. apply valid_datetime_iff in V. destruct V as (Vd & _).
  apply valid_ymd_iff in Vd. destruct Vd as (Hy & Hm & Hd).
  set (y := year (dt self)) in *. set (m := month (dt self)) in *.
  pose proof (days_in_month_bounds y m Hm) as Hdim.
  set (x1 := mkdatetime y m 1 23 59 59 999999).
  assert (V1 : valid_datetime x1 = true).
  { apply valid_datetime_iff. subst x1. cbn. repeat split; try lia.
    apply valid_ymd_iff. lia. }
  unfold end_of_month. fold y m. rewrite datetime_new_valid by exact V1.
  cbn [bind]. fold x1.
  assert (Ey : target_year x1 0 1 = (12 * y + m) / 12)
    by (unfold target_year, months_total; subst x1; cbn [year month];
        f_equal; lia).
  assert (Em : target_month x1 0 1 = (12 * y + m) mod 12 + 1)
    by (unfold target_month, months_total; subst x1; cbn [year month];
        do 2 f_equal; lia).
  assert (Hy' : 1 <= target_year x1 0 1 <= 9999)
    by (rewrite Ey; Z.div_mod_to_equations; lia).
  rewrite radd_spec by assumption.
  rewrite timedelta_new_days by (unfold MAX_DELTA_DAYS; lia). cbn [bind].
  pose proof (clamped_valid x1 0 1 V1 Hy') as Vc.
  rewrite datetime_add_days by exact Vc.
  assert (Eo : toordinal (clamped x1 0 1) + -1
               = ymd2ord y m (Calendar.days_in_month y m)).
  { unfold toordinal, clamped. cbn [year month day]. rewrite Ey, Em.
    assert (Em' : 1 <= (12 * y + m) mod 12 + 1 <= 12)
      by (Z.div_mod_to_equations; lia).
    pose proof (days_in_month_bounds ((12 * y + m) / 12) _ Em').
    subst x1. cbn [day]. rewrite Z.min_r by lia.
    apply ordinal_before_next_month. exact Hm. }
  rewrite Eo.
  pose proof (last_day_valid y m Hy Hm) as Vl.
  pose proof (ymd2ord_range _ _ _ Vl) as R.
  replace (0 <? _) with true by (symmetry; apply Z.ltb_lt; lia).
  replace (_ <=? MAXORDINAL) with true by (symmetry; apply Z.leb_le; lia).
  cbn [andb]. rewrite ord2ymd_ymd2ord by exact Vl.
  unfold clamped. subst x1. cbn [hour minute second microsecond].
  apply Date_of_datetime. apply valid_datetime_iff. cbn.
  repeat split; try lia. exact Vl.
Qed.

(** C7: in every month, of a leap year or not, [days_in_month] is the
    day of [end_of_month], which stays in the month; in February that is
    29 in a leap year and 28 otherwise. *)
Theorem days_in_month_is_end_of_month_day zone now self :
  valid_datetime (dt self) = true ->
  year (dt self) < 9999 \/ month (dt self) < 12 ->
  exists e n,
    end_of_month zone now self = Ok e
    /\ Paodate.days_in_month self = Ok n
    /\ day (dt e) = n
    /\ year (dt e) = year (dt self) /\ month (dt e) = month (dt self)
    /\ (month (dt self) = 2 ->
        n = if isleap (year (dt self)) then 29 else 28).
Proof.
  intros V Hnot. rewrite (end_of_month_spec zone now self V Hnot).
  apply valid_datetime_iff in V. destruct V as (Vd & _).
  apply valid_ymd_iff in Vd. destruct Vd as (Hy & Hm & Hd).
  eexists. exists (Calendar.days_in_month (year (dt self)) (month (dt self))).
  split; [reflexivity|]. split.
  - unfold Paodate.days_in_month, _get_year, _get_month.
    now rewrite monthrange_ok by assumption.
  - cbn [dt year month day]. repeat split.
    intros ->. unfold Calendar.days_in_month.
    now destruct (isleap (year (dt self))).
Qed.

(** December 9999 is the one month without an [end_of_month]: the first
    of the next month is beyond [MAXYEAR]. *)
Example end_of_month_december_9999 :
  end_of_month example_zone example_now
    (mkDate (mkdatetime 9999 12 25 0 0 0 0)) = Raise ValueError.
Proof. reflexivity. Qed.

Lemma february_2008_and_2009 :
  (exists e, end_of_month example_zone example_now
               (mkDate (mkdatetime 2008 2 14 0 31 30 0)) = Ok e
             /\ Paodate.days_in_month (mkDate (mkdatetime 2008 2 14 0 31 30 0))
                = Ok 29
             /\ day (dt e) = 29)
  /\ (exists e, end_of_month example_zone example_now
                  (mkDate (mkdatetime 2009 2 14 0 31 30 0)) = Ok e
                /\ Paodate.days_in_month
                     (mkDate (mkdatetime 2009 2 14 0 31 30 0)) = Ok 28
                /\ day (dt e) = 28).
Proof.
  split.
  - destruct (days_in_month_is_end_of_month_day example_zone example_now
                (mkDate (mkdatetime 2008 2 14 0 31 30 0)))
      as (e & n & He & Hn & Hd & _ & _ & Hfeb);
      [reflexivity | left; cbn; lia |].
    exists e. rewrite (Hfeb eq_refl) in Hn, Hd. cbn in Hn, Hd. auto.
  - destruct (days_in_month_is_end_of_month_day example_zone example_now
                (mkDate (mkdatetime 2009 2 14 0 31 30 0)))
      as (e & n & He & Hn & Hd & _ & _ & Hfeb);
      [reflexivity | left; cbn; lia |].
    exists e. rewrite (Hfeb eq_refl) in Hn, Hd. cbn in Hn, Hd. auto.
Defined.

(** The tuple of a valid datetime from 1900 on passes the checks of
    [time.strftime] unchanged. *)
Lemma checktm_timetuple x :
  valid_datetime x = true -> 1900 <= year x ->
  checktm (timetuple x) = Ok (timetuple x).
Proof.
  intros V Hy. apply valid_datetime_iff in V.
  destruct V as (Vd & Hh & Hmi & Hs & Hu).
  apply valid_ymd_iff in Vd. destruct Vd as (Hyr & Hm & Hd).
  pose proof (days_in_month_bounds (year x) (month x) Hm) as Hdim.
  pose proof (ymd2ord_in_year (year x) (month x) (day x) Hm Hd) as Hin.
  rewrite days_before_year_succ in Hin.
  assert (Hleap : 0 <= b2z (isleap (year x)) <= 1)
    by (destruct (isleap (year x)); cbn; lia).
  assert (Hjan : ymd2ord (year x) 1 1 = days_before_year (year x) + 1).
  { unfold ymd2ord. change (days_before_month (year x) 1) with 0. lia. }
  pose proof (Z.mod_pos_bound (ymd2ord (year x) (month x) (day x) + 6) 7
                ltac:(lia)) as Hw.
  unfold checktm, timetuple, weekday.
  cbn [tm_year tm_mon tm_mday tm_hour tm_min tm_sec tm_wday tm_yday tm_isdst].
  rewrite gettmarg_year_modern by exact Hy. cbn [bind].
  set (yd := ymd2ord (year x) (month x) (day x) - ymd2ord (year x) 1 1 + 1).
  assert (Hyd : 1 <= yd <= 366) by (subst yd; lia).
  replace (month x =? 0) with false by (symmetry; apply Z.eqb_neq; lia).
  replace (day x =? 0) with false by (symmetry; apply Z.eqb_neq; lia).
  replace (yd =? 0) with false by (symmetry; apply Z.eqb_neq; lia).
  repeat match goal with
         | |- context [?u <=? ?v] =>
             replace (u <=? v) with true by (symmetry; apply Z.leb_le; lia)
         end.
  reflexivity.
Qed.

Lemma append_nil_r (s : string) : (s ++ "")%string = s.
Proof. induction s as [|c s IH]; cbn; [reflexivity | now rewrite IH]. Qed.

Lemma pad2_small d :
  0 <= d < 10 -> pad2 d = String "0"%char (String (digit d) EmptyString).
Proof.
  intros H. unfold pad2.
  rewrite Z.div_small, Z.mod_small by lia. reflexivity.
Qed.

(** What [_get_fancy] returns, for either value of [display_year]. *)
Lemma _get_fancy_spec self display_year :
  valid_datetime (dt self) = true -> 1900 <= year (dt self) ->
  _get_fancy self display_year =
    Ok (month_name (month (dt self)) ++ " " ++ pad2 (day (dt self))
        ++ fancy_suffix (day (dt self))
        ++ (if display_year then ", " ++ decimal (year (dt self))
            else ""))%string.
Proof.
  intros V Hy. unfold _get_fancy, strftime, PyTime.strftime, _get_tuple.
  rewrite checktm_timetuple by assumption. cbn [bind]. f_equal.
  unfold fancy_suffix.
  destruct ((day (dt self) =? 1) || (day (dt self) =? 21)
            || (day (dt self) =? 31));
    [| destruct (day (dt self) =? 2); [| destruct (day (dt self) =? 3)]];
    destruct display_year;
    cbn [append expand directive timetuple tm_year tm_mon tm_mday];
    rewrite ?append_nil_r; reflexivity.
Qed.

(** C8: [fancy] formats with the pattern "%B %d", an ordinal suffix and
    ", %Y"; the suffix is "st" on days 1, 21 and 31, "nd" on day 2, "rd"
    on day 3 and "th" on every other day.  For a date from 1900 on the
    result is the month name, the day on two digits, the suffix and the
    year. *)
Theorem fancy_ordinal_suffix self :
  exists suffix,
    fancy self = strftime self ("%B %d" ++ suffix ++ ", %Y")
    /\ (day (dt self) = 1 \/ day (dt self) = 21 \/ day (dt self) = 31 ->
        suffix = "st"%string)
    /\ (day (dt self) = 2 -> suffix = "nd"%string)
    /\ (day (dt self) = 3 -> suffix = "rd"%string)
    /\ (day (dt self) <> 1 -> day (dt self) <> 21 -> day (dt self) <> 31 ->
        day (dt self) <> 2 -> day (dt self) <> 3 -> suffix = "th"%string)
    /\ (valid_datetime (dt self) = true -> 1900 <= year (dt self) ->
        fancy self =
          Ok (month_name (month (dt self)) ++ " " ++ pad2 (day (dt self))
              ++ suffix ++ ", " ++ decimal (year (dt self)))%string).
Proof.
  exists (fancy_suffix (day (dt self))).
  split; [reflexivity|].
  unfold fancy_suffix.
  repeat split.
  - intros [-> | [-> | ->]]; reflexivity.
  - intros ->; reflexivity.
  - intros ->; reflexivity.
  - intros H1 H21 H31 H2 H3.
    repeat match goal with
           | |- context [?u =? ?v] =>
               replace (u =? v) with false by (symmetry; apply Z.eqb_neq; lia)
           end.
    reflexivity.
  - intros V Hy. fold (fancy_suffix (day (dt self))).
    unfold fancy. now rewrite _get_fancy_spec.
Qed.

Lemma fancy_day_22 :
  fancy (mkDate (mkdatetime 2009 2 22 0 0 0 0))
  = Ok "February 22th, 2009"%string.
Proof.
  destruct (fancy_ordinal_suffix (mkDate (mkdatetime 2009 2 22 0 0 0 0)))
    as (s & _ & _ & _ & _ & Hth & E).
  rewrite E, Hth; [reflexivity | | | | | | reflexivity | ]; cbn; lia.
Defined.

(** C9: the year setter rebuilds the datetime with the new year and the
    same month, day and time; when that is not a date of the calendar, as
    for February 29 in a year that is not leap, it raises [ValueError]
    and moves to no neighbouring day. *)
Theorem set_year_replaces_or_raises self v :
  valid_datetime (dt self) = true ->
  (valid_ymd v (month (dt self)) (day (dt self)) = true ->
   _set_year self v =
     Ok (mkDate (mkdatetime v (month (dt self)) (day (dt self))
                   (hour (dt self)) (minute (dt self)) (second (dt self))
                   (microsecond (dt self)))))
  /\ (valid_ymd v (month (dt self)) (day (dt self)) = false ->
      _set_year self v = Raise ValueError)
  /\ (month (dt self) = 2 -> day (dt self) = 29 -> isleap v = false ->
      _set_year self v = Raise ValueError).
Proof.
  intros V. unfold valid_datetime in V. apply andb_true_iff in V.
  destruct V as (_ & Vt).
  assert (A : valid_ymd v (month (dt self)) (day (dt self)) = false ->
              _set_year self v = Raise ValueError).
  { intros H. unfold _set_year, replace_year, replace_ymd, datetime_new.
    now rewrite H. }
  repeat split.
  - intros H. unfold _set_year, replace_year, replace_ymd, datetime_new.
    now rewrite H, Vt.
  - exact A.
  - intros Hm Hd Hl. apply A. rewrite Hm, Hd.
    unfold valid_ymd, Calendar.days_in_month. rewrite Hl.
    cbn. now rewrite !andb_false_r.
Qed.

Lemma set_year_feb29 :
  _set_year feb29 2009 = Raise ValueError
  /\ _set_year feb29 2012 = Ok (mkDate (mkdatetime 2012 2 29 10 20 30 0)).
Proof.
  destruct (set_year_replaces_or_raises feb29 2009 eq_refl) as (_ & _ & Hbad).
  destruct (set_year_replaces_or_raises feb29 2012 eq_refl) as (Hgood & _).
  split.
  - apply Hbad; reflexivity.
  - apply Hgood. reflexivity.
Defined.

(** C10: [fancy] and [fancy_no_year] print a day below 10 with a leading
    zero. *)
Theorem fancy_day_zero_padded self :
  valid_datetime (dt self) = true -> 1900 <= year (dt self) ->
  day (dt self) < 10 ->
  fancy_no_year self =
    Ok (month_name (month (dt self)) ++ " 0"
        ++ String (digit (day (dt self))) (fancy_suffix (day (dt self))))%string
  /\ fancy self =
    Ok (month_name (month (dt self)) ++ " 0"
        ++ String (digit (day (dt self)))
             (fancy_suffix (day (dt self)) ++ ", "
              ++ decimal (year (dt self))))%string.
Proof.
  intros V Hy Hd.
  assert (H0 : 0 <= day (dt self) < 10).
  { apply valid_datetime_iff in V. destruct V as (Vd & _).
    apply valid_ymd_iff in Vd. lia. }
  unfold fancy_no_year, fancy. rewrite !_get_fancy_spec by assumption.
  rewrite pad2_small by exact H0. cbn [append].
  rewrite append_nil_r. split; reflexivity.
Qed.

Lemma fancy_no_year_february_5 :
  fancy_no_year (mkDate (mkdatetime 2009 2 5 0 0 0 0))
  = Ok "February 05th"%string
  /\ fancy (mkDate (mkdatetime 2009 2 5 0 0 0 0))
     = Ok "February 05th, 2009"%string.
Proof.
  apply (fancy_day_zero_padded (mkDate (mkdatetime 2009 2 5 0 0 0 0)));
    [reflexivity | cbn; lia | cbn; lia].
Defined.

(** * Further properties of the class *)

(** ** Arithmetic on the time line *)

Lemma micros_range x :
  valid_datetime x = true -> on_calendar (micros x).
Proof.
  intros V. apply valid_datetime_iff in V.
  destruct V as (Vd & Hh & Hm & Hs & Hu).
  pose proof (ymd2ord_range _ _ _ Vd) as R.
  unfold on_calendar, micros, seconds_of_day, toordinal, DAY_US, MAXORDINAL in *.
  lia.
Qed.

(** [datetime + timedelta] moves a datetime along the time line by the
    length of the [timedelta], and raises [OverflowError] when that
    leaves the calendar. *)
Lemma datetime_add_micros x td :
  valid_datetime x = true -> td_normal td ->
  on_calendar (micros x + td_micros td) ->
  exists x',
    datetime_add x td = Ok x' /\ valid_datetime x' = true
    /\ micros x' = micros x + td_micros td.
Proof.
  intros V [Ns Nu] R. pose proof V as V'. apply valid_datetime_iff in V'.
  destruct V' as (Vd & Hh & Hm & Hs & Hu).
  unfold on_calendar, micros, td_micros, seconds_of_day, DAY_US, MAXORDINAL in R.
  unfold datetime_add, US_PER_SECOND, SECONDS_PER_DAY.
  set (us := microsecond x + td_microseconds td) in *.
  set (s := hour x * 3600 + minute x * 60 + second x + td_seconds td
            + us / 1000000) in *.
  set (days := toordinal x + td_days td + s / 86400) in *.
  assert (Hus : 0 <= us mod 1000000 < 1000000)
    by (apply Z.mod_pos_bound; lia).
  assert (Hs' : 0 <= s mod 86400 < 86400) by (apply Z.mod_pos_bound; lia).
  pose proof (Z.div_mod us 1000000 ltac:(lia)) as Eus.
  pose proof (Z.div_mod s 86400 ltac:(lia)) as Es.
  assert (Etot : (days * 86400 + s mod 86400) * 1000000 + us mod 1000000
                 = (toordinal x * 86400 + (hour x * 3600 + minute x * 60
                                            + second x)) * 1000000
                   + microsecond x
                   + ((td_days td * 86400 + td_seconds td) * 1000000
                      + td_microseconds td)).
  { subst days s us. lia. }
  assert (Hd : 1 <= days <= MAXORDINAL) by (unfold MAXORDINAL; lia).
  replace (0 <? days) with true by (symmetry; apply Z.ltb_lt; lia).
  replace (days <=? MAXORDINAL) with true by (symmetry; apply Z.leb_le; lia).
  cbn [andb].
  destruct (ord2ymd_valid _ Hd) as (y & m & d & E & Vy & Ho).
  rewrite E.
  destruct (hms_recompose _ Hs') as (Hh' & Hm' & Hsec' & Esum).
  eexists. split; [reflexivity|]. split.
  - apply valid_datetime_iff.
    cbn [year month day hour minute second microsecond].
    repeat split; try assumption; lia.
  - unfold micros, seconds_of_day, toordinal, td_micros.
    cbn [year month day hour minute second microsecond].
    rewrite Ho, Esum. exact Etot.
Qed.

Lemma datetime_add_overflow x td :
  valid_datetime x = true -> td_normal td ->
  ~ on_calendar (micros x + td_micros td) ->
  datetime_add x td = Raise OverflowError.
Proof.
  intros V [Ns Nu] R. apply valid_datetime_iff in V.
  destruct V as (Vd & Hh & Hm & Hs & Hu).
  unfold on_calendar, micros, td_micros, seconds_of_day, DAY_US, MAXORDINAL in R.
  unfold datetime_add, US_PER_SECOND, SECONDS_PER_DAY.
  set (us := microsecond x + td_microseconds td) in *.
  set (s := hour x * 3600 + minute x * 60 + second x + td_seconds td
            + us / 1000000) in *.
  set (days := toordinal x + td_days td + s / 86400) in *.
  assert (Hus : 0 <= us mod 1000000 < 1000000)
    by (apply Z.mod_pos_bound; lia).
  assert (Hs' : 0 <= s mod 86400 < 86400) by (apply Z.mod_pos_bound; lia).
  pose proof (Z.div_mod us 1000000 ltac:(lia)) as Eus.
  pose proof (Z.div_mod s 86400 ltac:(lia)) as Es.
  assert (Hd : ~ (1 <= days <= MAXORDINAL)).
  { unfold MAXORDINAL. intros Hd. apply R. subst days s us. lia. }
  destruct (Z.ltb_spec 0 days); [|reflexivity].
  destruct (Z.leb_spec days MAXORDINAL); [lia | reflexivity].
Qed.

Lemma timedelta_new_spec days seconds microseconds minutes hours weeks :
  let total := td_total days seconds microseconds minutes hours weeks in
  - MAX_DELTA_DAYS * DAY_US <= total < (MAX_DELTA_DAYS + 1) * DAY_US ->
  exists td,
    timedelta_new days seconds microseconds minutes hours weeks = Ok td
    /\ td_normal td /\ td_micros td = total.
Proof.
  intros total R. subst total.
  unfold td_total, MAX_DELTA_DAYS, DAY_US in R.
  unfold timedelta_new, US_PER_SECOND, SECONDS_PER_DAY, MAX_DELTA_DAYS.
  set (s := seconds + minutes * 60 + hours * 3600
            + microseconds / 1000000) in *.
  pose proof (Z.div_mod microseconds 1000000 ltac:(lia)) as Eus.
  pose proof (Z.mod_pos_bound microseconds 1000000 ltac:(lia)) as Hus.
  pose proof (Z.div_mod s 86400 ltac:(lia)) as Es.
  pose proof (Z.mod_pos_bound s 86400 ltac:(lia)) as Hs.
  set (d := days + weeks * 7 + s / 86400) in *.
  assert (Hd : -999999999 <= d <= 999999999) by (subst d s; lia).
  destruct (Z.leb_spec (- (999999999)) d); [|lia].
  destruct (Z.leb_spec d 999999999); [|lia].
  cbn [andb]. eexists. split; [reflexivity|]. split.
  - unfold td_normal. cbn. lia.
  - unfold td_micros, td_total. cbn [td_days td_seconds td_microseconds].
    subst d s. lia.
Qed.

Lemma timedelta_new_overflow days seconds microseconds minutes hours weeks :
  let total := td_total days seconds microseconds minutes hours weeks in
  ~ (- MAX_DELTA_DAYS * DAY_US <= total < (MAX_DELTA_DAYS + 1) * DAY_US) ->
  timedelta_new days seconds microseconds minutes hours weeks
  = Raise OverflowError.
Proof.
  intros total R. subst total.
  unfold td_total, MAX_DELTA_DAYS, DAY_US in R.
  unfold timedelta_new, US_PER_SECOND, SECONDS_PER_DAY, MAX_DELTA_DAYS.
  set (s := seconds + minutes * 60 + hours * 3600
            + microseconds / 1000000) in *.
  pose proof (Z.div_mod microseconds 1000000 ltac:(lia)) as Eus.
  pose proof (Z.mod_pos_bound microseconds 1000000 ltac:(lia)) as Hus.
  pose proof (Z.div_mod s 86400 ltac:(lia)) as Es.
  pose proof (Z.mod_pos_bound s 86400 ltac:(lia)) as Hs.
  set (d := days + weeks * 7 + s / 86400) in *.
  destruct (Z.leb_spec (- (999999999)) d); [|reflexivity].
  destruct (Z.leb_spec d 999999999); [|reflexivity].
  exfalso. apply R. subst d s. lia.
Qed.

Lemma shift_ok d s us mi h w x :
  valid_datetime x = true ->
  on_calendar (micros x + td_total d s us mi h w) ->
  exists x',
    (td <- timedelta_new d s us mi h w ;; datetime_add x td) = Ok x'
    /\ valid_datetime x' = true
    /\ micros x' = micros x + td_total d s us mi h w.
Proof.
  intros V R. pose proof (micros_range x V) as Rx.
  destruct (timedelta_new_spec d s us mi h w) as (td & E & N & T).
  { unfold on_calendar, DAY_US, MAXORDINAL, MAX_DELTA_DAYS in *. lia. }
  rewrite E. cbn [bind]. rewrite <- T in R |- *.
  now apply datetime_add_micros.
Qed.

Lemma shift_overflow d s us mi h w x :
  valid_datetime x = true ->
  ~ on_calendar (micros x + td_total d s us mi h w) ->
  (td <- timedelta_new d s us mi h w ;; datetime_add x td)
  = Raise OverflowError.
Proof.
  intros V R.
  destruct (Z_le_dec (- MAX_DELTA_DAYS * DAY_US) (td_total d s us mi h w))
    as [L|L];
    [destruct (Z_lt_dec (td_total d s us mi h w)
                 ((MAX_DELTA_DAYS + 1) * DAY_US)) as [U|U]|].
  - destruct (timedelta_new_spec d s us mi h w) as (td & E & N & T);
      [split; assumption|].
    rewrite E. cbn [bind]. rewrite <- T in R.
    now apply datetime_add_overflow.
  - rewrite timedelta_new_overflow; [reflexivity | cbv zeta; lia].
  - rewrite timedelta_new_overflow; [reflexivity | cbv zeta; lia].
Qed.

(** Equal positions up to whole days: same time of day. *)
Lemma micros_shift_days x x' k :
  valid_datetime x = true -> valid_datetime x' = true ->
  micros x' = micros x + k * DAY_US ->
  toordinal x' = toordinal x + k /\ time_of x' = time_of x.
Proof.
  intros V V' E. apply valid_datetime_iff in V, V'.
  destruct V as (_ & Hh & Hm & Hs & Hu), V' as (_ & Hh' & Hm' & Hs' & Hu').
  unfold micros, seconds_of_day, DAY_US in E.
  assert (toordinal x' = toordinal x + k) by lia.
  split; [assumption|]. unfold time_of. f_equal; lia.
Qed.

(** The setter of a field whose unit is [unit] microseconds. *)
Ltac delta_setter V R :=
  match goal with
  | |- context [timedelta_new ?d ?s ?us ?mi ?h ?w] =>
      let x' := fresh "x'" in
      let E := fresh "E" in
      let V' := fresh "V'" in
      let M := fresh "M" in
      destruct (shift_ok d s us mi h w _ V) as (x' & E & V' & M);
      [ unfold td_total; unfold DAY_US in *;
        match goal with |- on_calendar ?p =>
          match type of R with on_calendar ?q =>
            replace p with q by lia end end; exact R
      | exists x'; unfold bind in E |- *;
        destruct (timedelta_new d s us mi h w); [|discriminate];
        rewrite E; repeat split; try assumption;
        rewrite M; unfold td_total, DAY_US; lia ]
  end.

Lemma _set_day_micros self v :
  valid_datetime (dt self) = true ->
  on_calendar (micros (dt self) + (v - day (dt self)) * DAY_US) ->
  exists x', _set_day self v = Ok (mkDate x') /\ valid_datetime x' = true
    /\ micros x' = micros (dt self) + (v - day (dt self)) * DAY_US.
Proof. intros V R. unfold _set_day. delta_setter V R. Qed.

Lemma _set_week_micros self v :
  valid_datetime (dt self) = true ->
  on_calendar (micros (dt self) + (v - _get_week self) * 7 * DAY_US) ->
  exists x', _set_week self v = Ok (mkDate x') /\ valid_datetime x' = true
    /\ micros x' = micros (dt self) + (v - _get_week self) * 7 * DAY_US.
Proof. intros V R. unfold _set_week. cbv zeta. delta_setter V R. Qed.

Lemma _set_hour_micros self v :
  valid_datetime (dt self) = true ->
  on_calendar (micros (dt self) + (v - hour (dt self)) * 3600000000) ->
  exists x', _set_hour self v = Ok (mkDate x') /\ valid_datetime x' = true
    /\ micros x' = micros (dt self) + (v - hour (dt self)) * 3600000000.
Proof. intros V R. unfold _set_hour. delta_setter V R. Qed.

Lemma _set_minute_micros self v :
  valid_datetime (dt self) = true ->
  on_calendar (micros (dt self) + (v - minute (dt self)) * 60000000) ->
  exists x', _set_minute self v = Ok (mkDate x') /\ valid_datetime x' = true
    /\ micros x' = micros (dt self) + (v - minute (dt self)) * 60000000.
Proof. intros V R. unfold _set_minute. delta_setter V R. Qed.

Lemma _set_second_micros self v :
  valid_datetime (dt self) = true ->
  on_calendar (micros (dt self) + (v - second (dt self)) * 1000000) ->
  exists x', _set_second self v = Ok (mkDate x') /\ valid_datetime x' = true
    /\ micros x' = micros (dt self) + (v - second (dt self)) * 1000000.
Proof. intros V R. unfold _set_second. delta_setter V R. Qed.

Lemma _set_microsecond_micros self v :
  valid_datetime (dt self) = true ->
  on_calendar (micros (dt self) + (v - microsecond (dt self))) ->
  exists x', _set_microsecond self v = Ok (mkDate x')
    /\ valid_datetime x' = true
    /\ micros x' = micros (dt self) + (v - microsecond (dt self)).
Proof. intros V R. unfold _set_microsecond. delta_setter V R. Qed.

(** Whatever it is given, [datetime + timedelta] returns a datetime of
    the calendar or raises. *)
Lemma datetime_add_valid x td x' :
  datetime_add x td = Ok x' -> valid_datetime x' = true.
Proof.
  unfold datetime_add, US_PER_SECOND, SECONDS_PER_DAY.
  set (us := microsecond x + td_microseconds td).
  set (s := hour x * 3600 + minute x * 60 + second x + td_seconds td
            + us / 1000000).
  set (days := toordinal x + td_days td + s / 86400).
  destruct (Z.ltb_spec 0 days); [|discriminate].
  destruct (Z.leb_spec days MAXORDINAL); [|discriminate].
  cbn [andb].
  destruct (ord2ymd_valid days ltac:(lia)) as (y & m & d & E & V & _).
  rewrite E. intros [= <-].
  pose proof (Z.mod_pos_bound us 1000000 ltac:(lia)).
  pose proof (Z.mod_pos_bound s 86400 ltac:(lia)) as Hs.
  destruct (hms_recompose _ Hs) as (Hh & Hm & Hsec & _).
  apply valid_datetime_iff.
  cbn [year month day hour minute second microsecond].
  repeat split; try assumption; lia.
Qed.

Lemma bind_Ok {A B} (r : result A) (k : A -> result B) b :
  bind r k = Ok b -> exists a, r = Ok a /\ k a = Ok b.
Proof. destruct r; cbn; [eauto | discriminate]. Qed.

Ltac delta_valid H :=
  apply bind_Ok in H; destruct H as (? & _ & H);
  apply bind_Ok in H; destruct H as (? & H & [= <-]);
  cbn [dt]; eapply datetime_add_valid; eassumption.

Lemma radd_valid rd x x' : radd rd x = Ok x' -> valid_datetime x' = true.
Proof.
  unfold radd.
  match goal with
  | |- context [let '(y, m) := ?p in _] => destruct p as [y m]
  end.
  intros H.
  apply bind_Ok in H; destruct H as (? & _ & H).
  apply bind_Ok in H; destruct H as (? & _ & H).
  apply bind_Ok in H; destruct H as (? & _ & H).
  eapply datetime_add_valid; eassumption.
Qed.

Section Invariant.

Variable zone : Zone.
Variable now : datetime.

(** X1: every value a setter leaves in [dt], and every value the
    constructor does, is a datetime of the calendar: year in 1..9999,
    month in 1..12, a day of that month, and a time of day in range. *)
Theorem dt_always_valid :
  (forall arg ya ma da ha mia sa d,
     __init__ zone now arg ya ma da ha mia sa = Ok d ->
     valid_datetime (dt d) = true)
  /\ (forall self v d,
        _set_year self v = Ok d \/ _set_month self v = Ok d
        \/ _set_week self v = Ok d \/ _set_day self v = Ok d
        \/ _set_hour self v = Ok d \/ _set_minute self v = Ok d
        \/ _set_second self v = Ok d \/ _set_microsecond self v = Ok d
        \/ _set_timestamp zone self v = Ok d ->
        valid_datetime (dt d) = true).
Proof.
  assert (S : forall self v d,
             _set_second self v = Ok d -> valid_datetime (dt d) = true).
  { intros self v d H. unfold _set_second in H. delta_valid H. }
  split.
  - intros arg ya ma da ha mia sa d H. unfold __init__ in H.
    do 6 (apply bind_Ok in H; destruct H as (? & _ & H)).
    eapply S; eassumption.
  - intros self v d [H | [H | [H | [H | [H | [H | [H | [H | H]]]]]]]].
    + unfold _set_year, replace_year, replace_ymd, datetime_new in H.
      apply bind_Ok in H. destruct H as (x & H & [= <-]).
      destruct (valid_ymd _ _ _ && valid_hms _ _ _ _) eqn:V; [|discriminate].
      injection H as <-. exact V.
    + unfold _set_month in H.
      apply bind_Ok in H. destruct H as (x & H & [= <-]).
      eapply radd_valid; eassumption.
    + unfold _set_week in H. cbv zeta in H. delta_valid H.
    + unfold _set_day in H. delta_valid H.
    + unfold _set_hour in H. delta_valid H.
    + unfold _set_minute in H. delta_valid H.
    + eapply S; eassumption.
    + unfold _set_microsecond in H. delta_valid H.
    + unfold _set_timestamp, fromtimestamp, SECONDS_PER_DAY in H.
      apply bind_Ok in H. destruct H as (x & H & [= <-]).
      set (local := v + offset_at zone v) in *.
      destruct (Z.leb_spec 1 (EPOCH_ORDINAL + local / 86400)); [|discriminate].
      destruct (Z.leb_spec (EPOCH_ORDINAL + local / 86400) MAXORDINAL);
        [|discriminate].
      cbn [andb] in H.
      destruct (ord2ymd_valid _ ltac:(split; eassumption))
        as (y & m & dd & E & V & _).
      rewrite E in H. injection H as <-.
      pose proof (Z.mod_pos_bound local 86400 ltac:(lia)) as Hs.
      destruct (hms_recompose _ Hs) as (Hh & Hm & Hsec & _).
      apply valid_datetime_iff.
      cbn [dt year month day hour minute second microsecond].
      repeat split; try assumption; lia.
Qed.

End Invariant.

Lemma dt_always_valid_witness :
  valid_datetime (mkdatetime 2009 2 14 0 31 30 0) = true
  /\ valid_datetime (mkdatetime 2009 3 28 0 31 30 0) = true.
Proof.
  destruct (dt_always_valid example_zone example_now) as (Hi & Hs).
  split.
  - apply (Hi (PyInt 1234567890) 0 0 0 0 0 0
              (mkDate (mkdatetime 2009 2 14 0 31 30 0))).
    reflexivity.
  - apply (Hs (mkDate (mkdatetime 2009 2 14 0 31 30 0)) 12
              (mkDate (mkdatetime 2009 3 28 0 31 30 0))).
    right. right. left. reflexivity.
Defined.

Lemma on_calendar_days x k :
  valid_datetime x = true ->
  on_calendar (micros x + k * DAY_US) <-> 1 <= toordinal x + k <= MAXORDINAL.
Proof.
  intros V. apply valid_datetime_iff in V.
  destruct V as (_ & Hh & Hm & Hs & Hu).
  unfold on_calendar, micros, seconds_of_day, DAY_US, MAXORDINAL. lia.
Qed.

Ltac delta_overflow self V R :=
  match goal with
  | |- context [timedelta_new ?d ?s ?us ?mi ?h ?w] =>
      let E := fresh "E" in
      assert (E : (td <- timedelta_new d s us mi h w ;;
                   datetime_add (dt self) td) = Raise OverflowError)
        by (apply (shift_overflow d s us mi h w _ V);
            unfold td_total; unfold DAY_US in *;
            match goal with |- ~ on_calendar ?p =>
              match type of R with ~ on_calendar ?q =>
                replace p with q by lia end end; exact R);
      unfold bind in E |- *;
      destruct (timedelta_new d s us mi h w);
      [rewrite E; reflexivity | injection E as ->; reflexivity]
  end.

(** X2: the day setter moves the date by [v - day] whole days and keeps
    the time of day; it raises [OverflowError] exactly when that leaves
    the calendar. *)
Theorem set_day_shifts self v :
  valid_datetime (dt self) = true ->
  let target := toordinal (dt self) + (v - day (dt self)) in
  (1 <= target <= MAXORDINAL ->
   exists x',
     _set_day self v = Ok (mkDate x') /\ valid_datetime x' = true
     /\ toordinal x' = target /\ time_of x' = time_of (dt self))
  /\ (~ 1 <= target <= MAXORDINAL ->
      _set_day self v = Raise OverflowError).
Proof.
  intros V target. subst target. split; intros R.
  - apply (on_calendar_days _ _ V) in R.
    destruct (_set_day_micros self v V R) as (x' & E & V' & M).
    exists x'. split; [exact E|]. split; [exact V'|].
    now apply micros_shift_days.
  - assert (R' : ~ on_calendar (micros (dt self)
                                + (v - day (dt self)) * DAY_US))
      by (intros C; apply R; now apply (on_calendar_days _ _ V)).
    unfold _set_day. delta_overflow self V R'.
Qed.

Lemma set_day_shifts_witness :
  (exists x',
     _set_day (mkDate (mkdatetime 1980 6 2 11 17 36 0)) 258 = Ok (mkDate x')
     /\ valid_datetime x' = true
     /\ toordinal x' = toordinal (mkdatetime 1980 6 2 11 17 36 0) + 256
     /\ time_of x' = mktime_of_day 11 17 36 0)
  /\ _set_day (mkDate (mkdatetime 9999 12 31 0 0 0 0)) 32
     = Raise OverflowError.
Proof.
  split.
  - apply (set_day_shifts (mkDate (mkdatetime 1980 6 2 11 17 36 0)) 258);
      [reflexivity | vm_compute; split; discriminate].
  - apply (set_day_shifts (mkDate (mkdatetime 9999 12 31 0 0 0 0)) 32);
      [reflexivity | vm_compute; intros [_ H]; apply H; reflexivity].
Defined.

(** X3: a day of the current month replaces the day and nothing else. *)
Theorem set_day_in_month self v :
  valid_datetime (dt self) = true ->
  1 <= v <= Calendar.days_in_month (year (dt self)) (month (dt self)) ->
  _set_day self v =
    Ok (mkDate (mkdatetime (year (dt self)) (month (dt self)) v
                  (hour (dt self)) (minute (dt self)) (second (dt self))
                  (microsecond (dt self)))).
Proof.
  intros V Hv. pose proof V as V0. apply valid_datetime_iff in V0.
  destruct V0 as (Vd & Ht). apply valid_ymd_iff in Vd.
  set (c := mkdatetime (year (dt self)) (month (dt self)) v
              (hour (dt self)) (minute (dt self)) (second (dt self))
              (microsecond (dt self))).
  assert (Vc : valid_datetime c = true).
  { apply valid_datetime_iff. subst c. cbn. split; [|exact Ht].
    apply valid_ymd_iff. lia. }
  assert (Mc : micros c = micros (dt self) + (v - day (dt self)) * DAY_US).
  { unfold micros, seconds_of_day, toordinal, ymd2ord, DAY_US. subst c. cbn.
    lia. }
  assert (R : on_calendar (micros (dt self) + (v - day (dt self)) * DAY_US))
    by (rewrite <- Mc; now apply micros_range).
  destruct (_set_day_micros self v V R) as (x' & E & V' & M).
  rewrite E. do 2 f_equal. apply micros_inj; [assumption | assumption | lia].
Qed.

Lemma set_day_in_month_witness :
  _set_day (mkDate (mkdatetime 2009 2 14 0 31 30 0)) 1
  = Ok (mkDate (mkdatetime 2009 2 1 0 31 30 0)).
Proof.
  apply (set_day_in_month (mkDate (mkdatetime 2009 2 14 0 31 30 0)) 1);
    [reflexivity | vm_compute; split; discriminate].
Defined.

(** X4: the hour, minute, second and microsecond setters move the
    instant by the difference to the current field, in their unit, and
    so carry into the larger fields. *)
Theorem time_setters_shift self v :
  valid_datetime (dt self) = true ->
  let x := dt self in
  (on_calendar (micros x + (v - hour x) * 3600000000) ->
   exists x', _set_hour self v = Ok (mkDate x')
              /\ moved x x' ((v - hour x) * 3600000000))
  /\ (on_calendar (micros x + (v - minute x) * 60000000) ->
      exists x', _set_minute self v = Ok (mkDate x')
                 /\ moved x x' ((v - minute x) * 60000000))
  /\ (on_calendar (micros x + (v - second x) * 1000000) ->
      exists x', _set_second self v = Ok (mkDate x')
                 /\ moved x x' ((v - second x) * 1000000))
  /\ (on_calendar (micros x + (v - microsecond x)) ->
      exists x', _set_microsecond self v = Ok (mkDate x')
                 /\ moved x x' (v - microsecond x)).
Proof.
  intros V x. subst x. unfold moved. repeat split.
  - intros R. destruct (_set_hour_micros self v V R) as (x' & E & V' & M).
    eauto.
  - intros R. destruct (_set_minute_micros self v V R) as (x' & E & V' & M).
    eauto.
  - intros R. destruct (_set_second_micros self v V R) as (x' & E & V' & M).
    eauto.
  - intros R.
    destruct (_set_microsecond_micros self v V R) as (x' & E & V' & M).
    eauto.
Qed.

Lemma time_setters_shift_witness :
  exists x',
    _set_hour (mkDate (mkdatetime 2009 2 14 0 31 30 0)) 25 = Ok (mkDate x')
    /\ moved (mkdatetime 2009 2 14 0 31 30 0) x' (25 * 3600000000).
Proof.
  destruct (time_setters_shift (mkDate (mkdatetime 2009 2 14 0 31 30 0)) 25
              eq_refl) as (H & _).
  apply H. vm_compute. split; [discriminate | reflexivity].
Defined.

(** X5: a delta setter whose target is outside the calendar raises
    [OverflowError]. *)
Theorem delta_setters_overflow self v :
  valid_datetime (dt self) = true ->
  let x := dt self in
  (~ on_calendar (micros x + (v - _get_week self) * 7 * DAY_US) ->
   _set_week self v = Raise OverflowError)
  /\ (~ on_calendar (micros x + (v - hour x) * 3600000000) ->
      _set_hour self v = Raise OverflowError)
  /\ (~ on_calendar (micros x + (v - minute x) * 60000000) ->
      _set_minute self v = Raise OverflowError)
  /\ (~ on_calendar (micros x + (v - second x) * 1000000) ->
      _set_second self v = Raise OverflowError)
  /\ (~ on_calendar (micros x + (v - microsecond x)) ->
      _set_microsecond self v = Raise OverflowError).
Proof.
  intros V x. subst x. repeat split; intros R.
  - unfold _set_week. cbv zeta. delta_overflow self V R.
  - unfold _set_hour. delta_overflow self V R.
  - unfold _set_minute. delta_overflow self V R.
  - unfold _set_second. delta_overflow self V R.
  - unfold _set_microsecond. delta_overflow self V R.
Qed.

Lemma delta_setters_overflow_witness :
  _set_second (mkDate (mkdatetime 9999 12 31 23 59 59 0)) 60
  = Raise OverflowError.
Proof.
  destruct (delta_setters_overflow
              (mkDate (mkdatetime 9999 12 31 23 59 59 0)) 60 eq_refl)
    as (_ & _ & _ & H & _).
  apply H. vm_compute. intros [_ C]. discriminate C.
Defined.

Ltac replaced_by c V Hv setter_micros :=
  let Vc := fresh "Vc" in
  let Mc := fresh "Mc" in
  let R := fresh "R" in
  let V0 := fresh "V0" in
  pose proof V as V0; apply valid_datetime_iff in V0;
  assert (Vc : valid_datetime c = true)
    by (apply valid_datetime_iff;
        cbn [year month day hour minute second microsecond];
        intuition lia);
  match type of setter_micros with
  | on_calendar ?p -> _ =>
      assert (Mc : micros c = p)
        by (unfold micros, seconds_of_day, toordinal;
            cbn [year month day hour minute second microsecond]; lia);
      assert (R : on_calendar p) by (rewrite <- Mc; now apply micros_range);
      let x' := fresh "x'" in
      let E := fresh "E" in
      let V' := fresh "V'" in
      let M := fresh "M" in
      destruct (setter_micros R) as (x' & E & V' & M);
      rewrite E; do 2 f_equal;
      apply micros_inj; [assumption | assumption | lia]
  end.

(** X6: an hour in 0..23, a minute or second in 0..59, a microsecond in
    0..999999 replaces that field and nothing else. *)
Theorem time_setters_in_range self v :
  valid_datetime (dt self) = true ->
  let x := dt self in
  (0 <= v <= 23 ->
   _set_hour self v =
     Ok (mkDate (mkdatetime (year x) (month x) (day x)
                   v (minute x) (second x) (microsecond x))))
  /\ (0 <= v <= 59 ->
      _set_minute self v =
        Ok (mkDate (mkdatetime (year x) (month x) (day x)
                      (hour x) v (second x) (microsecond x))))
  /\ (0 <= v <= 59 ->
      _set_second self v =
        Ok (mkDate (mkdatetime (year x) (month x) (day x)
                      (hour x) (minute x) v (microsecond x))))
  /\ (0 <= v <= 999999 ->
      _set_microsecond self v =
        Ok (mkDate (mkdatetime (year x) (month x) (day x)
                      (hour x) (minute x) (second x) v))).
Proof.
  intros V x. subst x. repeat split; intros Hv.
  - replaced_by
      (mkdatetime (year (dt self)) (month (dt self)) (day (dt self))
         v (minute (dt self)) (second (dt self)) (microsecond (dt self)))
      V Hv (_set_hour_micros self v V).
  - replaced_by
      (mkdatetime (year (dt self)) (month (dt self)) (day (dt self))
         (hour (dt self)) v (second (dt self)) (microsecond (dt self)))
      V Hv (_set_minute_micros self v V).
  - replaced_by
      (mkdatetime (year (dt self)) (month (dt self)) (day (dt self))
         (hour (dt self)) (minute (dt self)) v (microsecond (dt self)))
      V Hv (_set_second_micros self v V).
  - replaced_by
      (mkdatetime (year (dt self)) (month (dt self)) (day (dt self))
         (hour (dt self)) (minute (dt self)) (second (dt self)) v)
      V Hv (_set_microsecond_micros self v V).
Qed.

Lemma time_setters_in_range_witness :
  _set_hour (mkDate (mkdatetime 2009 2 14 0 31 30 0)) 10
  = Ok (mkDate (mkdatetime 2009 2 14 10 31 30 0))
  /\ _set_minute (mkDate (mkdatetime 2009 2 14 0 31 30 0)) 5
     = Ok (mkDate (mkdatetime 2009 2 14 0 5 30 0)).
Proof.
  destruct (time_setters_in_range (mkDate (mkdatetime 2009 2 14 0 31 30 0))
              10 eq_refl) as (Hh & _).
  destruct (time_setters_in_range (mkDate (mkdatetime 2009 2 14 0 31 30 0))
              5 eq_refl) as (_ & Hm & _).
  split; [apply Hh | apply Hm]; lia.
Defined.

(** The week of a date: the whole weeks since January 1. *)
Lemma _get_week_eq self :
  valid_datetime (dt self) = true ->
  _get_week self
  = (toordinal (dt self) - ymd2ord (year (dt self)) 1 1) / 7.
Proof.
  intros V. apply valid_datetime_iff in V.
  destruct V as (_ & Hh & Hm & Hs & Hu).
  unfold _get_week, datetime_sub_days, US_PER_SECOND, SECONDS_PER_DAY.
  cbn [year month day hour minute second microsecond toordinal].
  unfold toordinal.
  cbn [year month day hour minute second microsecond].
  f_equal.
  rewrite (Z.div_small (microsecond (dt self) - 0)) by lia.
  rewrite Z.div_small by lia. lia.
Qed.

(** X7: the week runs from 0, in the first seven days of the year, to
    52. *)
Theorem get_week_bounds self :
  valid_datetime (dt self) = true ->
  0 <= _get_week self <= 52
  /\ (_get_week self = 0 <->
      month (dt self) = 1 /\ day (dt self) <= 7).
Proof.
  intros V. rewrite _get_week_eq by exact V.
  apply valid_datetime_iff in V. destruct V as (Vd & _).
  apply valid_ymd_iff in Vd. destruct Vd as (Hy & Hm & Hd).
  pose proof (ymd2ord_in_year _ _ _ Hm Hd) as Hin.
  rewrite days_before_year_succ in Hin.
  assert (Hl : 0 <= b2z (isleap (year (dt self))) <= 1)
    by (destruct (isleap _); cbn; lia).
  assert (Hj : ymd2ord (year (dt self)) 1 1
               = days_before_year (year (dt self)) + 1).
  { unfold ymd2ord. change (days_before_month (year (dt self)) 1) with 0.
    lia. }
  unfold toordinal. rewrite Hj. split.
  - Z.div_mod_to_equations. lia.
  - assert (Hm1 : month (dt self) = 1 \/ 2 <= month (dt self)) by lia.
    destruct Hm1 as [E1 | G].
    + rewrite E1. unfold ymd2ord.
      change (days_before_month (year (dt self)) 1) with 0.
      split; [intros W | intros [_ W]]; [split; [reflexivity|] |];
        Z.div_mod_to_equations; lia.
    + pose proof (days_before_month_mono (year (dt self)) 1 (month (dt self))
                    ltac:(lia) ltac:(lia) ltac:(lia)) as Hmono.
      change (days_before_month (year (dt self)) 1) with 0 in Hmono.
      pose proof (days_in_month_bounds (year (dt self)) 1 ltac:(lia)).
      unfold ymd2ord. split; [intros W | intros [E _]; lia].
      exfalso. Z.div_mod_to_equations. lia.
Qed.

Lemma get_week_bounds_witness :
  0 <= _get_week (mkDate (mkdatetime 2008 12 31 23 59 59 0)) <= 52.
Proof.
  apply (get_week_bounds (mkDate (mkdatetime 2008 12 31 23 59 59 0))).
  reflexivity.
Defined.

(** X8: the week setter moves the date by [v - week] times seven days,
    so it keeps the day of the week and the time of day; when the result
    is in the same year, its week is [v]. *)
Theorem set_week_keeps_weekday self v :
  valid_datetime (dt self) = true ->
  let x := dt self in
  let target := toordinal x + 7 * (v - _get_week self) in
  1 <= target <= MAXORDINAL ->
  exists x',
    _set_week self v = Ok (mkDate x') /\ valid_datetime x' = true
    /\ toordinal x' = target
    /\ weekday (year x') (month x') (day x')
       = weekday (year x) (month x) (day x)
    /\ time_of x' = time_of x
    /\ (year x' = year x -> _get_week (mkDate x') = v).
Proof.
  intros V x target R. subst x target.
  assert (R' : on_calendar (micros (dt self)
                            + (v - _get_week self) * 7 * DAY_US)).
  { replace ((v - _get_week self) * 7 * DAY_US)
      with ((7 * (v - _get_week self)) * DAY_US) by lia.
    now apply on_calendar_days. }
  destruct (_set_week_micros self v V R') as (x' & E & V' & M).
  exists x'. split; [exact E|]. split; [exact V'|].
  destruct (micros_shift_days (dt self) x' (7 * (v - _get_week self)) V V')
    as (Eo & Et); [rewrite M; lia|].
  split; [exact Eo|]. split; [|split; [exact Et|]].
  - unfold weekday. unfold toordinal in Eo. rewrite Eo.
    replace (ymd2ord (year (dt self)) (month (dt self)) (day (dt self))
             + 7 * (v - _get_week self) + 6)
      with (ymd2ord (year (dt self)) (month (dt self)) (day (dt self)) + 6
            + (v - _get_week self) * 7) by lia.
    apply Z_mod_plus_full.
  - intros Ey. rewrite _get_week_eq by exact V'. cbn [dt].
    rewrite Eo, Ey. rewrite (_get_week_eq self V).
    replace (toordinal (dt self)
             + 7 * (v - (toordinal (dt self)
                         - ymd2ord (year (dt self)) 1 1) / 7)
             - ymd2ord (year (dt self)) 1 1)
      with ((toordinal (dt self) - ymd2ord (year (dt self)) 1 1)
            + (v - (toordinal (dt self)
                    - ymd2ord (year (dt self)) 1 1) / 7) * 7) by lia.
    rewrite Z.div_add by lia. lia.
Qed.

Lemma set_week_keeps_weekday_witness :
  exists x',
    _set_week (mkDate (mkdatetime 2009 2 14 0 31 30 0)) 12 = Ok (mkDate x')
    /\ weekday (year x') (month x') (day x') = 5
    /\ _get_week (mkDate x') = 12.
Proof.
  destruct (set_week_keeps_weekday (mkDate (mkdatetime 2009 2 14 0 31 30 0))
              12 eq_refl)
    as (x' & E & V' & Eo & Ew & Et & Eg);
    [vm_compute; split; discriminate|].
  exists x'. split; [exact E|]. split; [rewrite Ew; reflexivity|].
  apply Eg. vm_compute in E. injection E as <-. reflexivity.
Defined.

Lemma micros_local_seconds x :
  micros x = (EPOCH_ORDINAL * 86400 + local_seconds x) * 1000000
             + microsecond x.
Proof. unfold micros, local_seconds. lia. Qed.

Lemma cmp_year_le a b : cmp a b <= 0 -> year a <= year b.
Proof.
  unfold cmp, fields. cbn [cmp_list].
  destruct (Z.ltb_spec (year a) (year b)); [lia|].
  destruct (Z.ltb_spec (year b) (year a)); lia.
Qed.

(** The civil time [fromtimestamp] builds. *)
Lemma local_seconds_fromtimestamp zone t :
  representable (offset_at zone t) t ->
  exists x,
    fromtimestamp zone t = Ok x /\ valid_datetime x = true
    /\ local_seconds x = t + offset_at zone t /\ microsecond x = 0.
Proof.
  intros R.
  destruct (fromtimestamp_spec zone t R) as (x & E & V & Ho & Hs & Hu).
  exists x. repeat split; try assumption.
  unfold local_seconds. rewrite Ho, Hs.
  pose proof (Z.div_mod (t + offset_at zone t) 86400 ltac:(lia)). lia.
Qed.

Lemma year_of_local_seconds x :
  valid_datetime x = true -> -2208988800 <= local_seconds x ->
  1900 <= year x.
Proof.
  intros V H. apply year_of_ordinal_ge; [exact V|].
  change (ymd2ord 1900 1 1) with 693596.
  pose proof V as V0. apply valid_datetime_iff in V0.
  destruct V0 as (_ & Hh & Hm & Hs & _).
  unfold local_seconds, seconds_of_day, EPOCH_ORDINAL in H. lia.
Qed.

(** In every zone, the timestamp of a date from 1900 on is what [mktime]
    returns for its civil time, capped at 2038-01-01 00:00:00. *)
Lemma _get_timestamp_zone zone now self :
  valid_datetime (dt self) = true -> 1900 <= year (dt self) ->
  _get_timestamp zone now self
  = Ok (resolve zone (-1) (Z.min (local_seconds (dt self)) 2145916800)).
Proof.
  intros V Hy. rewrite _get_timestamp_eq.
  rewrite cmp_micros by (exact V || reflexivity).
  rewrite micros_dt2038, micros_local_seconds.
  apply valid_datetime_iff in V. destruct V as (_ & _ & _ & _ & Hu).
  match goal with
  | |- context [sign_of ?u ?v] =>
      destruct (sign_of_cases u v) as [[L ->] | [[L ->] | [L ->]]]
  end; cbn [Z.gtb Z.compare];
    rewrite mktime_timetuple by (exact Hy || (cbn; lia));
    try change (local_seconds dt2038) with 2145916800;
    do 2 f_equal; lia.
Qed.

Section TimestampFacts.

Variable utcoffset : Z.
Variable now : datetime.

(** The timestamp of a valid date from 1900 on: its local seconds
    moved to UTC, capped at the timestamp of [MAX]. *)
Lemma _get_timestamp_min self :
  valid_datetime (dt self) = true -> 1900 <= year (dt self) ->
  _get_timestamp (fixed_offset utcoffset) now self
  = Ok (Z.min (local_seconds (dt self) - utcoffset)
              (MAX_TIMESTAMP utcoffset)).
Proof.
  intros V Hy. rewrite _get_timestamp_eq.
  rewrite cmp_micros by (exact V || reflexivity).
  rewrite micros_dt2038, micros_local_seconds.
  apply valid_datetime_iff in V. destruct V as (_ & _ & _ & _ & Hu).
  unfold MAX_TIMESTAMP.
  match goal with
  | |- context [sign_of ?u ?v] =>
      destruct (sign_of_cases u v) as [[L ->] | [[L ->] | [L ->]]]
  end; cbn [Z.gtb Z.compare];
    try (rewrite mktime_timetuple_fixed by exact Hy;
         fold (local_seconds (dt self)));
    try (change (mktime (fixed_offset utcoffset) (timetuple dt2038))
           with (Ok (2145916800 - utcoffset)));
    f_equal; lia.
Qed.

(** X9: in a zone with one offset all year, the timestamp never
    exceeds that of [MAX], and it does not decrease when the instant
    grows. *)
Theorem timestamp_monotone_and_capped a b :
  valid_datetime (dt a) = true -> valid_datetime (dt b) = true ->
  1900 <= year (dt a) -> cmp (dt a) (dt b) <= 0 ->
  exists ta tb,
    _get_timestamp (fixed_offset utcoffset) now a = Ok ta
    /\ _get_timestamp (fixed_offset utcoffset) now b = Ok tb
    /\ ta <= tb <= MAX_TIMESTAMP utcoffset.
Proof.
  intros Va Vb Hy C. pose proof (cmp_year_le _ _ C) as Hyb.
  rewrite !_get_timestamp_min by (assumption || lia).
  do 2 eexists. split; [reflexivity|]. split; [reflexivity|].
  rewrite cmp_micros in C by assumption.
  rewrite !micros_local_seconds in C.
  apply valid_datetime_iff in Va, Vb.
  destruct Va as (_ & _ & _ & _ & Hua), Vb as (_ & _ & _ & _ & Hub).
  match type of C with
  | sign_of ?u ?v <= 0 =>
      destruct (sign_of_cases u v) as [[L E] | [[L E] | [L E]]];
        rewrite E in C
  end; lia.
Qed.

(** X11: a [Date] built from seconds beyond the timestamp of [MAX] reads
    the timestamp of [MAX] (zone with one offset all year). *)
Theorem timestamp_clamped_beyond_MAX t :
  representable utcoffset t -> MAX_TIMESTAMP utcoffset < t ->
  (d <- Date_ (fixed_offset utcoffset) now (PyInt t) ;;
   _get_timestamp (fixed_offset utcoffset) now d)
  = Ok (MAX_TIMESTAMP utcoffset).
Proof.
  intros R Hgt.
  destruct (Date_of_timestamp (fixed_offset utcoffset) now t R)
    as (x & E & D & V).
  destruct (fromtimestamp_fixed utcoffset t R)
    as (x' & E' & _ & Ho & Hs & Hu).
  rewrite E in E'. injection E' as <-.
  rewrite D. cbn [bind]. rewrite _get_timestamp_min; [| exact V |].
  - cbn [dt]. f_equal. apply Z.min_r. unfold local_seconds. rewrite Ho, Hs.
    pose proof (Z.div_mod (t + utcoffset) 86400 ltac:(lia)).
    unfold MAX_TIMESTAMP in *. lia.
  - cbn [dt]. apply year_of_ordinal_ge; [exact V|]. rewrite Ho.
    change (ymd2ord 1900 1 1) with 693596.
    unfold EPOCH_ORDINAL, MAX_TIMESTAMP, representable in *.
    Z.div_mod_to_equations. lia.
Qed.

End TimestampFacts.

(** X10: in every zone, assigning [timestamp = t] and reading it back
    gives what [mktime] returns for the civil time of [t], from
    1900-01-01 to 2038-01-01 local time: it gives [t] back exactly when
    [mktime] does.  With one offset all year that is every such [t],
    negative values included. *)
Theorem set_timestamp_round_trip zone now self t :
  -2208988800 <= t + offset_at zone t <= 2145916800 ->
  let back := d <- _set_timestamp zone self t ;; _get_timestamp zone now d in
  back = Ok (resolve zone (-1) (t + offset_at zone t))
  /\ (back = Ok t <-> resolve zone (-1) (t + offset_at zone t) = t)
  /\ (forall offset, zone = fixed_offset offset -> back = Ok t).
Proof.
  intros H back.
  assert (R : representable (offset_at zone t) t)
    by (unfold representable; lia).
  destruct (local_seconds_fromtimestamp zone t R) as (x & E & V & El & Eu).
  assert (B : back = Ok (resolve zone (-1) (t + offset_at zone t))).
  { subst back. unfold _set_timestamp. rewrite E. cbn [bind].
    rewrite _get_timestamp_zone;
      [| exact V | apply year_of_local_seconds; [exact V | cbn [dt]; lia]].
    cbn [dt]. rewrite El. now rewrite Z.min_l by lia. }
  split; [exact B|]. rewrite B. split.
  - split; [now intros [= ->] | now intros ->].
  - intros offset ->. cbn [resolve offset_at fixed_offset]. f_equal. lia.
Qed.

Lemma timestamp_monotone_and_capped_witness :
  exists ta tb,
    _get_timestamp example_zone example_now year1960 = Ok ta
    /\ _get_timestamp example_zone example_now year2040 = Ok tb
    /\ ta <= tb <= MAX_TIMESTAMP example_offset.
Proof.
  apply (timestamp_monotone_and_capped example_offset example_now
           year1960 year2040); try reflexivity; vm_compute; discriminate.
Defined.

Lemma set_timestamp_round_trip_witness :
  (d <- _set_timestamp example_zone jan31 (-86400) ;;
   _get_timestamp example_zone example_now d) = Ok (-86400).
Proof.
  destruct (set_timestamp_round_trip example_zone example_now jan31 (-86400))
    as (_ & _ & H); [vm_compute; split; discriminate|].
  apply (H example_offset). reflexivity.
Defined.

Lemma timestamp_clamped_beyond_MAX_witness :
  (d <- Date_ example_zone example_now (PyInt 4102444800) ;;
   _get_timestamp example_zone example_now d)
  = Ok (MAX_TIMESTAMP example_offset).
Proof.
  apply (timestamp_clamped_beyond_MAX example_offset example_now 4102444800).
  - vm_compute. split; [discriminate | reflexivity].
  - reflexivity.
Defined.

(** Why the offset must not change.  Where the clocks go forward, 02:30
    is no civil time: [mktime] reads it as 03:30, after 03:00.  Where
    they go back, 02:30 comes twice and the later instant is read back
    as the earlier one. *)
Example timestamp_not_monotone_at_spring_forward :
  cmp (mkdatetime 2009 3 29 2 30 0 0) (mkdatetime 2009 3 29 3 0 0 0) < 0
  /\ _get_timestamp central_europe example_now
       (mkDate (mkdatetime 2009 3 29 2 30 0 0)) = Ok 1238290200
  /\ _get_timestamp central_europe example_now
       (mkDate (mkdatetime 2009 3 29 3 0 0 0)) = Ok 1238288400.
Proof. repeat split. Qed.

Example set_timestamp_not_read_back_at_fall_back :
  (d <- _set_timestamp central_europe jan31 after_fall_back ;;
   _get_timestamp central_europe example_now d) = Ok before_fall_back.
Proof. reflexivity. Qed.

Lemma cmp_le_micros a b :
  valid_datetime a = true -> valid_datetime b = true ->
  micros a <= micros b -> cmp a b <= 0.
Proof.
  intros Va Vb L. rewrite cmp_micros by assumption.
  destruct (sign_of_cases (micros a) (micros b))
    as [[_ ->] | [[_ ->] | [G _]]]; lia.
Qed.

Lemma valid_at_midnight y m d :
  valid_ymd y m d = true -> valid_datetime (at_midnight y m d) = true.
Proof.
  intros V. apply valid_datetime_iff. cbn. repeat split; try lia. exact V.
Qed.

Lemma valid_at_day_end y m d :
  valid_ymd y m d = true -> valid_datetime (at_day_end y m d) = true.
Proof.
  intros V. apply valid_datetime_iff. cbn. repeat split; try lia. exact V.
Qed.

Lemma first_day_valid y m :
  1 <= y <= 9999 -> 1 <= m <= 12 -> valid_ymd y m 1 = true.
Proof.
  intros Hy Hm. apply valid_ymd_iff.
  pose proof (days_in_month_bounds y m Hm). lia.
Qed.

Lemma ymd2ord_december_31 y :
  ymd2ord y 12 31 = days_before_year (y + 1).
Proof.
  unfold ymd2ord. rewrite days_before_year_succ, days_before_december. lia.
Qed.

Lemma ymd2ord_january_1 y : ymd2ord y 1 1 = days_before_year y + 1.
Proof.
  unfold ymd2ord. change (days_before_month y 1) with 0. lia.
Qed.

Section Ranges.

Variable zone : Zone.
Variable now : datetime.

Lemma start_of_day_spec self :
  valid_datetime (dt self) = true ->
  start_of_day zone now self
  = Ok (mkDate (at_midnight (year (dt self)) (month (dt self))
                  (day (dt self)))).
Proof.
  intros V. pose proof V as V0. apply valid_datetime_iff in V0.
  destruct V0 as (Vd & _). pose proof (valid_at_midnight _ _ _ Vd) as Vm.
  unfold start_of_day, timetuple. cbn [tm_year tm_mon tm_mday].
  rewrite datetime_new_valid by exact Vm. cbn [bind].
  now apply Date_of_datetime.
Qed.

Lemma end_of_day_spec self :
  valid_datetime (dt self) = true ->
  end_of_day zone now self
  = Ok (mkDate (at_day_end (year (dt self)) (month (dt self))
                  (day (dt self)))).
Proof.
  intros V. pose proof V as V0. apply valid_datetime_iff in V0.
  destruct V0 as (Vd & _). pose proof (valid_at_day_end _ _ _ Vd) as Vm.
  unfold end_of_day, timetuple. cbn [tm_year tm_mon tm_mday].
  rewrite datetime_new_valid by exact Vm. cbn [bind].
  now apply Date_of_datetime.
Qed.

Lemma start_of_month_spec self :
  valid_datetime (dt self) = true ->
  start_of_month zone now self
  = Ok (mkDate (at_midnight (year (dt self)) (month (dt self)) 1)).
Proof.
  intros V. pose proof V as V0. apply valid_datetime_iff in V0.
  destruct V0 as (Vd & _). apply valid_ymd_iff in Vd.
  destruct Vd as (Hy & Hm & _).
  pose proof (valid_at_midnight _ _ _ (first_day_valid _ _ Hy Hm)) as Vm.
  unfold start_of_month. rewrite datetime_new_valid by exact Vm.
  cbn [bind]. now apply Date_of_datetime.
Qed.

Lemma start_of_year_spec self :
  valid_datetime (dt self) = true ->
  start_of_year zone now self
  = Ok (mkDate (at_midnight (year (dt self)) 1 1)).
Proof.
  intros V. pose proof V as V0. apply valid_datetime_iff in V0.
  destruct V0 as (Vd & _). apply valid_ymd_iff in Vd.
  destruct Vd as (Hy & _ & _).
  pose proof (valid_at_midnight _ _ _
                (first_day_valid _ 1 Hy ltac:(lia))) as Vm.
  unfold start_of_year. rewrite datetime_new_valid by exact Vm.
  cbn [bind]. now apply Date_of_datetime.
Qed.

Lemma end_of_year_spec self :
  valid_datetime (dt self) = true -> year (dt self) < 9999 ->
  end_of_year zone now self
  = Ok (mkDate (at_day_end (year (dt self)) 12 31)).
Proof.
  intros V Hlt. apply valid_datetime_iff in V. destruct V as (Vd & _).
  apply valid_ymd_iff in Vd. destruct Vd as (Hy & _ & _).
  set (y := year (dt self)) in *.
  set (x1 := at_day_end y 1 1).
  assert (V1 : valid_datetime x1 = true)
    by (apply valid_at_day_end, first_day_valid; lia).
  unfold end_of_year. fold y. rewrite datetime_new_valid by exact V1.
  cbn [bind]. fold (at_day_end y 1 1). fold x1.
  assert (Ey : target_year x1 1 0 = y + 1)
    by (unfold target_year, months_total; subst x1; cbn [year month at_day_end];
        Z.div_mod_to_equations; lia).
  assert (Em : target_month x1 1 0 = 1)
    by (unfold target_month, months_total; subst x1; cbn [year month at_day_end];
        Z.div_mod_to_equations; lia).
  assert (Hy' : 1 <= target_year x1 1 0 <= 9999) by lia.
  rewrite radd_spec by assumption.
  rewrite timedelta_new_days by (unfold MAX_DELTA_DAYS; lia). cbn [bind].
  pose proof (clamped_valid x1 1 0 V1 Hy') as Vc.
  rewrite datetime_add_days by exact Vc.
  assert (Eo : toordinal (clamped x1 1 0) + -1 = ymd2ord y 12 31).
  { unfold toordinal, clamped. cbn [year month day]. rewrite Ey, Em.
    subst x1. cbn [day at_day_end].
    pose proof (days_in_month_bounds (y + 1) 1 ltac:(lia)).
    rewrite Z.min_r by lia.
    rewrite ymd2ord_january_1, ymd2ord_december_31. lia. }
  rewrite Eo.
  assert (Vl : valid_ymd y 12 31 = true)
    by (apply valid_ymd_iff; rewrite december_31; lia).
  pose proof (ymd2ord_range _ _ _ Vl) as R.
  replace (0 <? _) with true by (symmetry; apply Z.ltb_lt; lia).
  replace (_ <=? MAXORDINAL) with true by (symmetry; apply Z.leb_le; lia).
  cbn [andb]. rewrite ord2ymd_ymd2ord by exact Vl.
  unfold clamped. subst x1. cbn [hour minute second microsecond at_day_end].
  apply Date_of_datetime. now apply valid_at_day_end.
Qed.

(** X12: [day_tuple] is midnight and the last microsecond of the same
    calendar day, and the instant lies between them. *)
Theorem day_tuple_brackets self :
  valid_datetime (dt self) = true ->
  let x := dt self in
  day_tuple zone now self
  = Ok (mkDate (at_midnight (year x) (month x) (day x)),
        mkDate (at_day_end (year x) (month x) (day x)))
  /\ cmp (at_midnight (year x) (month x) (day x)) x <= 0
  /\ cmp x (at_day_end (year x) (month x) (day x)) <= 0.
Proof.
  intros V x. subst x. unfold day_tuple.
  rewrite start_of_day_spec, end_of_day_spec by exact V. cbn [bind].
  split; [reflexivity|].
  pose proof V as V0. apply valid_datetime_iff in V0.
  destruct V0 as (Vd & Hh & Hm & Hs & Hu).
  split; apply cmp_le_micros;
    try (apply valid_at_midnight; exact Vd);
    try (apply valid_at_day_end; exact Vd); try exact V;
    unfold micros, seconds_of_day, toordinal; cbn; lia.
Qed.

(** X13: [month_tuple] is midnight of the first day and the last
    microsecond of the last day of the month, and the instant lies
    between them. *)
Theorem month_tuple_brackets self :
  valid_datetime (dt self) = true ->
  year (dt self) < 9999 \/ month (dt self) < 12 ->
  let x := dt self in
  let last := Calendar.days_in_month (year x) (month x) in
  month_tuple zone now self
  = Ok (mkDate (at_midnight (year x) (month x) 1),
        mkDate (at_day_end (year x) (month x) last))
  /\ cmp (at_midnight (year x) (month x) 1) x <= 0
  /\ cmp x (at_day_end (year x) (month x) last) <= 0.
Proof.
  intros V Hn x last. subst x last. unfold month_tuple.
  rewrite start_of_month_spec by exact V.
  rewrite end_of_month_spec by assumption. cbn [bind].
  split; [reflexivity|].
  pose proof V as V0. apply valid_datetime_iff in V0.
  destruct V0 as (Vd & Hh & Hm & Hs & Hu).
  apply valid_ymd_iff in Vd. destruct Vd as (Hy & Hmo & Hd).
  split; apply cmp_le_micros;
    try (apply valid_at_midnight, first_day_valid; assumption);
    try (apply valid_at_day_end, last_day_valid; assumption); try exact V;
    unfold micros, seconds_of_day, toordinal, ymd2ord; cbn; lia.
Qed.

(** X14: [year_tuple] is midnight of January 1 and the last microsecond
    of December 31, and the instant lies between them. *)
Theorem year_tuple_brackets self :
  valid_datetime (dt self) = true -> year (dt self) < 9999 ->
  let x := dt self in
  year_tuple zone now self
  = Ok (mkDate (at_midnight (year x) 1 1),
        mkDate (at_day_end (year x) 12 31))
  /\ cmp (at_midnight (year x) 1 1) x <= 0
  /\ cmp x (at_day_end (year x) 12 31) <= 0.
Proof.
  intros V Hn x. subst x. unfold year_tuple.
  rewrite start_of_year_spec by exact V.
  rewrite end_of_year_spec by assumption. cbn [bind].
  split; [reflexivity|].
  pose proof V as V0. apply valid_datetime_iff in V0.
  destruct V0 as (Vd & Hh & Hm & Hs & Hu).
  apply valid_ymd_iff in Vd. destruct Vd as (Hy & Hmo & Hd).
  pose proof (ymd2ord_in_year _ _ _ Hmo Hd) as Hin.
  split; apply cmp_le_micros;
    try (apply valid_at_midnight, first_day_valid; lia);
    try (apply valid_at_day_end, valid_ymd_iff; rewrite december_31; lia);
    try exact V;
    unfold micros, seconds_of_day, toordinal;
    cbn [year month day hour minute second microsecond at_midnight at_day_end];
    rewrite ?ymd2ord_january_1, ?ymd2ord_december_31; lia.
Qed.

End Ranges.

(** X15: in a zone with one offset all year, for a day from 1900 up to
    2037, the timestamps of the two ends of [day_tuple] are 86399
    seconds apart. *)
Theorem day_tuple_timestamps utcoffset now self :
  valid_datetime (dt self) = true ->
  1900 <= year (dt self) < 2038 ->
  exists s e ts,
    day_tuple (fixed_offset utcoffset) now self = Ok (s, e)
    /\ _get_timestamp (fixed_offset utcoffset) now s = Ok ts
    /\ _get_timestamp (fixed_offset utcoffset) now e = Ok (ts + 86399).
Proof.
  intros V Hy. unfold day_tuple.
  rewrite start_of_day_spec, end_of_day_spec by exact V. cbn [bind].
  pose proof V as V0. apply valid_datetime_iff in V0.
  destruct V0 as (Vd & _).
  do 3 eexists. split; [reflexivity|].
  rewrite !(_get_timestamp_min utcoffset now)
    by (try (apply valid_at_midnight; exact Vd);
        try (apply valid_at_day_end; exact Vd); cbn; lia).
  cbn [dt].
  assert (B : local_seconds (at_day_end (year (dt self)) (month (dt self))
                               (day (dt self)))
              < 2145916800).
  { pose proof (ymd2ord_lt_year (year (dt self)) (month (dt self))
                  (day (dt self)) 2038 1 1) as L.
    apply valid_ymd_iff in Vd. destruct Vd as (_ & Hm & Hd).
    specialize (L Hm Hd ltac:(lia) ltac:(vm_compute; split; discriminate)
                  ltac:(lia)).
    change (ymd2ord 2038 1 1) with 744000 in L.
    unfold local_seconds, seconds_of_day, toordinal, EPOCH_ORDINAL. cbn.
    lia. }
  assert (D : local_seconds (at_day_end (year (dt self)) (month (dt self))
                               (day (dt self)))
              = local_seconds (at_midnight (year (dt self)) (month (dt self))
                                 (day (dt self))) + 86399).
  { unfold local_seconds, seconds_of_day, toordinal. cbn. lia. }
  unfold MAX_TIMESTAMP. split; f_equal; lia.
Qed.

Lemma day_tuple_brackets_witness :
  day_tuple example_zone example_now
    (mkDate (mkdatetime 2009 2 14 0 31 30 0))
  = Ok (mkDate (mkdatetime 2009 2 14 0 0 0 0),
        mkDate (mkdatetime 2009 2 14 23 59 59 999999)).
Proof.
  apply (day_tuple_brackets example_zone example_now
           (mkDate (mkdatetime 2009 2 14 0 31 30 0))). reflexivity.
Defined.

Lemma month_tuple_brackets_witness :
  month_tuple example_zone example_now
    (mkDate (mkdatetime 2008 2 14 0 31 30 0))
  = Ok (mkDate (mkdatetime 2008 2 1 0 0 0 0),
        mkDate (mkdatetime 2008 2 29 23 59 59 999999)).
Proof.
  apply (month_tuple_brackets example_zone example_now
           (mkDate (mkdatetime 2008 2 14 0 31 30 0)));
    [reflexivity | left; cbn; lia].
Defined.

Lemma year_tuple_brackets_witness :
  year_tuple example_zone example_now
    (mkDate (mkdatetime 2009 2 14 0 31 30 0))
  = Ok (mkDate (mkdatetime 2009 1 1 0 0 0 0),
        mkDate (mkdatetime 2009 12 31 23 59 59 999999)).
Proof.
  apply (year_tuple_brackets example_zone example_now
           (mkDate (mkdatetime 2009 2 14 0 31 30 0)));
    [reflexivity | cbn; lia].
Defined.

Lemma day_tuple_timestamps_witness :
  exists s e ts,
    day_tuple example_zone example_now
      (mkDate (mkdatetime 2009 2 14 0 31 30 0)) = Ok (s, e)
    /\ _get_timestamp example_zone example_now s = Ok ts
    /\ _get_timestamp example_zone example_now e = Ok (ts + 86399).
Proof.
  apply (day_tuple_timestamps example_offset example_now
           (mkDate (mkdatetime 2009 2 14 0 31 30 0)));
    [reflexivity | cbn; lia].
Defined.

(** On the day the clocks go back the two ends are an hour further
    apart. *)
Example day_tuple_timestamps_at_fall_back :
  (r <- day_tuple central_europe example_now
          (mkDate (mkdatetime 2009 10 25 12 0 0 0)) ;;
   ts <- _get_timestamp central_europe example_now (fst r) ;;
   te <- _get_timestamp central_europe example_now (snd r) ;;
   Ok (te - ts)) = Ok 89999.
Proof. reflexivity. Qed.

(** Comparing the dates of two datetimes is comparing their ordinals. *)
Lemma cmp_dates a b :
  valid_datetime a = true -> valid_datetime b = true ->
  cmp_list [year a; month a; day a] [year b; month b; day b]
  = sign_of (toordinal a) (toordinal b).
Proof.
  intros Va Vb. apply valid_datetime_iff in Va, Vb.
  destruct Va as (Va & _), Vb as (Vb & _).
  apply valid_ymd_iff in Va, Vb.
  destruct Va as (Hya & Hma & Hda), Vb as (Hyb & Hmb & Hdb).
  unfold toordinal, sign_of. cbn [cmp_list].
  pose proof (ymd2ord_lt_year (year a) (month a) (day a)
                (year b) (month b) (day b) Hma Hda Hmb Hdb) as Oy.
  pose proof (ymd2ord_lt_year (year b) (month b) (day b)
                (year a) (month a) (day a) Hmb Hdb Hma Hda) as Oy'.
  assert (Om : year a = year b -> month a < month b ->
               ymd2ord (year a) (month a) (day a)
               < ymd2ord (year b) (month b) (day b))
    by (intros E L; rewrite E in *; apply ymd2ord_lt_month; lia).
  assert (Om' : year a = year b -> month b < month a ->
                ymd2ord (year b) (month b) (day b)
                < ymd2ord (year a) (month a) (day a))
    by (intros E L; rewrite E in *; apply ymd2ord_lt_month; lia).
  assert (Od : year a = year b -> month a = month b ->
               ymd2ord (year a) (month a) (day a)
               - ymd2ord (year b) (month b) (day b) = day a - day b)
    by (intros E E'; rewrite E, E'; unfold ymd2ord; lia).
  set (oa := ymd2ord (year a) (month a) (day a)) in *.
  set (ob := ymd2ord (year b) (month b) (day b)) in *.
  repeat match goal with
         | |- context [?u <? ?v] => destruct (Z.ltb_spec u v)
         end; try reflexivity; exfalso; lia.
Qed.

Section Construction.

Variable zone : Zone.
Variable now : datetime.

(** The constructor on a valid datetime with duration offsets: each
    assignment moves the instant back, provided it stays on the
    calendar. *)
Lemma init_ago_micros x da ha mia sa :
  valid_datetime x = true ->
  let p1 := micros x - da * DAY_US in
  let p2 := p1 - ha * 3600000000 in
  let p3 := p2 - mia * 60000000 in
  let p4 := p3 - sa * 1000000 in
  on_calendar p1 -> on_calendar p2 -> on_calendar p3 -> on_calendar p4 ->
  exists x',
    __init__ zone now (PyDatetime x) 0 0 da ha mia sa = Ok (mkDate x')
    /\ valid_datetime x' = true /\ micros x' = p4.
Proof.
  intros V p1 p2 p3 p4 R1 R2 R3 R4. subst p1 p2 p3 p4.
  unfold __init__. cbn [bind].
  rewrite _set_year_same by exact V. cbn [bind].
  rewrite _set_month_same by exact V. cbn [bind].
  destruct (_set_day_micros (mkDate x) (_get_day (mkDate x) - da) V)
    as (x1 & E1 & V1 & M1).
  { unfold _get_day. cbn [dt].
    replace (micros x + (day x - da - day x) * DAY_US)
      with (micros x - da * DAY_US) by lia. exact R1. }
  rewrite E1. cbn [bind].
  destruct (_set_hour_micros (mkDate x1) (_get_hour (mkDate x1) - ha) V1)
    as (x2 & E2 & V2 & M2).
  { unfold _get_hour, _get_day in *. cbn [dt] in *. rewrite M1.
    match goal with |- on_calendar ?p =>
      match type of R2 with on_calendar ?q =>
        replace p with q by lia end end. exact R2. }
  rewrite E2. cbn [bind].
  destruct (_set_minute_micros (mkDate x2) (_get_minute (mkDate x2) - mia) V2)
    as (x3 & E3 & V3 & M3).
  { unfold _get_minute, _get_hour, _get_day in *. cbn [dt] in *.
    rewrite M2, M1.
    match goal with |- on_calendar ?p =>
      match type of R3 with on_calendar ?q =>
        replace p with q by lia end end. exact R3. }
  rewrite E3. cbn [bind].
  destruct (_set_second_micros (mkDate x3) (_get_second (mkDate x3) - sa) V3)
    as (x4 & E4 & V4 & M4).
  { unfold _get_second, _get_minute, _get_hour, _get_day in *.
    cbn [dt] in *. rewrite M3, M2, M1.
    match goal with |- on_calendar ?p =>
      match type of R4 with on_calendar ?q =>
        replace p with q by lia end end. exact R4. }
  rewrite E4. exists x4. split; [reflexivity|]. split; [exact V4|].
  unfold _get_second, _get_minute, _get_hour, _get_day in *.
  cbn [dt] in *. rewrite M4, M3, M2, M1. lia.
Qed.

(** X16: with offsets that are not negative, [Date(x, days_ago=d,
    hours_ago=h, minutes_ago=m, seconds_ago=s)] is [x] moved back by
    that duration. *)
Theorem init_with_offsets x da ha mia sa :
  valid_datetime x = true ->
  0 <= da -> 0 <= ha -> 0 <= mia -> 0 <= sa ->
  on_calendar (micros x - ago_micros da ha mia sa) ->
  exists x',
    __init__ zone now (PyDatetime x) 0 0 da ha mia sa = Ok (mkDate x')
    /\ moved x x' (- ago_micros da ha mia sa).
Proof.
  intros V Hd Hh Hm Hs R. pose proof (micros_range x V) as Rx.
  unfold ago_micros, on_calendar, DAY_US, MAXORDINAL in *.
  destruct (init_ago_micros x da ha mia sa V) as (x' & E & V' & M);
    try (unfold on_calendar, DAY_US, MAXORDINAL; lia).
  exists x'. split; [exact E|]. split; [exact V'|].
  rewrite M. unfold DAY_US. lia.
Qed.

(** X17: [Date()] is the reading of the clock; with [days_ago = k] it is
    [k] days earlier at the same time of day.  Asked while the clock
    still shows the same day, it is today for [k = 0], a past date for a
    positive [k] and a future date for a negative one. *)
Theorem init_now_days_ago k :
  valid_datetime now = true ->
  1 <= toordinal now - k <= MAXORDINAL ->
  exists x',
    __init__ zone now PyNone 0 0 k 0 0 0 = Ok (mkDate x')
    /\ toordinal x' = toordinal now - k /\ time_of x' = time_of now
    /\ forall later,
         valid_datetime later = true -> date_of later = date_of now ->
         is_today later (mkDate x') = (k =? 0)
         /\ is_past_date later (mkDate x') = (0 <? k)
         /\ is_future_date later (mkDate x') = (k <? 0).
Proof.
  intros V R.
  assert (R' : on_calendar (micros now + - k * DAY_US))
    by (apply on_calendar_days; [exact V | lia]).
  destruct (init_ago_micros now k 0 0 0 V) as (x' & E & V' & M);
    try (cbn; match goal with |- on_calendar ?p =>
           match type of R' with on_calendar ?q =>
             replace p with q by lia end end; exact R').
  exists x'. split; [exact E|].
  destruct (micros_shift_days now x' (- k) V V') as (Eo & Et);
    [rewrite M; lia|].
  split; [lia|]. split; [exact Et|].
  intros later Vl El.
  assert (Eol : toordinal later = toordinal now).
  { unfold toordinal. unfold date_of in El. now injection El as -> -> ->. }
  unfold is_today, is_past_date, is_future_date. cbn [dt].
  rewrite cmp_dates by assumption. rewrite Eo, Eol.
  destruct (sign_of_cases (toordinal now + - k) (toordinal now))
    as [[L ->] | [[L ->] | [L ->]]];
    destruct (Z.eqb_spec k 0), (Z.ltb_spec 0 k), (Z.ltb_spec k 0);
    repeat split; try reflexivity; lia.
Qed.

(** X18: [Date(d)] for a date [d] of the calendar is midnight of [d]. *)
Theorem init_from_date d :
  valid_ymd (d_year d) (d_month d) (d_day d) = true ->
  exists self,
    Date_ zone now (PyDate d) = Ok self
    /\ _get_date self = d /\ _get_time self = midnight.
Proof.
  intros V. exists (mkDate (combine d midnight)). split.
  - apply (Date_of_datetime zone now (combine d midnight)).
    apply valid_datetime_iff. cbn. repeat split; try lia. exact V.
  - destruct d. split; reflexivity.
Qed.

(** X19: [date + timedelta] is a new [Date] moved by the length of the
    [timedelta]; it raises [OverflowError] when that is outside the
    calendar. *)
Theorem add_moves self td :
  valid_datetime (dt self) = true -> td_normal td ->
  (on_calendar (micros (dt self) + td_micros td) ->
   exists x', __add__ zone now self td = Ok (mkDate x')
              /\ moved (dt self) x' (td_micros td))
  /\ (~ on_calendar (micros (dt self) + td_micros td) ->
      __add__ zone now self td = Raise OverflowError).
Proof.
  intros V N. unfold __add__. split; intros R.
  - destruct (datetime_add_micros _ _ V N R) as (x' & E & V' & M).
    rewrite E. cbn [bind]. exists x'.
    split; [now apply Date_of_datetime | split; assumption].
  - now rewrite datetime_add_overflow.
Qed.

End Construction.

Lemma init_with_offsets_witness :
  exists x',
    __init__ example_zone example_now
      (PyDatetime (mkdatetime 2009 3 1 0 0 0 0)) 0 0 1 2 3 4
    = Ok (mkDate x')
    /\ moved (mkdatetime 2009 3 1 0 0 0 0) x' (- ago_micros 1 2 3 4).
Proof.
  apply (init_with_offsets example_zone example_now
           (mkdatetime 2009 3 1 0 0 0 0) 1 2 3 4);
    try reflexivity; try lia.
  vm_compute. split; [discriminate | reflexivity].
Defined.

Lemma init_now_days_ago_witness :
  exists x',
    __init__ example_zone example_now PyNone 0 0 (-1) 0 0 0
    = Ok (mkDate x')
    /\ is_future_date (mkdatetime 2009 2 14 23 0 0 0) (mkDate x') = true.
Proof.
  destruct (init_now_days_ago example_zone example_now (-1) eq_refl)
    as (x' & E & _ & _ & F);
    [vm_compute; split; discriminate|].
  exists x'. split; [exact E|].
  now destruct (F (mkdatetime 2009 2 14 23 0 0 0) eq_refl eq_refl)
    as (_ & _ & ->).
Defined.

Lemma init_from_date_witness :
  exists self,
    Date_ example_zone example_now (PyDate (mkdate 2009 10 2)) = Ok self
    /\ _get_date self = mkdate 2009 10 2 /\ _get_time self = midnight.
Proof.
  apply (init_from_date example_zone example_now (mkdate 2009 10 2)).
  reflexivity.
Defined.

Lemma add_moves_witness :
  exists x',
    __add__ example_zone example_now
      (mkDate (mkdatetime 2009 2 14 0 31 30 0)) (mktimedelta 2 0 0)
    = Ok (mkDate x')
    /\ moved (mkdatetime 2009 2 14 0 31 30 0) x' (2 * DAY_US).
Proof.
  destruct (add_moves example_zone example_now
              (mkDate (mkdatetime 2009 2 14 0 31 30 0)) (mktimedelta 2 0 0)
              eq_refl) as (H & _).
  - unfold td_normal. cbn. lia.
  - apply H. vm_compute. split; [discriminate | reflexivity].
Defined.

(** X20: in every zone, assigning to [tuple] a time tuple from 1900 on
    with [tm_isdst = -1], whatever its weekday and day of the year, sets
    the six fields of the tuple and zero microseconds, provided the
    instant [mktime] returns reads back as that civil time.  With one
    offset all year it always does: assigning a [Date] its own tuple then
    drops the microseconds and nothing else. *)
Theorem set_tuple_drops_microseconds zone self y m d h mi s wd yd :
  valid_datetime (mkdatetime y m d h mi s 0) = true -> 1900 <= y ->
  let civil := local_seconds (mkdatetime y m d h mi s 0) in
  let t := resolve zone (-1) civil in
  (t + offset_at zone t = civil ->
   _set_tuple zone self (mkstruct_time y m d h mi s wd yd (-1))
   = Ok (mkDate (mkdatetime y m d h mi s 0)))
  /\ (forall offset, zone = fixed_offset offset ->
      _set_tuple zone self (mkstruct_time y m d h mi s wd yd (-1))
      = Ok (mkDate (mkdatetime y m d h mi s 0))).
Proof.
  intros V Hy civil t. set (c := mkdatetime y m d h mi s 0) in *.
  assert (G : t + offset_at zone t = civil ->
              _set_tuple zone self (mkstruct_time y m d h mi s wd yd (-1))
              = Ok (mkDate c)).
  { intros Et. unfold _set_tuple, mktime.
    cbn [tm_year tm_mon tm_mday tm_hour tm_min tm_sec tm_isdst].
    rewrite gettmarg_year_modern by exact Hy. cbn [bind].
    replace ((ymd2ord y m d - EPOCH_ORDINAL) * SECONDS_PER_DAY + h * 3600
             + mi * 60 + s) with civil
      by (subst civil c; unfold local_seconds, seconds_of_day, toordinal,
            SECONDS_PER_DAY; cbn; lia).
    fold t.
    pose proof (micros_range c V) as Rc. rewrite micros_local_seconds in Rc.
    assert (R : representable (offset_at zone t) t).
    { unfold representable. rewrite Et.
      unfold on_calendar, DAY_US, MAXORDINAL, EPOCH_ORDINAL in Rc.
      subst civil c. cbn [microsecond] in Rc. lia. }
    destruct (local_seconds_fromtimestamp zone t R) as (x & E & Vx & El & Eu).
    rewrite E. cbn [bind]. do 2 f_equal.
    apply micros_inj; [exact Vx | exact V |].
    rewrite (micros_local_seconds x), (micros_local_seconds c).
    rewrite El, Eu, Et. subst civil c. cbn [microsecond]. lia. }
  split; [exact G|].
  intros offset E. apply G. subst t zone.
  cbn [resolve offset_at fixed_offset]. lia.
Qed.

Lemma set_tuple_drops_microseconds_witness :
  _set_tuple example_zone jan31
    (mkstruct_time 2009 2 14 0 31 30 0 0 (-1))
  = Ok (mkDate (mkdatetime 2009 2 14 0 31 30 0)).
Proof.
  destruct (set_tuple_drops_microseconds example_zone jan31
              2009 2 14 0 31 30 0 0 eq_refl) as (H & _); [lia|].
  apply H. reflexivity.
Defined.

(** A civil time that the zone skips comes back an hour later. *)
Example set_tuple_at_spring_forward :
  _set_tuple central_europe jan31
    (mkstruct_time 2009 3 29 2 30 0 6 88 (-1))
  = Ok (mkDate (mkdatetime 2009 3 29 3 30 0 0)).
Proof. reflexivity. Qed.

(** *** The SQL literals *)

Lemma append_assoc (a b c : string) :
  ((a ++ b) ++ c)%string = (a ++ (b ++ c))%string.
Proof. induction a as [|x a IH]; cbn; [reflexivity | now rewrite IH]. Qed.

Lemma drop_last_snoc (s : string) (c : ascii) :
  drop_last (s ++ String c EmptyString) = s.
Proof.
  induction s as [|a s IH]; [reflexivity|].
  cbn [append]. cbn [drop_last].
  destruct s as [|b s']; [reflexivity|].
  cbn [append] in *. now rewrite IH.
Qed.

(** X21: [sql] is the date and the time in one pair of quotes: what
    formatting with "'%Y-%m-%d %H:%M:%S'" gives. *)
Theorem sql_is_one_literal self :
  valid_datetime (dt self) = true -> 1900 <= year (dt self) ->
  sql self = strftime self "'%Y-%m-%d %H:%M:%S'"
  /\ sql self =
     Ok ("'" ++ decimal (year (dt self)) ++ "-" ++ pad2 (month (dt self))
         ++ "-" ++ pad2 (day (dt self)) ++ " " ++ pad2 (hour (dt self))
         ++ ":" ++ pad2 (minute (dt self)) ++ ":"
         ++ pad2 (second (dt self)) ++ "'")%string.
Proof.
  intros V Hy.
  assert (E : sql self =
     Ok ("'" ++ decimal (year (dt self)) ++ "-" ++ pad2 (month (dt self))
         ++ "-" ++ pad2 (day (dt self)) ++ " " ++ pad2 (hour (dt self))
         ++ ":" ++ pad2 (minute (dt self)) ++ ":"
         ++ pad2 (second (dt self)) ++ "'")%string).
  { unfold sql, sql_date, sql_time, strftime, PyTime.strftime, _get_tuple.
    rewrite checktm_timetuple by assumption. cbn [bind].
    cbn [expand directive timetuple tm_year tm_mon tm_mday tm_hour tm_min
           tm_sec append drop_first]. f_equal.
    set (D := (decimal (year (dt self)) ++ "-" ++ pad2 (month (dt self))
               ++ "-" ++ pad2 (day (dt self)))%string).
    replace (String "'" (decimal (year (dt self))
                         ++ String "-" (pad2 (month (dt self))
                         ++ String "-" (pad2 (day (dt self)) ++ "'"))))%string
      with ((String "'" D) ++ "'")%string
      by (subst D; cbn [append]; rewrite !append_assoc; reflexivity).
    rewrite drop_last_snoc. subst D. cbn [append].
    rewrite !append_assoc. reflexivity. }
  split; [|exact E]. rewrite E.
  unfold strftime, PyTime.strftime, _get_tuple.
  rewrite checktm_timetuple by assumption. cbn [bind].
  cbn [expand directive timetuple tm_year tm_mon tm_mday tm_hour tm_min
         tm_sec append]. reflexivity.
Qed.

Lemma sql_is_one_literal_witness :
  sql (mkDate (mkdatetime 2009 2 14 0 31 30 0))
  = Ok "'2009-02-14 00:31:30'"%string.
Proof.
  destruct (sql_is_one_literal (mkDate (mkdatetime 2009 2 14 0 31 30 0))
              eq_refl) as (_ & E); [cbn; lia|].
  rewrite E. reflexivity.
Defined.

Section CalendarOffsets.

Variable zone : Zone.
Variable now : datetime.

(** X22: for a day that every month has, [Date(x, years_ago=a,
    months_ago=b)] is [x] moved back by [12 a + b] calendar months: same
    day, same time.  The year is set first, so [year - a] itself must be
    a year of the calendar. *)
Theorem init_years_months_ago x ya ma :
  valid_datetime x = true -> day x <= 28 ->
  let months := 12 * year x + (month x - 1) - (12 * ya + ma) in
  1 <= year x - ya <= 9999 -> 1 <= months / 12 <= 9999 ->
  __init__ zone now (PyDatetime x) ya ma 0 0 0 0
  = Ok (mkDate (mkdatetime (months / 12) (months mod 12 + 1) (day x)
                  (hour x) (minute x) (second x) (microsecond x))).
Proof.
  intros V Hd months Hy1 Hy2. subst months.
  pose proof V as V0. apply valid_datetime_iff in V0.
  destruct V0 as (Vd & Ht). apply valid_ymd_iff in Vd.
  destruct Vd as (Hy & Hm & Hday).
  set (x1 := mkdatetime (year x - ya) (month x) (day x)
               (hour x) (minute x) (second x) (microsecond x)).
  assert (V1 : valid_datetime x1 = true).
  { apply valid_datetime_iff. subst x1. cbn. split; [|exact Ht].
    apply valid_ymd_iff.
    pose proof (days_in_month_bounds (year x - ya) (month x) Hm). lia. }
  unfold __init__. cbn [bind].
  assert (E1 : _set_year (mkDate x) (_get_year (mkDate x) - ya)
               = Ok (mkDate x1)).
  { unfold _set_year, _get_year, replace_year, replace_ymd. cbn [dt].
    now rewrite (datetime_new_valid _ _ _ _ _ _ _ V1). }
  rewrite E1. cbn [bind].
  set (v := _get_month (mkDate x1) - ma).
  assert (Ety : target_year x1 0 (v - month x1)
                = (12 * year x + (month x - 1) - (12 * ya + ma)) / 12).
  { unfold target_year, months_total. subst v x1. unfold _get_month.
    cbn [dt year month]. f_equal. lia. }
  assert (Etm : target_month x1 0 (v - month x1)
                = (12 * year x + (month x - 1) - (12 * ya + ma)) mod 12 + 1).
  { unfold target_month, months_total. subst v x1. unfold _get_month.
    cbn [dt year month]. do 2 f_equal. lia. }
  assert (Hty : 1 <= target_year x1 0 (v - month x1) <= 9999)
    by (rewrite Ety; exact Hy2).
  pose proof (clamped_valid x1 0 (v - month x1) V1 Hty) as Vc.
  assert (E2 : _set_month (mkDate x1) v
               = Ok (mkDate (clamped x1 0 (v - month x1)))).
  { unfold _set_month. cbn [dt]. rewrite radd_spec by assumption.
    rewrite timedelta_new_zero. cbn [bind].
    now rewrite datetime_add_zero by exact Vc. }
  rewrite E2. cbn [bind].
  set (x2 := clamped x1 0 (v - month x1)) in *.
  rewrite _set_day_same by exact Vc. cbn [bind].
  rewrite _set_hour_same by exact Vc. cbn [bind].
  rewrite _set_minute_same by exact Vc. cbn [bind].
  rewrite _set_second_same by exact Vc.
  do 2 f_equal. subst x2. unfold clamped. rewrite Ety, Etm.
  subst x1. cbn [year month day hour minute second microsecond].
  f_equal. apply Z.min_r.
  assert (Hm' : 1 <= (12 * year x + (month x - 1) - (12 * ya + ma)) mod 12
                     + 1 <= 12) by (Z.div_mod_to_equations; lia).
  pose proof (days_in_month_bounds
                ((12 * year x + (month x - 1) - (12 * ya + ma)) / 12)
                _ Hm'). lia.
Qed.

End CalendarOffsets.

Lemma init_years_months_ago_witness :
  __init__ example_zone example_now
    (PyDatetime (mkdatetime 2009 2 14 0 31 30 0)) 1 3 0 0 0 0
  = Ok (mkDate (mkdatetime 2007 11 14 0 31 30 0)).
Proof.
  apply (init_years_months_ago example_zone example_now
           (mkdatetime 2009 2 14 0 31 30 0) 1 3);
    try reflexivity; cbn; vm_compute; try split; discriminate.
Defined.

(** *** Years before 1900 *)

Lemma gettmarg_year_old y :
  100 <= y < 1900 -> gettmarg_year y = Raise ValueError.
Proof.
  intros H. unfold gettmarg_year.
  destruct (Z.ltb_spec y 1900); [|lia].
  destruct (Z.leb_spec 69 y), (Z.leb_spec y 99), (Z.leb_spec 0 y),
    (Z.leb_spec y 68); cbn [andb]; try reflexivity; lia.
Qed.

Lemma strftime_old self format :
  100 <= year (dt self) < 1900 -> strftime self format = Raise ValueError.
Proof.
  intros H. unfold strftime, PyTime.strftime, checktm, _get_tuple, timetuple.
  cbn [tm_year]. now rewrite gettmarg_year_old.
Qed.

Section Before1900.

Variable zone : Zone.
Variable now : datetime.

(** X23: a [Date] of the years 100 to 1899 cannot be formatted and has no
    timestamp: [strftime] with any format, and with it [repr],
    [friendly], [fancy], [fancy_no_year], [sql_date], [sql_time] and
    [sql], and [timestamp] all raise [ValueError]. *)
Theorem before_1900_raises self :
  100 <= year (dt self) < 1900 ->
  (forall format, strftime self format = Raise ValueError)
  /\ __repr__ self = Raise ValueError
  /\ friendly self = Raise ValueError
  /\ fancy self = Raise ValueError
  /\ fancy_no_year self = Raise ValueError
  /\ sql_date self = Raise ValueError
  /\ sql_time self = Raise ValueError
  /\ sql self = Raise ValueError
  /\ _get_timestamp zone now self = Raise ValueError.
Proof.
  intros Hy.
  unfold __repr__, friendly, fancy, fancy_no_year, _get_fancy, sql, sql_date,
    sql_time.
  rewrite !strftime_old by exact Hy. cbn [bind].
  repeat split; try reflexivity.
  - intros format. now apply strftime_old.
  - rewrite _get_timestamp_eq.
    replace (cmp (dt self) dt2038 >? 0) with false.
    + unfold mktime, timetuple. cbn [tm_year].
      now rewrite gettmarg_year_old.
    + symmetry. unfold cmp, fields, dt2038. cbn [cmp_list year].
      destruct (Z.ltb_spec (year (dt self)) 2038); [reflexivity | lia].
Qed.

End Before1900.

Lemma before_1900_raises_witness :
  __repr__ (mkDate (mkdatetime 1850 6 2 11 17 36 0)) = Raise ValueError
  /\ _get_timestamp example_zone example_now
       (mkDate (mkdatetime 1850 6 2 11 17 36 0)) = Raise ValueError.
Proof.
  destruct (before_1900_raises example_zone example_now
              (mkDate (mkdatetime 1850 6 2 11 17 36 0)))
    as (_ & R & _ & _ & _ & _ & _ & _ & T); [cbn; lia|].
  split; [exact R | exact T].
Defined.

(** The year a time tuple is read with, for a year below 100. *)
Lemma gettmarg_year_two_digits y :
  1 <= y <= 99 ->
  gettmarg_year y = Ok (y + (if 69 <=? y then 1900 else 2000)).
Proof.
  intros H. unfold gettmarg_year.
  destruct (Z.ltb_spec y 1900); [|lia].
  destruct (Z.leb_spec 69 y), (Z.leb_spec y 99), (Z.leb_spec 0 y),
    (Z.leb_spec y 68); cbn [andb]; try reflexivity; lia.
Qed.

(** The checks of [time.strftime] on the tuple of a valid datetime only
    touch the year. *)
Lemma checktm_timetuple_year x :
  valid_datetime x = true ->
  checktm (timetuple x) =
    (y <- gettmarg_year (year x) ;;
     Ok (mkstruct_time y (month x) (day x) (hour x) (minute x) (second x)
           (tm_wday (timetuple x)) (tm_yday (timetuple x)) (-1))).
Proof.
  intros V. apply valid_datetime_iff in V.
  destruct V as (Vd & Hh & Hmi & Hs & Hu).
  apply valid_ymd_iff in Vd. destruct Vd as (Hyr & Hm & Hd).
  pose proof (days_in_month_bounds (year x) (month x) Hm) as Hdim.
  pose proof (ymd2ord_in_year (year x) (month x) (day x) Hm Hd) as Hin.
  rewrite days_before_year_succ in Hin.
  assert (Hleap : 0 <= b2z (isleap (year x)) <= 1)
    by (destruct (isleap (year x)); cbn; lia).
  assert (Hjan : ymd2ord (year x) 1 1 = days_before_year (year x) + 1).
  { unfold ymd2ord. change (days_before_month (year x) 1) with 0. lia. }
  pose proof (Z.mod_pos_bound (ymd2ord (year x) (month x) (day x) + 6) 7
                ltac:(lia)) as Hw.
  unfold checktm, timetuple, weekday.
  cbn [tm_year tm_mon tm_mday tm_hour tm_min tm_sec tm_wday tm_yday tm_isdst].
  destruct (gettmarg_year (year x)) as [y|e]; [|reflexivity]. cbn [bind].
  set (yd := ymd2ord (year x) (month x) (day x) - ymd2ord (year x) 1 1 + 1).
  assert (Hyd : 1 <= yd <= 366) by (subst yd; lia).
  replace (month x =? 0) with false by (symmetry; apply Z.eqb_neq; lia).
  replace (day x =? 0) with false by (symmetry; apply Z.eqb_neq; lia).
  replace (yd =? 0) with false by (symmetry; apply Z.eqb_neq; lia).
  repeat match goal with
         | |- context [?u <=? ?v] =>
             replace (u <=? v) with true by (symmetry; apply Z.leb_le; lia)
         end.
  reflexivity.
Qed.

Section TwoDigitYears.

Variable utcoffset : Z.
Variable now : datetime.

(** X24: the year of a [Date] of the years 1 to 99 is read as a two-digit
    year by [strftime] and [timestamp]: 69..99 as 1969..1999, 1..68 as
    2001..2068.  The text shows the other year, and from year 39 on the
    timestamp is beyond that of [MAX]. *)
Theorem two_digit_years_remapped self :
  valid_datetime (dt self) = true -> 1 <= year (dt self) <= 99 ->
  let x := dt self in
  let y := year x + (if 69 <=? year x then 1900 else 2000) in
  strftime self "%Y-%m-%d" =
    Ok (decimal y ++ "-" ++ pad2 (month x) ++ "-" ++ pad2 (day x))%string
  /\ _get_timestamp (fixed_offset utcoffset) now self
     = Ok ((ymd2ord y (month x) (day x) - EPOCH_ORDINAL) * 86400
           + seconds_of_day x - utcoffset)
  /\ (39 <= year x <= 68 ->
      forall t, _get_timestamp (fixed_offset utcoffset) now self = Ok t ->
                MAX_TIMESTAMP utcoffset < t).
Proof.
  intros V Hy x y. subst x.
  assert (T : _get_timestamp (fixed_offset utcoffset) now self
     = Ok ((ymd2ord y (month (dt self)) (day (dt self)) - EPOCH_ORDINAL)
           * 86400 + seconds_of_day (dt self) - utcoffset)).
  { rewrite _get_timestamp_eq.
    replace (cmp (dt self) dt2038 >? 0) with false.
    - unfold mktime, timetuple.
      cbn [tm_year tm_mon tm_mday tm_hour tm_min tm_sec].
      rewrite gettmarg_year_two_digits by exact Hy.
      cbn [bind resolve fixed_offset].
      fold y. unfold seconds_of_day, SECONDS_PER_DAY. f_equal. lia.
    - symmetry. unfold cmp, fields, dt2038. cbn [cmp_list year].
      destruct (Z.ltb_spec (year (dt self)) 2038); [reflexivity | lia]. }
  split; [|split; [exact T|]].
  - unfold strftime, PyTime.strftime, _get_tuple.
    rewrite checktm_timetuple_year by exact V.
    rewrite gettmarg_year_two_digits by exact Hy. cbn [bind].
    fold y. reflexivity.
  - intros Hy' t Et. rewrite T in Et. injection Et as <-.
    pose proof V as V0. apply valid_datetime_iff in V0.
    destruct V0 as (Vd & Hh & Hmi & Hs & Hu).
    apply valid_ymd_iff in Vd. destruct Vd as (_ & Hm & Hd).
    pose proof (days_before_month_nonneg y (month (dt self)) Hm) as Hb.
    assert (Ey : y = year (dt self) + 2000).
    { subst y. destruct (Z.leb_spec 69 (year (dt self))); lia. }
    pose proof (days_before_year_mono 2039 y ltac:(lia)) as Hmono.
    change (days_before_year 2039) with 744364 in Hmono.
    unfold MAX_TIMESTAMP, ymd2ord, seconds_of_day, EPOCH_ORDINAL. lia.
Qed.

End TwoDigitYears.

Lemma two_digit_years_remapped_witness :
  strftime (mkDate (mkdatetime 50 1 1 0 0 0 0)) "%Y-%m-%d"
  = Ok "2050-01-01"%string.
Proof.
  destruct (two_digit_years_remapped example_offset example_now
              (mkDate (mkdatetime 50 1 1 0 0 0 0)) eq_refl) as (E & _);
    [cbn; lia|].
  rewrite E. reflexivity.
Defined.

Section Nesting.

Variable zone : Zone.
Variable now : datetime.

(** X25: the three ranges nest: the year range contains the month range,
    which contains the day range. *)
Theorem ranges_nest self :
  valid_datetime (dt self) = true -> year (dt self) < 9999 ->
  exists ys ye ms me ds de,
    year_tuple zone now self = Ok (ys, ye)
    /\ month_tuple zone now self = Ok (ms, me)
    /\ day_tuple zone now self = Ok (ds, de)
    /\ cmp (dt ys) (dt ms) <= 0 /\ cmp (dt ms) (dt ds) <= 0
    /\ cmp (dt de) (dt me) <= 0 /\ cmp (dt me) (dt ye) <= 0.
Proof.
  intros V Hn. unfold year_tuple, month_tuple, day_tuple.
  rewrite start_of_year_spec, end_of_year_spec by assumption.
  rewrite start_of_month_spec by exact V.
  rewrite end_of_month_spec by (try exact V; left; exact Hn).
  rewrite start_of_day_spec, end_of_day_spec by exact V. cbn [bind].
  do 6 eexists. do 3 (split; [reflexivity|]). cbn [dt].
  pose proof V as V0. apply valid_datetime_iff in V0.
  destruct V0 as (Vd & _). pose proof Vd as Vd0.
  apply valid_ymd_iff in Vd0. destruct Vd0 as (Hy & Hm & Hd).
  pose proof (days_before_month_nonneg (year (dt self)) (month (dt self)) Hm)
    as Hb.
  pose proof (days_in_month_bounds (year (dt self)) (month (dt self)) Hm)
    as Hdim.
  pose proof (ymd2ord_in_year (year (dt self)) (month (dt self))
                (Calendar.days_in_month (year (dt self)) (month (dt self)))
                Hm ltac:(lia)) as Hlast.
  fold (at_day_end (year (dt self)) (month (dt self))
          (Calendar.days_in_month (year (dt self)) (month (dt self)))).
  repeat split; apply cmp_le_micros;
    try (apply valid_at_midnight; first
           [exact Vd | apply first_day_valid; lia]);
    try (apply valid_at_day_end; first
           [exact Vd | apply last_day_valid; assumption
           | apply valid_ymd_iff; rewrite december_31; lia]);
    unfold micros, seconds_of_day, toordinal;
    cbn [year month day hour minute second microsecond at_midnight at_day_end];
    rewrite ?ymd2ord_january_1, ?ymd2ord_december_31;
    unfold ymd2ord in *; lia.
Qed.

End Nesting.

Lemma ranges_nest_witness :
  exists ys ye ms me ds de,
    year_tuple example_zone example_now
      (mkDate (mkdatetime 2009 2 14 0 31 30 0)) = Ok (ys, ye)
    /\ month_tuple example_zone example_now
         (mkDate (mkdatetime 2009 2 14 0 31 30 0)) = Ok (ms, me)
    /\ day_tuple example_zone example_now
         (mkDate (mkdatetime 2009 2 14 0 31 30 0)) = Ok (ds, de)
    /\ cmp (dt ys) (dt ms) <= 0 /\ cmp (dt ms) (dt ds) <= 0
    /\ cmp (dt de) (dt me) <= 0 /\ cmp (dt me) (dt ye) <= 0.
Proof.
  apply (ranges_nest example_zone example_now
           (mkDate (mkdatetime 2009 2 14 0 31 30 0)));
    [reflexivity | cbn; lia].
Defined.
